(** * adbb.py: screen recording and screenshot control panel

    A shallow embedding of [src/adbb.py] and the properties of its three
    actions (start recording, stop recording, take screenshot).

    Layout of the development:
    - [PyStr]: the Python string operations the program uses
      ([str.strip], [str.splitlines], the substring test [in]);
    - [PyTime]: [time.strftime("%Y%m%d_%H%M%S")];
    - the process state (the globals [recording] and [record_thread], the
      pool of worker threads, the log of observable events) and a small
      state-and-exception monad in which the functions of the module are
      written;
    - the functions of the module, in source order;
    - the interleaving semantics: the three button handlers run on the
      interactive thread, a worker thread advances one statement at a time;
    - the handlers one statement at a time, for the states inside a
      handler call;
    - the theorems. *)

From Stdlib Require Import String Ascii List Arith Lia Bool.
From Stdlib Require Import DecimalString.
From stdpp Require Import base list strings.
Import ListNotations.
Open Scope string_scope.
Open Scope list_scope.
Open Scope nat_scope.

(* [simpl] unfolds string concatenation as it does for lists. *)
#[local] Arguments String.append !_ _ / : simpl nomatch.

(* ===================================================================== *)
(** * Python strings *)
(* ===================================================================== *)

(** A Python [str] is modelled by [string]; a character stands for the code
    point with the same number, so the model covers text in the range
    U+0000..U+00FF. *)

Module PyStr.

(** [str.isspace] on one character, restricted to code points below 256:
    TAB, LF, VT, FF, CR, FS, GS, RS, US, SPACE, NEL and NBSP. *)
Definition is_space (c : ascii) : bool :=
  let n := nat_of_ascii c in
  (((9 <=? n) && (n <=? 13)) || ((28 <=? n) && (n <=? 32))
   || (n =? 133) || (n =? 160))%nat.

(** The line boundaries of [str.splitlines] below 256: LF, VT, FF, CR,
    FS, GS, RS and NEL (CR LF counts as one boundary, see [splitlines]). *)
Definition is_linebreak (c : ascii) : bool :=
  let n := nat_of_ascii c in
  (((10 <=? n) && (n <=? 13)) || ((28 <=? n) && (n <=? 30))
   || (n =? 133))%nat.

Definition CR : ascii := ascii_of_nat 13.
Definition LF : ascii := ascii_of_nat 10.

(** [bool(s)] for a string: the empty string is falsy. *)
Definition truthy (s : string) : bool := negb (s =? "")%string.

(** [s.lstrip()] *)
Fixpoint lstrip (s : string) : string :=
  match s with
  | "" => ""
  | String c s' => if is_space c then lstrip s' else s
  end.

(** [s.rstrip()] *)
Fixpoint rstrip (s : string) : string :=
  match s with
  | "" => ""
  | String c s' =>
      match rstrip s' with
      | "" => if is_space c then "" else String c ""
      | r => String c r
      end
  end.

(** [s.strip()] *)
Definition strip (s : string) : string := rstrip (lstrip s).

(** [s.splitlines()]: the lines of [s] without their line boundaries; a
    final boundary does not open a further (empty) line. *)
Fixpoint splitlines (s : string) : list string :=
  match s with
  | "" => []
  | String c s' =>
      if is_linebreak c then
        "" :: match s' with
              | String c' s'' =>
                  if (c =? CR)%char && (c' =? LF)%char
                  then splitlines s'' else splitlines s'
              | "" => []
              end
      else
        match splitlines s' with
        | [] => [String c ""]
        | l :: ls => String c l :: ls
        end
  end.

(** [sub in s] for strings: [sub] occurs in [s] as a contiguous block. *)
Fixpoint str_in (sub s : string) : bool :=
  String.prefix sub s
  || match s with
     | "" => false
     | String _ s' => str_in sub s'
     end.

End PyStr.

Import PyStr.

(** ** Notions used to describe trimming *)

(** All characters are white space. *)
Fixpoint all_space (s : string) : bool :=
  match s with
  | "" => true
  | String c s' => is_space c && all_space s'
  end.

Definition first_char (s : string) : option ascii :=
  match s with "" => None | String c _ => Some c end.

Fixpoint last_char (s : string) : option ascii :=
  match s with
  | "" => None
  | String c "" => Some c
  | String _ s' => last_char s'
  end.

(** Neither the first nor the last character is white space. *)
Definition trimmed (s : string) : Prop :=
  (forall c, first_char s = Some c -> is_space c = false)
  /\ (forall c, last_char s = Some c -> is_space c = false).

(** What [rstrip] does to the lines of a text: blank lines at the end go,
    and the last line that stays is trimmed on the right. *)
Fixpoint rstrip_lines (ls : list string) : list string :=
  match ls with
  | [] => []
  | l :: ls' =>
      match rstrip_lines ls' with
      | [] => match rstrip l with "" => [] | r => [r] end
      | rs => l :: rs
      end
  end.

(* ===================================================================== *)
(** * Time stamps *)
(* ===================================================================== *)

Module PyTime.

(** The fields of [time.struct_time] that the format uses. *)
Record struct_time := {
  tm_year : nat; tm_mon : nat; tm_mday : nat;
  tm_hour : nat; tm_min : nat; tm_sec : nat
}.

(** Decimal representation of a number, no padding. *)
Definition dec (n : nat) : string := NilZero.string_of_uint (Nat.to_uint n).

(** Two digits, zero padded (the [%m], [%d], [%H], [%M], [%S] directives). *)
Definition pad2 (n : nat) : string := if n <? 10 then "0" +:+ dec n else dec n.

Definition directive (d : ascii) (t : struct_time) : string :=
  if (d =? "Y")%char then dec (tm_year t)
  else if (d =? "m")%char then pad2 (tm_mon t)
  else if (d =? "d")%char then pad2 (tm_mday t)
  else if (d =? "H")%char then pad2 (tm_hour t)
  else if (d =? "M")%char then pad2 (tm_min t)
  else if (d =? "S")%char then pad2 (tm_sec t)
  else String "%" (String d "").

(** [time.strftime(fmt, t)] for the directives above; other characters
    are copied. *)
Fixpoint strftime (fmt : string) (t : struct_time) : string :=
  match fmt with
  | "" => ""
  | String c rest =>
      match rest with
      | String d rest' =>
          if (c =? "%")%char then directive d t +:+ strftime rest' t
          else String c (strftime rest t)
      | "" => String c ""
      end
  end.

(** The ranges of the fields of a [struct_time] read from the clock, for
    a four-digit year. *)
Definition valid_time (t : struct_time) : Prop :=
  1000 <= tm_year t < 100 * 100 /\ 1 <= tm_mon t <= 12 /\ 1 <= tm_mday t <= 31
  /\ tm_hour t <= 23 /\ tm_min t <= 59 /\ tm_sec t <= 61.

Definition is_digit (c : ascii) : bool :=
  let n := nat_of_ascii c in (48 <=? n)%nat && (n <=? 57)%nat.

(** [matches pat s]: [s] has the shape [pat], where the letters
    [Y], [M], [D], [H], [S] of the pattern stand for one decimal digit each
    and every other character stands for itself. *)
Definition is_digit_letter (p : ascii) : bool :=
  (p =? "Y")%char || (p =? "M")%char || (p =? "D")%char
  || (p =? "H")%char || (p =? "S")%char.

Fixpoint matches (pat s : string) : bool :=
  match pat, s with
  | "", "" => true
  | String p pat', String c s' =>
      (if is_digit_letter p then is_digit c else (p =? c)%char)
      && matches pat' s'
  | _, _ => false
  end.

End PyTime.

Import PyTime.

(* ===================================================================== *)
(** * Processes, threads, events *)
(* ===================================================================== *)

(** The result of [subprocess.run(..., text=True)]. *)
Record CompletedProcess := { cp_stdout : string; cp_stderr : string }.

(** A raised exception (an instance of [Exception]): its class name and
    the text [str(e)]. *)
Record exn := { exn_class : string; exn_str : string }.

(** A call either returns or raises. *)
Inductive outcome (A : Type) : Type :=
| Returned (a : A)
| Raised (e : exn).
Arguments Returned {A} a.
Arguments Raised {A} e.

Inductive thread_id : Type :=
| MainThread
| WorkerThread (n : nat).

(** What the program does to the outside world. Calls into the external
    tool are logged with what they gave back. *)
Inductive event : Type :=
| EvRun (argv : list string) (r : outcome CompletedProcess)
    (* subprocess.run(argv, ...) *)
| EvPopen (argv : list string) (r : outcome nat)
    (* subprocess.Popen(argv, ...), giving a process handle *)
| EvTerminate (proc : nat) (r : outcome unit)
    (* proc.terminate() *)
| EvSleep (ms : nat)
    (* time.sleep, in milliseconds *)
| EvShowError (title msg : string)
| EvShowWarning (title msg : string)
| EvShowInfo (title msg : string)
    (* messagebox.showerror / showwarning / showinfo *)
| EvStatus (text : string)
    (* set_status: the status label and the console *)
| EvThreadStart (n : nat).
    (* Thread.start() *)

Definition trace : Type := list (thread_id * event).

(** The outside world: what the external tool, the operating system and
    the clock answer, as a function of everything that happened so far. *)
Record Env := {
  env_run : trace -> list string -> outcome CompletedProcess;
  env_popen : trace -> list string -> outcome nat;
  env_terminate : trace -> nat -> outcome unit;
  env_localtime : trace -> struct_time
}.

(** The program points of [_record_worker]; the constructor arguments are
    the live local variables ([out_filename], [proc], [e], [stderr]). *)
Inductive wstate : Type :=
| WCreated                              (* Thread object, not started *)
| WInit                                 (* started; at line 89 *)
| WSpawn (out_filename : string)        (* at line 95: Popen *)
| WAbortFlag (e : exn)                  (* at line 102 *)
| WAbortStatus (e : exn)                (* at line 103 *)
| WAborted                              (* returned at line 104 *)
| WPoll (out_filename : string) (proc : nat)   (* at line 107: loop test *)
| WSleep (out_filename : string) (proc : nat)  (* at line 108 *)
| WStop (out_filename : string) (proc : nat)   (* at line 111 *)
| WTerminate (out_filename : string) (proc : nat) (* at line 112 *)
| WFlush (out_filename : string)        (* at line 116 *)
| WPullStatus (out_filename : string)   (* at line 119 *)
| WPull (out_filename : string)         (* at line 120 *)
| WReport (out_filename stderr : string) (* at line 121 *)
| WCleanup                              (* at line 127 *)
| WDone                                 (* fell off the end *)
| WCrashed (e : exn).                   (* ended by an uncaught exception *)

(** [Thread.is_alive()] *)
Definition is_alive (w : wstate) : bool :=
  match w with
  | WCreated | WAborted | WDone | WCrashed _ => false
  | _ => true
  end.

(** The state of the process: the module globals [recording] and
    [record_thread], the threads created so far (a thread is named by its
    index), and the log of events. *)
Record Sys := {
  recording : bool;
  record_thread : option nat;
  threads : list wstate;
  log : trace
}.

Definition initial : Sys :=
  {| recording := false; record_thread := None; threads := []; log := [] |}.

(* ===================================================================== *)
(** * The monad of the program *)
(* ===================================================================== *)

(** A computation runs on a thread, reads and changes the state, and
    returns or raises. *)
Definition Py (A : Type) : Type := thread_id -> Sys -> outcome A * Sys.

Definition ret {A} (a : A) : Py A := fun _ s => (Returned a, s).

Definition bind {A B} (m : Py A) (k : A -> Py B) : Py B :=
  fun t s =>
    match m t s with
    | (Returned a, s') => k a t s'
    | (Raised e, s') => (Raised e, s')
    end.

(** [try: m  except Exception as e: h e] *)
Definition try_except {A} (m : Py A) (h : exn -> Py A) : Py A :=
  fun t s =>
    match m t s with
    | (Returned a, s') => (Returned a, s')
    | (Raised e, s') => h e t s'
    end.

Declare Scope py_scope.
Delimit Scope py_scope with py.
Notation "x <- m ;; k" := (bind m (fun x => k))
  (at level 100, m at level 99, right associativity) : py_scope.
Notation "m ;; k" := (bind m (fun _ => k))
  (at level 100, right associativity) : py_scope.
Open Scope py_scope.

Definition emit (ev : event) : Py unit :=
  fun t s =>
    (Returned tt,
     {| recording := recording s; record_thread := record_thread s;
        threads := threads s; log := log s ++ [(t, ev)] |}).

Definition get_recording : Py bool := fun _ s => (Returned (recording s), s).

Definition set_recording (b : bool) : Py unit :=
  fun _ s =>
    (Returned tt,
     {| recording := b; record_thread := record_thread s;
        threads := threads s; log := log s |}).

Definition set_record_thread (n : nat) : Py unit :=
  fun _ s =>
    (Returned tt,
     {| recording := recording s; record_thread := Some n;
        threads := threads s; log := log s |}).

Definition set_thread (n : nat) (w : wstate) (s : Sys) : Sys :=
  {| recording := recording s; record_thread := record_thread s;
     threads := <[n := w]> (threads s); log := log s |}.

(** [threading.Thread(target=_record_worker, daemon=True)]: a new thread
    object, named by the next free index. *)
Definition threading_Thread : Py nat :=
  fun _ s =>
    (Returned (length (threads s)),
     {| recording := recording s; record_thread := record_thread s;
        threads := threads s ++ [WCreated]; log := log s |}).

(** [th.start()]; starting a thread twice raises [RuntimeError]. *)
Definition Thread_start (n : nat) : Py unit :=
  fun t s =>
    match threads s !! n with
    | Some WCreated => emit (EvThreadStart n) t (set_thread n WInit s)
    | _ => (Raised {| exn_class := "RuntimeError";
                      exn_str := "threads can only be started once" |}, s)
    end.

Definition messagebox_showerror (title msg : string) : Py unit :=
  emit (EvShowError title msg).
Definition messagebox_showwarning (title msg : string) : Py unit :=
  emit (EvShowWarning title msg).
Definition messagebox_showinfo (title msg : string) : Py unit :=
  emit (EvShowInfo title msg).
Definition time_sleep (ms : nat) : Py unit := emit (EvSleep ms).

Definition str (e : exn) : string := exn_str e.
Definition nl : string := String LF "".

(* ===================================================================== *)
(** * The module [adbb.py] *)
(* ===================================================================== *)

(** Line 11: the external tool. *)
Definition ADB_BIN : string := "adbb".

(** The local [device_tmp] of [_record_worker] (line 91) and of
    [take_screenshot] (line 148). *)
Definition record_device_tmp : string := "/sdcard/tre_record_tmp.mp4".
Definition screenshot_device_tmp : string := "/sdcard/tre_screenshot_tmp.png".

Definition timestamp_format : string := "%Y%m%d_%H%M%S".

Section Program.

Variable env : Env.

(** The four calls that leave the process. *)
Definition subprocess_run (argv : list string) : Py CompletedProcess :=
  fun t s =>
    let r := env_run env (log s) argv in
    match emit (EvRun argv r) t s with (_, s') => (r, s') end.

Definition subprocess_Popen (argv : list string) : Py nat :=
  fun t s =>
    let r := env_popen env (log s) argv in
    match emit (EvPopen argv r) t s with (_, s') => (r, s') end.

Definition proc_terminate (proc : nat) : Py unit :=
  fun t s =>
    let r := env_terminate env (log s) proc in
    match emit (EvTerminate proc r) t s with (_, s') => (r, s') end.

Definition time_strftime (fmt : string) : Py string :=
  fun _ s => (Returned (strftime fmt (env_localtime env (log s))), s).

(** Lines 25-29. The label and the console receive the same text; both are
    one [EvStatus] event. *)
Definition set_status (text : string) : Py unit := emit (EvStatus text).

(** Lines 32-47. *)
Definition adb_cmd (args_list : list string) : Py (string * string) :=
  try_except
    (result <- subprocess_run ([ADB_BIN] ++ args_list) ;;
     ret (strip (cp_stdout result), strip (cp_stderr result)))
    (fun e => ret ("", str e)).

(** Line 57: the condition of the list comprehension. *)
Definition device_line (ln : string) : bool :=
  truthy (strip ln) && str_in "device" ln.

(** Lines 50-64. *)
Definition check_device_connected : Py bool :=
  r <- adb_cmd ["devices"] ;;
  let '(out, err) := r in
  if truthy err then
    messagebox_showerror "ADBB Error"
      (ADB_BIN +:+ " devices failed:" +:+ nl +:+ err) ;;
    ret false
  else
    let lines := splitlines out in
    let devices := List.filter device_line (tl lines) in
    match devices with
    | [] =>
        messagebox_showwarning "No Device"
          ("No " +:+ ADB_BIN +:+ " device detected." +:+ nl +:+ nl
           +:+ "Check USB/debugging and try again.") ;;
        ret false
    | _ :: _ => ret true
    end.

(** Lines 70-83. *)
Definition start_recording : Py unit :=
  r <- get_recording ;;
  if r then
    messagebox_showinfo "Info" "Recording is already in progress."
  else
    ok <- check_device_connected ;;
    if negb ok then ret tt
    else
      set_recording true ;;
      th <- threading_Thread ;;
      set_record_thread th ;;
      Thread_start th ;;
      set_status "Recording: ON".

(** Lines 86-127, one statement at a time: [_record_worker_step w] runs
    the statement at program point [w] and gives the next program point. *)
Definition _record_worker_step (w : wstate) : Py wstate :=
  match w with
  | WInit =>
      timestamp <- time_strftime timestamp_format ;;
      let out_filename := "record_" +:+ timestamp +:+ ".mp4" in
      set_status ("Starting " +:+ ADB_BIN +:+ " screenrecord...") ;;
      ret (WSpawn out_filename)
  | WSpawn out_filename =>
      try_except
        (proc <- subprocess_Popen
                   [ADB_BIN; "shell"; "screenrecord"; record_device_tmp] ;;
         ret (WPoll out_filename proc))
        (fun e => ret (WAbortFlag e))
  | WAbortFlag e =>
      set_recording false ;;
      ret (WAbortStatus e)
  | WAbortStatus e =>
      set_status ("Failed to start screenrecord: " +:+ str e) ;;
      ret WAborted
  | WPoll out_filename proc =>
      r <- get_recording ;;
      ret (if r then WSleep out_filename proc else WStop out_filename proc)
  | WSleep out_filename proc =>
      time_sleep 200 ;;
      ret (WPoll out_filename proc)
  | WStop out_filename proc =>
      set_status "Stopping recording, please wait..." ;;
      ret (WTerminate out_filename proc)
  | WTerminate out_filename proc =>
      try_except (proc_terminate proc) (fun _ => ret tt) ;;
      ret (WFlush out_filename)
  | WFlush out_filename =>
      time_sleep 1000 ;;
      ret (WPullStatus out_filename)
  | WPullStatus out_filename =>
      set_status "Pulling video from device..." ;;
      ret (WPull out_filename)
  | WPull out_filename =>
      r <- adb_cmd ["pull"; record_device_tmp; out_filename] ;;
      let '(stdout, stderr) := r in
      ret (WReport out_filename stderr)
  | WReport out_filename stderr =>
      (if truthy stderr
       then set_status ("Pull error: " +:+ stderr)
       else set_status ("Saved recording: " +:+ out_filename)) ;;
      ret WCleanup
  | WCleanup =>
      adb_cmd ["shell"; "rm"; record_device_tmp] ;;
      ret WDone
  | WCreated | WAborted | WDone | WCrashed _ => ret w
  end.

(** Lines 130-136. *)
Definition stop_recording : Py unit :=
  r <- get_recording ;;
  if negb r then
    messagebox_showinfo "Info" "No recording is currently running."
  else
    set_recording false ;;
    set_status "Recording: Stopping...".

(** Lines 142-163. *)
Definition take_screenshot : Py unit :=
  ok <- check_device_connected ;;
  if negb ok then ret tt
  else
    timestamp <- time_strftime timestamp_format ;;
    let out_filename := "screenshot_" +:+ timestamp +:+ ".png" in
    set_status "Capturing screenshot on device..." ;;
    r <- adb_cmd ["shell"; "screencap"; "-p"; screenshot_device_tmp] ;;
    let '(stdout, stderr) := r in
    if truthy stderr then
      messagebox_showerror "ADBB Error" ("screencap failed:" +:+ nl +:+ stderr)
    else
      set_status "Pulling screenshot from device..." ;;
      r <- adb_cmd ["pull"; screenshot_device_tmp; out_filename] ;;
      let '(stdout, stderr) := r in
      if truthy stderr then
        messagebox_showerror "ADBB Error" ("pull failed:" +:+ nl +:+ stderr)
      else
        adb_cmd ["shell"; "rm"; screenshot_device_tmp] ;;
        set_status ("Saved screenshot: " +:+ out_filename).

(* --------------------------------------------------------------------- *)
(** ** Threads *)
(* --------------------------------------------------------------------- *)

(** What can happen next: a click on one of the three buttons (lines
    185-204), served on the interactive thread, or worker [n] running its
    next statement. The handlers run one after the other on the
    interactive thread. A handler is taken as one step: it reads the flag
    [recording] once, at its first line, and the only write of a worker
    (line 102) stores [False], so a worker statement between the lines of
    a handler can be moved before or after the handler without changing
    the flag, the threads, or what each thread logs. *)
Inductive action : Type :=
| ClickStart
| ClickStop
| ClickScreenshot
| Sched (n : nat).

(** Worker [n] runs one statement. A thread that is not running does
    nothing; an exception that leaves [_record_worker] ends the thread. *)
Definition sched (n : nat) (s : Sys) : Sys :=
  match threads s !! n with
  | Some w =>
      if is_alive w then
        match _record_worker_step w (WorkerThread n) s with
        | (Returned w', s') => set_thread n w' s'
        | (Raised e, s') => set_thread n (WCrashed e) s'
        end
      else s
  | None => s
  end.

Definition step (a : action) (s : Sys) : Sys :=
  match a with
  | ClickStart => snd (start_recording MainThread s)
  | ClickStop => snd (stop_recording MainThread s)
  | ClickScreenshot => snd (take_screenshot MainThread s)
  | Sched n => sched n s
  end.

Definition run (acts : list action) (s : Sys) : Sys :=
  fold_left (fun s a => step a s) acts s.

End Program.

(* ===================================================================== *)
(** * Observations on a run *)
(* ===================================================================== *)

(** The tool ran to completion and wrote nothing but white space on its
    error stream. *)
Definition run_clean (r : outcome CompletedProcess) : bool :=
  match r with
  | Returned cp => negb (truthy (strip (cp_stderr cp)))
  | Raised _ => false
  end.

(** The error text of a call of the tool: its trimmed error stream, or the
    text of the exception when the call could not be made. *)
Definition stream_error (r : outcome CompletedProcess) : string :=
  match r with
  | Returned cp => strip (cp_stderr cp)
  | Raised e => str e
  end.

(** The state after further events were logged. *)
Definition logged (s : Sys) (evs : trace) : Sys :=
  {| recording := recording s; record_thread := record_thread s;
     threads := threads s; log := log s ++ evs |}.

(** The events logged between two states. *)
Definition emitted (s s' : Sys) : trace := drop (length (log s)) (log s').

(** The output text of a call of the tool as the executor hands it on. *)
Definition stream_output (r : outcome CompletedProcess) : string :=
  match r with
  | Returned cp => strip (cp_stdout cp)
  | Raised _ => ""
  end.

(** A listing shows a device: a line after the first one counts. *)
Definition shows_device (out : string) : bool :=
  existsb device_line (tl (splitlines out)).

(** The two notices of the presence check (lines 53 and 59). *)
Definition devices_failed (err : string) : event :=
  EvShowError "ADBB Error" (ADB_BIN +:+ " devices failed:" +:+ nl +:+ err).

Definition no_device_warning : event :=
  EvShowWarning "No Device"
    ("No " +:+ ADB_BIN +:+ " device detected." +:+ nl +:+ nl
     +:+ "Check USB/debugging and try again.").

(** The command lines of the program. *)
Definition devices_cmd : list string := [ADB_BIN; "devices"].
Definition screencap_cmd : list string :=
  [ADB_BIN; "shell"; "screencap"; "-p"; screenshot_device_tmp].
Definition pull_cmd (src dst : string) : list string :=
  [ADB_BIN; "pull"; src; dst].
Definition rm_cmd (path : string) : list string :=
  [ADB_BIN; "shell"; "rm"; path].
Definition screenrecord_cmd : list string :=
  [ADB_BIN; "shell"; "screenrecord"; record_device_tmp].

(** Every call of the tool among [evs] ran and reported no error. *)
Definition all_runs_clean (evs : list event) : bool :=
  forallb (fun ev => match ev with
                     | EvRun _ r => run_clean r
                     | _ => true
                     end) evs.

(** [s] ends with [suffix]. *)
Definition ends_with (suffix s : string) : Prop :=
  exists pre, s = pre +:+ suffix.

(** The state after an accepted start request (lines 80-83): the flag is
    set, a new thread is created, remembered and started. *)
Definition started (t : thread_id) (s : Sys) (evs : trace) : Sys :=
  {| recording := true;
     record_thread := Some (length (threads s));
     threads := threads s ++ [WInit];
     log := log s ++ evs
               ++ [(t, EvThreadStart (length (threads s)));
                   (t, EvStatus "Recording: ON")] |}.

(** The state after an accepted stop request (lines 135-136). *)
Definition stopping (t : thread_id) (s : Sys) : Sys :=
  {| recording := false;
     record_thread := record_thread s;
     threads := threads s;
     log := log s ++ [(t, EvStatus "Recording: Stopping...")] |}.

Definition already_recording : event :=
  EvShowInfo "Info" "Recording is already in progress.".

Definition not_recording : event :=
  EvShowInfo "Info" "No recording is currently running.".

(** The file names of lines 90 and 147 for a given time. *)
Definition record_name (tm : struct_time) : string :=
  "record_" +:+ strftime timestamp_format tm +:+ ".mp4".
Definition screenshot_name (tm : struct_time) : string :=
  "screenshot_" +:+ strftime timestamp_format tm +:+ ".png".

(** The ways a screenshot request can go, as the events it logs: [r0] is
    the answer to [adbb devices] and [tm] the time read at line 146. *)
Inductive screenshot_run (t : thread_id) (r0 : outcome CompletedProcess)
    (tm : struct_time) : trace -> Prop :=
| shot_devices_failed :
    truthy (stream_error r0) = true ->
    screenshot_run t r0 tm
      [(t, EvRun devices_cmd r0); (t, devices_failed (stream_error r0))]
| shot_no_device :
    truthy (stream_error r0) = false ->
    shows_device (stream_output r0) = false ->
    screenshot_run t r0 tm
      [(t, EvRun devices_cmd r0); (t, no_device_warning)]
| shot_capture_failed r1 :
    truthy (stream_error r0) = false ->
    shows_device (stream_output r0) = true ->
    truthy (stream_error r1) = true ->
    screenshot_run t r0 tm
      [(t, EvRun devices_cmd r0);
       (t, EvStatus "Capturing screenshot on device...");
       (t, EvRun screencap_cmd r1);
       (t, EvShowError "ADBB Error"
             ("screencap failed:" +:+ nl +:+ stream_error r1))]
| shot_pull_failed r1 r2 :
    truthy (stream_error r0) = false ->
    shows_device (stream_output r0) = true ->
    truthy (stream_error r1) = false ->
    truthy (stream_error r2) = true ->
    screenshot_run t r0 tm
      [(t, EvRun devices_cmd r0);
       (t, EvStatus "Capturing screenshot on device...");
       (t, EvRun screencap_cmd r1);
       (t, EvStatus "Pulling screenshot from device...");
       (t, EvRun (pull_cmd screenshot_device_tmp (screenshot_name tm)) r2);
       (t, EvShowError "ADBB Error"
             ("pull failed:" +:+ nl +:+ stream_error r2))]
| shot_saved r1 r2 r3 :
    truthy (stream_error r0) = false ->
    shows_device (stream_output r0) = true ->
    truthy (stream_error r1) = false ->
    truthy (stream_error r2) = false ->
    screenshot_run t r0 tm
      [(t, EvRun devices_cmd r0);
       (t, EvStatus "Capturing screenshot on device...");
       (t, EvRun screencap_cmd r1);
       (t, EvStatus "Pulling screenshot from device...");
       (t, EvRun (pull_cmd screenshot_device_tmp (screenshot_name tm)) r2);
       (t, EvRun (rm_cmd screenshot_device_tmp) r3);
       (t, EvStatus ("Saved screenshot: " +:+ screenshot_name tm))].

(** The state after a statement that logged [evs] and left the flag at
    [b]. *)
Definition relog (s : Sys) (b : bool) (evs : trace) : Sys :=
  {| recording := b; record_thread := record_thread s;
     threads := threads s; log := log s ++ evs |}.

(** ** What a worker has done when it stands at a program point *)

Definition starting_status : event :=
  EvStatus ("Starting " +:+ ADB_BIN +:+ " screenrecord...").

Definition failed_status (e : exn) : event :=
  EvStatus ("Failed to start screenrecord: " +:+ str e).

(** Line 121-124: the status after the pull. *)
Definition pull_report (out_filename : string)
    (rp : outcome CompletedProcess) : event :=
  EvStatus (if truthy (stream_error rp)
            then "Pull error: " +:+ stream_error rp
            else "Saved recording: " +:+ out_filename).

(** Lines 94-108: the capture process runs and the worker has slept [k]
    times in its loop. *)
Definition polling (proc k : nat) : list event :=
  [starting_status; EvPopen screenrecord_cmd (Returned proc)]
  ++ repeat (EvSleep 200) k.

(** Lines 111-127: everything after the loop. *)
Definition teardown (proc : nat) (rt : outcome unit) (out_filename : string)
    (rp rrm : outcome CompletedProcess) : list event :=
  [EvStatus "Stopping recording, please wait...";
   EvTerminate proc rt;
   EvSleep 1000;
   EvStatus "Pulling video from device...";
   EvRun (pull_cmd record_device_tmp out_filename) rp;
   pull_report out_filename rp;
   EvRun (rm_cmd record_device_tmp) rrm].

(** Lines 94-103: the capture process could not be started. *)
Definition aborting (e : exn) : list event :=
  [starting_status; EvPopen screenrecord_cmd (Raised e)].

(** [worker_history env w evs]: a worker at program point [w] has logged
    exactly [evs]. The file name was made from a reading [tm] of the
    clock of [env]. A worker inside the teardown has logged a prefix of
    [teardown]; the answers it has not yet received are left open. *)
Inductive worker_history (env : Env) : wstate -> list event -> Prop :=
| wh_created : worker_history env WCreated []
| wh_init : worker_history env WInit []
| wh_spawn tr :
    worker_history env (WSpawn (record_name (env_localtime env tr)))
      [starting_status]
| wh_abort_flag e : worker_history env (WAbortFlag e) (aborting e)
| wh_abort_status e : worker_history env (WAbortStatus e) (aborting e)
| wh_aborted e : worker_history env WAborted (aborting e ++ [failed_status e])
| wh_poll tr proc k :
    worker_history env (WPoll (record_name (env_localtime env tr)) proc)
      (polling proc k)
| wh_sleep tr proc k :
    worker_history env (WSleep (record_name (env_localtime env tr)) proc)
      (polling proc k)
| wh_stop tr proc k :
    worker_history env (WStop (record_name (env_localtime env tr)) proc)
      (polling proc k)
| wh_terminate tr proc k rt rp rrm :
    let fn := record_name (env_localtime env tr) in
    worker_history env (WTerminate fn proc)
      (polling proc k ++ take 1 (teardown proc rt fn rp rrm))
| wh_flush tr proc k rt rp rrm :
    let fn := record_name (env_localtime env tr) in
    worker_history env (WFlush fn)
      (polling proc k ++ take 2 (teardown proc rt fn rp rrm))
| wh_pull_status tr proc k rt rp rrm :
    let fn := record_name (env_localtime env tr) in
    worker_history env (WPullStatus fn)
      (polling proc k ++ take 3 (teardown proc rt fn rp rrm))
| wh_pull tr proc k rt rp rrm :
    let fn := record_name (env_localtime env tr) in
    worker_history env (WPull fn)
      (polling proc k ++ take 4 (teardown proc rt fn rp rrm))
| wh_report tr proc k rt rp rrm :
    let fn := record_name (env_localtime env tr) in
    worker_history env (WReport fn (stream_error rp))
      (polling proc k ++ take 5 (teardown proc rt fn rp rrm))
| wh_cleanup tr proc k rt rp rrm :
    let fn := record_name (env_localtime env tr) in
    worker_history env WCleanup
      (polling proc k ++ take 6 (teardown proc rt fn rp rrm))
| wh_done tr proc k rt rp rrm :
    let fn := record_name (env_localtime env tr) in
    worker_history env WDone
      (polling proc k ++ teardown proc rt fn rp rrm).

(** The events of one thread, in order. *)
Definition events_of (t : thread_id) (tr : trace) : list event :=
  omap (fun p : thread_id * event =>
          match p.1, t with
          | MainThread, MainThread => Some p.2
          | WorkerThread n, WorkerThread m => if n =? m then Some p.2 else None
          | _, _ => None
          end) tr.

(** Every thread has the history of its program point, and a thread that
    does not exist yet has none. *)
Definition consistent (env : Env) (s : Sys) : Prop :=
  (forall n w, threads s !! n = Some w ->
               worker_history env w (events_of (WorkerThread n) (log s)))
  /\ (forall n, length (threads s) <= n ->
                events_of (WorkerThread n) (log s) = []).

(** All events of [evs] come from the interactive thread. *)
Definition main_only (evs : trace) : Prop :=
  Forall (fun p : thread_id * event => p.1 = MainThread) evs.

(** The command lines handed to the external tool, in order. *)
Definition commands (evs : list event) : list (list string) :=
  omap (fun ev => match ev with
                  | EvRun argv _ => Some argv
                  | EvPopen argv _ => Some argv
                  | _ => None
                  end) evs.

(** The files the external tool leaves in the working directory. The
    program never opens a file itself: a local file exists exactly because
    a [pull <src> <dst>] of the tool completed without an error report, and
    it is then named [dst]. *)
Definition local_files (evs : list event) : list string :=
  omap (fun ev => match ev with
                  | EvRun [_; verb; _; dst] r =>
                      if (verb =? "pull")%string && run_clean r
                      then Some dst else None
                  | _ => None
                  end) evs.

Definition is_terminate (ev : event) : bool :=
  match ev with EvTerminate _ _ => true | _ => false end.

Definition is_status (text : string) (ev : event) : bool :=
  match ev with EvStatus t => (t =? text)%string | _ => false end.

(** The number of occurrences of a command line among [cmds]. *)
Definition count_cmd (argv : list string) (cmds : list (list string)) : nat :=
  length (List.filter (fun c => bool_decide (c = argv)) cmds).

(** Threads that are running. *)
Definition active (s : Sys) : nat := length (List.filter is_alive (threads s)).

(** Workers that left [_record_worker] through the [except] branch of
    line 101, or are about to after having reset the flag. *)
Definition flag_reset_by_worker (w : wstate) : bool :=
  match w with WAbortStatus _ | WAborted => true | _ => false end.

(** Stop requests that were accepted (line 136). *)
Definition stops_accepted (tr : trace) : nat :=
  length (List.filter (is_status "Recording: Stopping...")
            (events_of MainThread tr)).

(** The number of times the flag [recording] went back to [False]. *)
Definition flag_resets (s : Sys) : nat :=
  stops_accepted (log s)
  + length (List.filter flag_reset_by_worker (threads s)).

(** The number of threads ever created, counting one more while the flag
    is off, never exceeds the number of times the flag was reset plus
    one. *)
Definition flag_bound (s : Sys) : Prop :=
  length (threads s) + (if recording s then 0 else 1) <= 1 + flag_resets s.

(** A line of the listing that counts as a device (line 57): it is not
    blank and the token occurs in it. *)
Definition qualifies (ln : string) : Prop :=
  strip ln <> "" /\ exists a b, ln = a +:+ "device" +:+ b.

(** The text [m] is [raw] without the white space around it. *)
Definition trimmed_of (raw m : string) : Prop :=
  exists a b, raw = a +:+ m +:+ b
              /\ all_space a = true /\ all_space b = true /\ trimmed m.

(** The capture process of the worker runs or ran: the worker is in its
    loop or after it. *)
Definition on_stop_path (w : wstate) : bool :=
  match w with
  | WPoll _ _ | WSleep _ _ | WStop _ _ | WTerminate _ _ | WFlush _
  | WPullStatus _ | WPull _ | WReport _ _ | WCleanup | WDone => true
  | _ => false
  end.

(** The thread was started and no exception left [_record_worker]. *)
Definition in_body (w : wstate) : bool :=
  match w with
  | WCreated | WCrashed _ => false
  | _ => true
  end.

(** The most statements a worker still runs when it finds the flag off. *)
Definition steps_left (w : wstate) : nat :=
  match w with
  | WInit => 10
  | WSpawn _ => 9
  | WSleep _ _ => 9
  | WPoll _ _ => 8
  | WStop _ _ => 7
  | WTerminate _ _ => 6
  | WFlush _ => 5
  | WPullStatus _ => 4
  | WPull _ => 3
  | WReport _ _ => 2
  | WCleanup => 1
  | WAbortFlag _ => 2
  | WAbortStatus _ => 1
  | WCreated | WAborted | WDone | WCrashed _ => 0
  end.

(* --------------------------------------------------------------------- *)
(** ** Sample worlds *)
(* --------------------------------------------------------------------- *)

Definition completed (out err : string) : outcome CompletedProcess :=
  Returned {| cp_stdout := out; cp_stderr := err |}.

Definition FileNotFoundError : exn :=
  {| exn_class := "FileNotFoundError";
     exn_str := "[Errno 2] No such file or directory: 'adbb'" |}.

Definition listing_one_device : string :=
  "List of devices attached" +:+ nl +:+ "emulator-5554" +:+ String (ascii_of_nat 9) "device"
  +:+ nl +:+ nl.

Definition listing_no_device : string :=
  "List of devices attached" +:+ nl +:+ nl.

Definition noon : struct_time :=
  {| tm_year := 2024; tm_mon := 3; tm_mday := 5;
     tm_hour := 12; tm_min := 0; tm_sec := 9 |}.

(** A world in which [adbb devices], [screencap], [pull] and [rm] answer
    as given, whatever happened before, and [Popen] answers [popen]. *)
Definition world (devices screencap pull rm : outcome CompletedProcess)
    (popen : outcome nat) : Env :=
  {| env_run := fun _ argv =>
       match argv with
       | [_; "devices"] => devices
       | [_; "shell"; "screencap"; _; _] => screencap
       | [_; "pull"; _; _] => pull
       | [_; "shell"; "rm"; _] => rm
       | _ => Raised {| exn_class := "ValueError"; exn_str := "unexpected" |}
       end;
     env_popen := fun _ _ => popen;
     env_terminate := fun _ _ => Returned tt;
     env_localtime := fun _ => noon |}.

Definition quiet : outcome CompletedProcess := completed "" "".

(** Everything works and one device is attached. *)
Definition world_ok : Env :=
  world (completed listing_one_device "") quiet quiet quiet (Returned 4711).

(** The tool is not installed. *)
Definition world_no_tool : Env :=
  world (Raised FileNotFoundError) (Raised FileNotFoundError)
    (Raised FileNotFoundError) (Raised FileNotFoundError)
    (Raised FileNotFoundError).

(** The listing has its header only. *)
Definition world_no_device : Env :=
  world (completed listing_no_device "") quiet quiet quiet (Returned 4711).

Definition remote_missing : string :=
  "adb: error: failed to stat remote object".

(** The pull fails. *)
Definition world_pull_fails : Env :=
  world (completed listing_one_device "") quiet
    (completed "" remote_missing) quiet (Returned 4711).

(** The capture process cannot be started. *)
Definition world_no_capture : Env :=
  world (completed listing_one_device "") quiet quiet quiet
    (Raised FileNotFoundError).

(** A whole session: start, the worker reaches its loop and sleeps once,
    stop, the worker runs to its end. *)
Definition session : list action :=
  [ClickStart; Sched 0; Sched 0; Sched 0; Sched 0; ClickStop]
  ++ repeat (Sched 0) 9.

(** Start, stop, and start again while the first worker waits at line 116
    for the device to flush the file. *)
Definition restart : list action :=
  [ClickStart; Sched 0; Sched 0; ClickStop; Sched 0; Sched 0; Sched 0;
   ClickStart].

(** Start, then stop and start again while the first worker sleeps at
    line 108; then both workers run on. *)
Definition quick_restart : list action :=
  [ClickStart; Sched 0; Sched 0; Sched 0; ClickStop; ClickStart;
   Sched 1; Sched 1; Sched 0; Sched 0].

(* ===================================================================== *)
(** * The handlers, one statement at a time *)
(* ===================================================================== *)

(** The program points of the interactive thread: the event loop waits
    for a click (line 210), or a handler is about to run the statement at
    the given line of [start_recording], [stop_recording] or
    [take_screenshot]. *)
Inductive mstate : Type :=
| MIdle
| MStart73
| MStart74
| MStart77
| MStart80
| MStart81
| MStart82
| MStart83
| MStop132
| MStop133
| MStop135
| MStop136
| MShot143
| MShot146
| MShot150 (out_filename : string)
| MShot151 (out_filename : string)
| MShot152 (out_filename stderr : string)
| MShot156 (out_filename : string)
| MShot157 (out_filename : string)
| MShot158 (out_filename stderr : string)
| MShot162 (out_filename : string)
| MShot163 (out_filename : string).

(** The three buttons and their commands (lines 185-204). *)
Inductive handler : Type :=
| OnStart
| OnStop
| OnScreenshot.

Definition entry (h : handler) : mstate :=
  match h with
  | OnStart => MStart73
  | OnStop => MStop132
  | OnScreenshot => MShot143
  end.

Definition button (h : handler) : action :=
  match h with
  | OnStart => ClickStart
  | OnStop => ClickStop
  | OnScreenshot => ClickScreenshot
  end.

(** Reading the global [record_thread]. *)
Definition get_record_thread : Py (option nat) :=
  fun _ s => (Returned (record_thread s), s).

(** [None.start()] *)
Definition AttributeError : exn :=
  {| exn_class := "AttributeError";
     exn_str := "'NoneType' object has no attribute 'start'" |}.

Section Statements.

Variable env : Env.

(** Lines 70-83, 130-136 and 142-163, one statement at a time:
    [handler_step m] runs the statement at program point [m] and gives
    the next program point. Every read and every write of the globals
    [recording] and [record_thread] is a statement of its own. A test of
    a local variable is taken together with the dialog it guards (lines
    152-154 and 158-160), a [return] with the statement before it, and a
    call of [check_device_connected] or [adb_cmd], which touch none of
    the globals, is one statement, as it is in [_record_worker_step]. *)
Definition handler_step (m : mstate) : Py mstate :=
  match m with
  | MIdle => ret MIdle
  | MStart73 =>
      r <- get_recording ;;
      ret (if r then MStart74 else MStart77)
  | MStart74 =>
      messagebox_showinfo "Info" "Recording is already in progress." ;;
      ret MIdle
  | MStart77 =>
      ok <- check_device_connected env ;;
      ret (if negb ok then MIdle else MStart80)
  | MStart80 =>
      set_recording true ;;
      ret MStart81
  | MStart81 =>
      th <- threading_Thread ;;
      set_record_thread th ;;
      ret MStart82
  | MStart82 =>
      rt <- get_record_thread ;;
      match rt with
      | Some th => Thread_start th ;; ret MStart83
      | None => fun _ s => (Raised AttributeError, s)
      end
  | MStart83 =>
      set_status "Recording: ON" ;;
      ret MIdle
  | MStop132 =>
      r <- get_recording ;;
      ret (if negb r then MStop133 else MStop135)
  | MStop133 =>
      messagebox_showinfo "Info" "No recording is currently running." ;;
      ret MIdle
  | MStop135 =>
      set_recording false ;;
      ret MStop136
  | MStop136 =>
      set_status "Recording: Stopping..." ;;
      ret MIdle
  | MShot143 =>
      ok <- check_device_connected env ;;
      ret (if negb ok then MIdle else MShot146)
  | MShot146 =>
      timestamp <- time_strftime env timestamp_format ;;
      ret (MShot150 ("screenshot_" +:+ timestamp +:+ ".png"))
  | MShot150 out_filename =>
      set_status "Capturing screenshot on device..." ;;
      ret (MShot151 out_filename)
  | MShot151 out_filename =>
      r <- adb_cmd env ["shell"; "screencap"; "-p"; screenshot_device_tmp] ;;
      let '(stdout, stderr) := r in
      ret (MShot152 out_filename stderr)
  | MShot152 out_filename stderr =>
      if truthy stderr then
        messagebox_showerror "ADBB Error"
          ("screencap failed:" +:+ nl +:+ stderr) ;;
        ret MIdle
      else ret (MShot156 out_filename)
  | MShot156 out_filename =>
      set_status "Pulling screenshot from device..." ;;
      ret (MShot157 out_filename)
  | MShot157 out_filename =>
      r <- adb_cmd env ["pull"; screenshot_device_tmp; out_filename] ;;
      let '(stdout, stderr) := r in
      ret (MShot158 out_filename stderr)
  | MShot158 out_filename stderr =>
      if truthy stderr then
        messagebox_showerror "ADBB Error" ("pull failed:" +:+ nl +:+ stderr) ;;
        ret MIdle
      else ret (MShot162 out_filename)
  | MShot162 out_filename =>
      adb_cmd env ["shell"; "rm"; screenshot_device_tmp] ;;
      ret (MShot163 out_filename)
  | MShot163 out_filename =>
      set_status ("Saved screenshot: " +:+ out_filename) ;;
      ret MIdle
  end.

(** The program between two statements: where the interactive thread
    stands, and the shared state. *)
Record App : Type :=
  { main_pc : mstate;
    sys : Sys }.

(** What can happen next, one statement at a time: the event loop takes
    a click and enters its handler, which it does only when no handler
    runs (a click that comes while a handler runs is served after it);
    the interactive thread runs the next statement of its handler; or
    worker [n] runs its next statement. An exception that leaves a
    handler is reported by Tk and the event loop goes on. *)
Inductive turn : Type :=
| TClick (h : handler)
| TMain
| TWorker (n : nat).

Definition turn_step (u : turn) (a : App) : App :=
  match u with
  | TClick h =>
      match main_pc a with
      | MIdle => {| main_pc := entry h; sys := sys a |}
      | _ => a
      end
  | TMain =>
      match handler_step (main_pc a) MainThread (sys a) with
      | (Returned m, s') => {| main_pc := m; sys := s' |}
      | (Raised _, s') => {| main_pc := MIdle; sys := s' |}
      end
  | TWorker n => {| main_pc := main_pc a; sys := sched env n (sys a) |}
  end.

Definition turns (us : list turn) (a : App) : App :=
  fold_left (fun a u => turn_step u a) us a.

End Statements.

(** The program after line 210 was reached. *)
Definition launched : App := {| main_pc := MIdle; sys := initial |}.

(** A handler that runs without a worker statement in between: the click,
    and as many statements of the interactive thread as the longest
    handler has. *)
Definition uninterrupted (h : handler) : list turn :=
  TClick h :: repeat TMain 10.

(** A schedule of whole handler calls and worker statements, read as a
    schedule by statements. *)
Definition statements_of (a : action) : list turn :=
  match a with
  | ClickStart => uninterrupted OnStart
  | ClickStop => uninterrupted OnStop
  | ClickScreenshot => uninterrupted OnScreenshot
  | Sched n => [TWorker n]
  end.

Definition by_statements (acts : list action) : list turn :=
  flat_map statements_of acts.

(** Between the write of the flag and the start of the thread (lines
    80-82) the interactive thread stands at line 81 or at line 82. *)
Definition starting_thread (m : mstate) : bool :=
  match m with
  | MStart81 | MStart82 => true
  | _ => false
  end.

(* ===================================================================== *)
(** * Notions for the properties of the whole program *)
(* ===================================================================== *)

(** The worker has left its loop (lines 111-127). *)
Definition past_loop (w : wstate) : bool :=
  match w with
  | WStop _ _ | WTerminate _ _ | WFlush _ | WPullStatus _ | WPull _
  | WReport _ _ | WCleanup | WDone => true
  | _ => false
  end.

(** The worker runs and has not yet seen the flag off (lines 89-108). *)
Definition before_teardown (w : wstate) : bool :=
  match w with
  | WInit | WSpawn _ | WAbortFlag _ | WPoll _ _ | WSleep _ _ => true
  | _ => false
  end.

(** The thread that [record_thread] names after the threads [ths] were
    created: the last one. *)
Definition last_handle (ths : list wstate) : option nat :=
  match length ths with
  | 0 => None
  | S k => Some k
  end.

(** The command lines of lines 51, 97, 120, 127, 151, 157 and 162, for
    the clock of [env]: the listing, the capture of a still or of a video
    to its fixed device path, the pull of such a path to a name made from
    a reading of the clock, and the delete of such a path. *)
Definition allowed_cmd (env : Env) (argv : list string) : Prop :=
  argv = devices_cmd
  \/ argv = screencap_cmd
  \/ argv = screenrecord_cmd
  \/ argv = rm_cmd record_device_tmp
  \/ argv = rm_cmd screenshot_device_tmp
  \/ (exists tr,
        argv = pull_cmd record_device_tmp (record_name (env_localtime env tr)))
  \/ (exists tr,
        argv = pull_cmd screenshot_device_tmp
                 (screenshot_name (env_localtime env tr))).

(** The four command lines of a screenshot request that goes through. *)
Definition screenshot_cmds (out_filename : string) : list (list string) :=
  [devices_cmd; screencap_cmd;
   pull_cmd screenshot_device_tmp out_filename;
   rm_cmd screenshot_device_tmp].

(** Reading a time stamp back: the number written by a run of decimal
    digits, and the six fields of YYYYMMDD_HHMMSS. *)
Definition parse_dec (s : string) : nat :=
  fold_left (fun acc c => 10 * acc + (nat_of_ascii c - 48))
    (list_ascii_of_string s) 0.

Definition parse_timestamp (s : string) : struct_time :=
  {| tm_year := parse_dec (substring 0 4 s);
     tm_mon := parse_dec (substring 4 2 s);
     tm_mday := parse_dec (substring 6 2 s);
     tm_hour := parse_dec (substring 9 2 s);
     tm_min := parse_dec (substring 11 2 s);
     tm_sec := parse_dec (substring 13 2 s) |}.

(** The time in the name of a recording and of a screenshot. *)
Definition time_of_record_name (name : string) : struct_time :=
  parse_timestamp (substring 7 15 name).
Definition time_of_screenshot_name (name : string) : struct_time :=
  parse_timestamp (substring 11 15 name).

(** A date and a time of day, as far as [valid_time] says. *)
Definition christmas : struct_time :=
  {| tm_year := 1999; tm_mon := 12; tm_mday := 25;
     tm_hour := 23; tm_min := 59; tm_sec := 58 |}.

(** A listing that shows a device while the tool starts its daemon and
    says so on its error stream. *)
Definition daemon_notice : string :=
  "* daemon not running; starting now at tcp:5037".

Definition world_daemon_starts : Env :=
  world (completed listing_one_device daemon_notice) quiet quiet quiet
    (Returned 4711).

(** What the main thread does (the button handlers): calls of the tool
    through [subprocess.run], dialogs, the status line and starting a
    thread. What a worker does ([_record_worker]): calls of the tool, the
    capture process and its end, sleeps and the status line. *)
Definition main_event (ev : event) : bool :=
  match ev with
  | EvRun _ _ | EvShowError _ _ | EvShowWarning _ _ | EvShowInfo _ _
  | EvStatus _ | EvThreadStart _ => true
  | _ => false
  end.

Definition worker_event (ev : event) : bool :=
  match ev with
  | EvRun _ _ | EvPopen _ _ | EvTerminate _ _ | EvSleep _ | EvStatus _ => true
  | _ => false
  end.

(** An event is logged by the main thread or by one of the [created]
    threads, and is one of the events of that kind of thread. *)
Definition thread_discipline (created : nat) (p : thread_id * event) : Prop :=
  match fst p with
  | MainThread => main_event (snd p) = true
  | WorkerThread n => n < created /\ worker_event (snd p) = true
  end.

(** What every run keeps: the remembered thread is the last one created;
    every thread was started and no exception ended it; while the flag is
    on, the last thread runs and has not seen the flag off; and until the
    flag is reset for the first time, every thread is in that state and
    the flag is on as soon as there is a thread. *)
Definition run_invariant (s : Sys) : Prop :=
  record_thread s = last_handle (threads s)
  /\ (forall n w, threads s !! n = Some w -> in_body w = true)
  /\ (recording s = true ->
      exists k w, length (threads s) = S k /\ threads s !! k = Some w
                  /\ before_teardown w = true)
  /\ (flag_resets s = 0 ->
      (forall n w, threads s !! n = Some w -> before_teardown w = true)
      /\ (recording s = false -> threads s = [])).

(** What every run keeps at every statement boundary: the remembered
    thread is the last one created; when the interactive thread stands at
    line 82, that thread was created and not started; and while the flag
    is on and the interactive thread is not between lines 80 and 82, the
    last thread runs and has not seen the flag off. *)
Definition app_invariant (a : App) : Prop :=
  record_thread (sys a) = last_handle (threads (sys a))
  /\ (main_pc a = MStart82 ->
      exists k, length (threads (sys a)) = S k
                /\ threads (sys a) !! k = Some WCreated)
  /\ (recording (sys a) = true -> starting_thread (main_pc a) = false ->
      exists k w, length (threads (sys a)) = S k
                  /\ threads (sys a) !! k = Some w
                  /\ before_teardown w = true).

(* ===================================================================== *)
(** * Strings: trimming, lines, substrings *)
(* ===================================================================== *)

Section StringFacts.

Implicit Types (s a b p : string) (c : ascii).

Lemma append_assoc a b s : (a +:+ b) +:+ s = a +:+ (b +:+ s).
Proof. induction a as [|c a IH]; simpl; congruence. Qed.

Lemma append_eq_nil a b : a +:+ b = "" -> a = "" /\ b = "".
Proof. destruct a; simpl; [auto | discriminate]. Qed.

Lemma linebreak_is_space c : is_linebreak c = true -> is_space c = true.
Proof.
  unfold is_linebreak, is_space. generalize (nat_of_ascii c). intros n H.
  repeat (apply orb_prop in H; destruct H as [H|H]);
    repeat (apply andb_prop in H; destruct H as [? ?]);
    repeat match goal with
           | H : (_ <=? _) = true |- _ => apply Nat.leb_le in H
           | H : (_ =? _) = true |- _ => apply Nat.eqb_eq in H
           end;
    repeat (apply orb_true_iff;
            first [ right; apply Nat.eqb_eq; lia
                  | left; apply andb_true_iff; split; apply Nat.leb_le; lia
                  | right; apply andb_true_iff; split; apply Nat.leb_le; lia
                  | left ]).
Qed.

Lemma all_space_app a b : all_space (a +:+ b) = all_space a && all_space b.
Proof.
  induction a as [|c a IH]; simpl; [reflexivity|].
  rewrite IH. apply andb_assoc.
Qed.

Lemma rstrip_all_space s : all_space s = true <-> rstrip s = "".
Proof.
  induction s as [|c s IH]; simpl; [tauto|].
  split.
  - intros [Hc Hs]%andb_prop. apply IH in Hs. rewrite Hs, Hc. reflexivity.
  - destruct (rstrip s) eqn:E; [|discriminate].
    destruct (is_space c); [|discriminate].
    intros _. simpl. apply IH. reflexivity.
Qed.

Lemma lstrip_spec s :
  exists a, s = a +:+ lstrip s /\ all_space a = true
            /\ forall c, first_char (lstrip s) = Some c -> is_space c = false.
Proof.
  induction s as [|c s (a & Hs & Ha & Hf)]; simpl.
  - exists "". repeat split. discriminate.
  - destruct (is_space c) eqn:Hc.
    + exists (String c a). simpl. rewrite Hc, Ha. repeat split; [congruence|auto].
    + exists "". simpl. repeat split. intros c' [= <-]. exact Hc.
Qed.

Lemma rstrip_spec s :
  exists b, s = rstrip s +:+ b /\ all_space b = true
            /\ forall c, last_char (rstrip s) = Some c -> is_space c = false.
Proof.
  induction s as [|c s (b & Hs & Hb & Hl)]; simpl.
  - exists "". repeat split. discriminate.
  - destruct (rstrip s) as [|c' r] eqn:E.
    + destruct (is_space c) eqn:Hc.
      * exists (String c b). simpl in *. rewrite Hc, Hb. split; [congruence|].
        split; [reflexivity | discriminate].
      * exists b. simpl in *. repeat split; [congruence | assumption |].
        intros c0 [= <-]. exact Hc.
    + exists b. simpl in *. repeat split; [congruence | assumption | exact Hl].
Qed.

(** Trimming on the right keeps the first character of what is left. *)
Lemma rstrip_first s c :
  first_char (rstrip s) = Some c -> first_char s = Some c.
Proof.
  destruct s as [|c0 s]; simpl; [discriminate|].
  destruct (rstrip s); [destruct (is_space c0)|]; simpl; congruence.
Qed.

Lemma strip_spec s :
  exists a b, s = a +:+ strip s +:+ b
              /\ all_space a = true /\ all_space b = true /\ trimmed (strip s).
Proof.
  unfold strip.
  destruct (lstrip_spec s) as (a & Hs & Ha & Hf).
  destruct (rstrip_spec (lstrip s)) as (b & Hm & Hb & Hl).
  exists a, b. repeat split; auto.
  - rewrite <- Hm. exact Hs.
  - intros c Hc. apply Hf, rstrip_first, Hc.
Qed.

Lemma rstrip_app a b :
  rstrip (a +:+ b) = match rstrip b with "" => rstrip a | r => a +:+ r end.
Proof.
  induction a as [|c a IH]; simpl.
  - destruct (rstrip b); reflexivity.
  - rewrite IH. destruct (rstrip b) eqn:E; [reflexivity|].
    destruct a; simpl; reflexivity.
Qed.

(** ** The substring test *)

Lemma prefix_spec p s : String.prefix p s = true <-> exists b, s = p +:+ b.
Proof.
  revert s. induction p as [|c p IH]; intros s.
  - destruct s; simpl; split; eauto.
  - destruct s as [|c' s]; simpl.
    + split; [discriminate | intros [b [=]]].
    + destruct (ascii_dec c c') as [->|Hne].
      * rewrite IH. split; intros [b Hb]; exists b; congruence.
      * split; [discriminate | intros [b [=]]; congruence].
Qed.

(** [sub in s] holds exactly when [s] is some text, then [sub], then some
    text. *)
Lemma str_in_spec p s :
  str_in p s = true <-> exists a b, s = a +:+ p +:+ b.
Proof.
  induction s as [|c s IH]; cbn [str_in].
  - rewrite orb_false_r, prefix_spec. split.
    + intros [b Hb]. exists "", b. exact Hb.
    + intros (a & b & H). symmetry in H. apply append_eq_nil in H as [-> H].
      exists b. simpl in H. congruence.
  - rewrite orb_true_iff, IH, prefix_spec. split.
    + intros [[b Hb] | (a & b & H)].
      * exists "", b. exact Hb.
      * exists (String c a), b. simpl. congruence.
    + intros ([|c' a] & b & H); simpl in H.
      * left. eauto.
      * right. exists a, b. congruence.
Qed.

(** ** Blank text *)

Lemma strip_blank s : strip s = "" <-> all_space s = true.
Proof.
  unfold strip. rewrite <- rstrip_all_space.
  destruct (lstrip_spec s) as (a & Hs & Ha & _).
  rewrite Hs at 2. rewrite all_space_app, Ha. reflexivity.
Qed.

Lemma truthy_strip s : truthy (strip s) = negb (all_space s).
Proof.
  unfold truthy. f_equal.
  destruct (all_space s) eqn:E.
  - apply strip_blank in E. rewrite E. reflexivity.
  - apply String.eqb_neq. intros H%strip_blank. congruence.
Qed.

Lemma all_space_rstrip s : all_space (rstrip s) = all_space s.
Proof.
  destruct (rstrip_spec s) as (b & Hs & Hb & _).
  rewrite Hs at 2. rewrite all_space_app, Hb, andb_true_r. reflexivity.
Qed.

Lemma all_space_lstrip s : all_space (lstrip s) = all_space s.
Proof.
  destruct (lstrip_spec s) as (a & Hs & Ha & _).
  rewrite Hs at 2. rewrite all_space_app, Ha. reflexivity.
Qed.

(** ** Lines *)

(** Induction on a text two characters at a time, as [splitlines] reads a
    CR LF pair. *)
Lemma string_ind2 (P : string -> Prop) :
  P "" ->
  (forall c, P (String c "")) ->
  (forall c c' s, P s -> P (String c' s) -> P (String c (String c' s))) ->
  forall s, P s.
Proof.
  intros H0 H1 H2 s.
  assert (P s /\ forall c, P (String c s)) as [? _]; [|assumption].
  induction s as [|c' s [IHs IHc]]; split; auto.
Qed.

Lemma splitlines_nil s : splitlines s = [] <-> s = "".
Proof.
  destruct s as [|c s]; simpl; [tauto|].
  split; [|discriminate].
  destruct (is_linebreak c); [discriminate|].
  destruct (splitlines s); discriminate.
Qed.

Lemma splitlines_cons2 c c' s :
  splitlines (String c (String c' s))
  = if is_linebreak c then
      "" :: (if (c =? CR)%char && (c' =? LF)%char
             then splitlines s else splitlines (String c' s))
    else
      match splitlines (String c' s) with
      | [] => [String c ""]
      | l :: ls => String c l :: ls
      end.
Proof. reflexivity. Qed.

(** The lines of a blank text are blank. *)
Lemma splitlines_all_space s :
  all_space s = true -> forallb all_space (splitlines s) = true.
Proof.
  induction s as [|c|c c' s IH IH'] using string_ind2.
  - reflexivity.
  - simpl. rewrite andb_true_r. intros Hc.
    destruct (is_linebreak c); simpl; [reflexivity|]. rewrite Hc. reflexivity.
  - intros H. assert (H' := H). cbn [all_space] in H.
    apply andb_prop in H as [Hc Hs]. assert (Hs' := Hs).
    fold (all_space (String c' s)) in Hs'.
    apply andb_prop in Hs as [Hc' Hs].
    specialize (IH Hs). specialize (IH' Hs').
    rewrite splitlines_cons2.
    destruct (is_linebreak c).
    + destruct ((c =? CR)%char && (c' =? LF)%char);
        cbn [forallb all_space]; assumption.
    + destruct (splitlines (String c' s)) as [|l ls];
        cbn [forallb all_space] in *; rewrite Hc; [reflexivity | exact IH'].
Qed.

Lemma rstrip_lines_blank ls :
  forallb all_space ls = true -> rstrip_lines ls = [].
Proof.
  induction ls as [|l ls IH]; simpl; [reflexivity|].
  intros [Hl Hls]%andb_prop. rewrite (IH Hls).
  apply rstrip_all_space in Hl. rewrite Hl. reflexivity.
Qed.

Lemma splitlines_blank_text s :
  all_space s = true ->
  splitlines (rstrip s) = rstrip_lines (splitlines s).
Proof.
  intros H. rewrite rstrip_lines_blank by (apply splitlines_all_space, H).
  apply rstrip_all_space in H. rewrite H. reflexivity.
Qed.

Lemma splitlines_cons_nonbreak c s :
  is_linebreak c = false ->
  splitlines (String c s)
  = match splitlines s with [] => [String c ""] | l :: ls => String c l :: ls end.
Proof. intros H. simpl. rewrite H. reflexivity. Qed.

Lemma rstrip_cons_nonblank c s :
  rstrip s <> "" -> rstrip (String c s) = String c (rstrip s).
Proof. simpl. destruct (rstrip s); congruence. Qed.

Lemma rstrip_lines_cons_nonblank l ls :
  rstrip_lines ls <> [] -> rstrip_lines (l :: ls) = l :: rstrip_lines ls.
Proof. simpl. destruct (rstrip_lines ls); congruence. Qed.

(** One more character in front of a text whose trimmed rest is not
    empty. *)
Lemma splitlines_rstrip_step c s :
  is_linebreak c = false -> rstrip s <> "" ->
  splitlines (rstrip s) = rstrip_lines (splitlines s) ->
  splitlines (rstrip (String c s)) = rstrip_lines (splitlines (String c s)).
Proof.
  intros Hc Hr IH.
  rewrite rstrip_cons_nonblank by assumption.
  rewrite !splitlines_cons_nonbreak by assumption.
  rewrite IH.
  assert (Hne : rstrip_lines (splitlines s) <> []).
  { rewrite <- IH. rewrite splitlines_nil. assumption. }
  destruct (splitlines s) as [|l ls]; [contradiction Hne; reflexivity|].
  cbn [rstrip_lines] in *.
  destruct (rstrip_lines ls) as [|r rs].
  - destruct (rstrip l) as [|c0 r0] eqn:El; [contradiction Hne; reflexivity|].
    rewrite rstrip_cons_nonblank by (rewrite El; discriminate).
    rewrite El. reflexivity.
  - reflexivity.
Qed.

Lemma splitlines_rstrip s :
  splitlines (rstrip s) = rstrip_lines (splitlines s).
Proof.
  induction s as [|c|c c' s IH IH'] using string_ind2.
  - reflexivity.
  - destruct (all_space (String c "")) eqn:Hb;
      [apply splitlines_blank_text, Hb|].
    simpl in Hb. rewrite andb_true_r in Hb.
    assert (Hl : is_linebreak c = false).
    { destruct (is_linebreak c) eqn:E; [|reflexivity].
      apply linebreak_is_space in E. congruence. }
    simpl. rewrite Hb, Hl. simpl. rewrite Hl, Hb. reflexivity.
  - destruct (all_space (String c (String c' s))) eqn:Hb;
      [apply splitlines_blank_text, Hb|].
    destruct (string_dec (rstrip (String c' s)) "") as [Er|Hne].
    + (* the rest is blank, so [c] is the only character that stays *)
      assert (Hrest : all_space (String c' s) = true)
        by (apply rstrip_all_space, Er).
      assert (Hc : is_space c = false).
      { cbn [all_space] in Hb, Hrest. rewrite Hrest, andb_true_r in Hb.
        exact Hb. }
      assert (Hl : is_linebreak c = false).
      { destruct (is_linebreak c) eqn:E; [|reflexivity].
        apply linebreak_is_space in E. congruence. }
      rewrite splitlines_cons_nonbreak by assumption.
      assert (Hlines := splitlines_all_space _ Hrest).
      change (rstrip (String c (String c' s)))
        with (match rstrip (String c' s) with
              | "" => if is_space c then "" else String c ""
              | r => String c r end).
      rewrite Er, Hc. simpl splitlines at 1. rewrite Hl.
      destruct (splitlines (String c' s)) as [|l ls].
      * simpl. rewrite Hc. reflexivity.
      * simpl in Hlines. apply andb_prop in Hlines as [Hl' Hls].
        cbn [rstrip_lines]. rewrite (rstrip_lines_blank _ Hls).
        apply rstrip_all_space in Hl'. simpl. rewrite Hl', Hc. reflexivity.
    + destruct (is_linebreak c) eqn:Hl;
        [|apply splitlines_rstrip_step; assumption].
      rewrite rstrip_cons_nonblank by assumption.
      assert (Hr : exists r, rstrip (String c' s) = String c' r).
      { destruct (rstrip (String c' s)) as [|c1 r] eqn:Er; [congruence|].
        assert (H : first_char (rstrip (String c' s)) = Some c1)
          by (rewrite Er; reflexivity).
        apply rstrip_first in H. simpl in H. exists r. congruence. }
      destruct Hr as [r Er]. rewrite Er in IH' |- *.
      rewrite !splitlines_cons2, Hl.
      destruct ((c =? CR)%char && (c' =? LF)%char) eqn:Hcrlf.
      * (* CR LF: the line ends after the pair *)
        assert (Hr : r = rstrip s /\ rstrip s <> "").
        { apply andb_prop in Hcrlf as [_ Hlf]. apply Ascii.eqb_eq in Hlf.
          subst c'. simpl in Er. destruct (rstrip s) eqn:E.
          - change (is_space LF) with true in Er. discriminate.
          - split; [congruence | discriminate]. }
        destruct Hr as [-> Hs]. rewrite IH.
        rewrite rstrip_lines_cons_nonblank; [reflexivity|].
        rewrite <- IH, splitlines_nil. assumption.
      * rewrite IH'.
        rewrite rstrip_lines_cons_nonblank; [reflexivity|].
        rewrite <- IH', splitlines_nil. discriminate.
Qed.

(** Trimming on the left only shortens the first line, when that line is
    not blank. *)
Lemma splitlines_lstrip s h rest :
  splitlines s = h :: rest -> all_space h = false ->
  splitlines (lstrip s) = lstrip h :: rest.
Proof.
  revert h rest. induction s as [|c s IH]; intros h rest; [discriminate|].
  destruct (is_linebreak c) eqn:Hl.
  - simpl. rewrite Hl. intros [= <- _]. discriminate.
  - rewrite splitlines_cons_nonbreak by assumption.
    destruct (is_space c) eqn:Hc.
    + cbn [lstrip]. rewrite Hc.
      destruct (splitlines s) as [|l ls] eqn:E; intros [= <- <-]; simpl;
        rewrite Hc; simpl; [discriminate|].
      intros Hb. apply IH; [reflexivity | assumption].
    + cbn [lstrip]. rewrite Hc.
      rewrite splitlines_cons_nonbreak by assumption.
      destruct (splitlines s) as [|l ls] eqn:E; intros [= <- <-] _; simpl;
        rewrite Hc; reflexivity.
Qed.

(** The lines after the first of the trimmed text. *)
Lemma splitlines_strip_tail s h rest :
  splitlines s = h :: rest -> all_space h = false ->
  tl (splitlines (strip s)) = rstrip_lines rest.
Proof.
  intros Hs Hh. unfold strip.
  rewrite splitlines_rstrip, (splitlines_lstrip _ _ _ Hs Hh).
  cbn [rstrip_lines].
  destruct (rstrip_lines rest); [|reflexivity].
  destruct (rstrip (lstrip h)) eqn:E; [|reflexivity].
  apply rstrip_all_space in E. rewrite all_space_lstrip in E. congruence.
Qed.

End StringFacts.

(* ===================================================================== *)
(** * The device listing *)
(* ===================================================================== *)

Section Listing.

Implicit Types (s ln : string) (ls : list string).

(** A line with the token is not blank, so the first half of the
    condition of line 57 follows from the second. *)
Lemma str_in_not_blank ln : str_in "device" ln = true -> all_space ln = false.
Proof.
  intros (a & b & ->)%str_in_spec.
  rewrite all_space_app. apply andb_false_iff. right. reflexivity.
Qed.

Lemma device_line_spec ln :
  device_line ln = true
  <-> strip ln <> "" /\ exists a b, ln = a +:+ "device" +:+ b.
Proof.
  unfold device_line. rewrite andb_true_iff, str_in_spec, truthy_strip.
  rewrite negb_true_iff, strip_blank. split; intros [H1 H2]; split; auto.
  - congruence.
  - destruct (all_space ln); congruence.
Qed.

Lemma str_in_rstrip ln : str_in "device" (rstrip ln) = str_in "device" ln.
Proof.
  apply eq_true_iff_eq. rewrite !str_in_spec. split.
  - intros (a & b & H). destruct (rstrip_spec ln) as (w & Hln & _).
    exists a, (b +:+ w). rewrite Hln, H, !append_assoc. reflexivity.
  - intros (a & b & ->). rewrite rstrip_app.
    assert (H : exists b', rstrip ("device" +:+ b) = "device" +:+ b').
    { rewrite rstrip_app. destruct (rstrip b) as [|c r].
      - exists "". reflexivity.
      - eexists. reflexivity. }
    destruct H as [b' ->]. exists a, b'. reflexivity.
Qed.

Lemma device_line_rstrip ln : device_line (rstrip ln) = device_line ln.
Proof.
  unfold device_line.
  rewrite str_in_rstrip, !truthy_strip, all_space_rstrip. reflexivity.
Qed.

Lemma device_line_blank ln : rstrip ln = "" -> device_line ln = false.
Proof.
  intros H%rstrip_all_space. unfold device_line.
  rewrite truthy_strip, H. reflexivity.
Qed.

(** Trimming the listing on the right neither adds nor removes a line that
    counts. *)
Lemma existsb_rstrip_lines ls :
  existsb device_line (rstrip_lines ls) = existsb device_line ls.
Proof.
  induction ls as [|l ls IH]; [reflexivity|].
  cbn [rstrip_lines existsb]. rewrite <- IH.
  destruct (rstrip_lines ls) as [|r rs]; [|reflexivity].
  destruct (rstrip l) as [|c r] eqn:E.
  - rewrite (device_line_blank _ E). reflexivity.
  - rewrite <- E. cbn [existsb]. rewrite device_line_rstrip. reflexivity.
Qed.

Lemma filter_nil_existsb {A} (f : A -> bool) (l : list A) :
  List.filter f l = [] <-> existsb f l = false.
Proof.
  induction l as [|x l IH]; simpl; [tauto|].
  destruct (f x); simpl; [split; discriminate | exact IH].
Qed.

(** The lines that count, after the first line, are the same in the raw
    and in the trimmed listing. *)
Lemma listing_trimmed s h rest :
  splitlines s = h :: rest -> strip h <> "" ->
  existsb device_line (tl (splitlines (strip s))) = existsb device_line rest.
Proof.
  intros Hs Hh.
  rewrite (splitlines_strip_tail _ _ _ Hs); [apply existsb_rstrip_lines|].
  destruct (all_space h) eqn:E; [|reflexivity].
  apply strip_blank in E. contradiction.
Qed.

End Listing.

(* ===================================================================== *)
(** * The shape of a time stamp *)
(* ===================================================================== *)

Section Timestamps.

Lemma matches_app p1 p2 s1 s2 :
  matches p1 s1 = true -> matches p2 s2 = true ->
  matches (p1 +:+ p2) (s1 +:+ s2) = true.
Proof.
  revert s1. induction p1 as [|p p1 IH]; intros [|c s1]; simpl;
    try discriminate; [auto|].
  intros [H1 H2]%andb_prop H. rewrite H1. simpl. auto.
Qed.

Lemma forallb_seq (f : nat -> bool) (lo len n : nat) :
  forallb f (seq lo len) = true -> lo <= n < lo + len -> f n = true.
Proof.
  intros H Hn. rewrite forallb_forall in H. apply H, in_seq. exact Hn.
Qed.

Lemma dec_year y : 1000 <= y < 100 * 100 -> matches "YYYY" (dec y) = true.
Proof.
  intros H.
  apply (forallb_seq (fun y => matches "YYYY" (dec y)) 1000 (9 * 1000)); [|lia].
  vm_compute. reflexivity.
Qed.

Lemma pad2_shape (p : ascii) n :
  is_digit_letter p = true -> n < 100 ->
  matches (String p (String p "")) (pad2 n) = true.
Proof.
  intros Hp H.
  apply (forallb_seq (fun n => matches (String p (String p "")) (pad2 n)) 0 100);
    [|lia].
  cbn [matches]. rewrite Hp. vm_compute. reflexivity.
Qed.

(** The time stamp of line 89 and of line 146 reads YYYYMMDD_HHMMSS. *)
Lemma strftime_shape t :
  valid_time t -> matches "YYYYMMDD_HHMMSS" (strftime timestamp_format t) = true.
Proof.
  intros (Hy & Hm & Hd & HH & HM & HS).
  change (strftime timestamp_format t)
    with (dec (tm_year t) +:+ pad2 (tm_mon t) +:+ pad2 (tm_mday t)
          +:+ "_" +:+ pad2 (tm_hour t) +:+ pad2 (tm_min t)
          +:+ pad2 (tm_sec t) +:+ "").
  change "YYYYMMDD_HHMMSS"
    with ("YYYY" +:+ "MM" +:+ "DD" +:+ "_" +:+ "HH" +:+ "MM" +:+ "SS" +:+ "").
  repeat first [ apply matches_app
               | apply dec_year; lia
               | apply pad2_shape; [reflexivity | lia]
               | reflexivity ].
Qed.

Lemma record_name_shape t :
  valid_time t ->
  matches "record_YYYYMMDD_HHMMSS.mp4"
    ("record_" +:+ strftime timestamp_format t +:+ ".mp4") = true.
Proof.
  intros H.
  change "record_YYYYMMDD_HHMMSS.mp4"
    with ("record_" +:+ "YYYYMMDD_HHMMSS" +:+ ".mp4").
  repeat first [ apply matches_app | apply strftime_shape, H | reflexivity ].
Qed.

Lemma screenshot_name_shape t :
  valid_time t ->
  matches "screenshot_YYYYMMDD_HHMMSS.png"
    ("screenshot_" +:+ strftime timestamp_format t +:+ ".png") = true.
Proof.
  intros H.
  change "screenshot_YYYYMMDD_HHMMSS.png"
    with ("screenshot_" +:+ "YYYYMMDD_HHMMSS" +:+ ".png").
  repeat first [ apply matches_app | apply strftime_shape, H | reflexivity ].
Qed.

End Timestamps.

(* ===================================================================== *)
(** * Running the functions of the module *)
(* ===================================================================== *)

Section Execution.

Variable env : Env.

Implicit Types (s : Sys) (t : thread_id) (evs : trace).

Lemma logged_logged s evs evs' :
  logged (logged s evs) evs' = logged s (evs ++ evs').
Proof. unfold logged. simpl. rewrite app_assoc. reflexivity. Qed.

Lemma emitted_logged s evs : emitted s (logged s evs) = evs.
Proof. unfold emitted. simpl. apply drop_app_length. Qed.

Lemma emit_eq ev t s : emit ev t s = (Returned tt, logged s [(t, ev)]).
Proof. reflexivity. Qed.

(** The executor: one call of the tool, and always a pair of texts. *)
Lemma adb_cmd_eq args t s :
  let r := env_run env (log s) (ADB_BIN :: args) in
  adb_cmd env args t s
  = (Returned (stream_output r, stream_error r),
     logged s [(t, EvRun (ADB_BIN :: args) r)]).
Proof.
  unfold adb_cmd, try_except, bind, subprocess_run, ret. simpl.
  destruct (env_run env (log s) (ADB_BIN :: args)); reflexivity.
Qed.

(** The presence check, in one equation. *)
Lemma check_device_connected_eq t s :
  let r := env_run env (log s) [ADB_BIN; "devices"] in
  let run := (t, EvRun [ADB_BIN; "devices"] r) in
  check_device_connected env t s
  = if truthy (stream_error r)
    then (Returned false, logged s [run; (t, devices_failed (stream_error r))])
    else if shows_device (stream_output r)
         then (Returned true, logged s [run])
         else (Returned false, logged s [run; (t, no_device_warning)]).
Proof.
  cbv zeta. unfold check_device_connected, bind at 1.
  rewrite adb_cmd_eq. cbv zeta.
  set (r := env_run env (log s) [ADB_BIN; "devices"]).
  destruct (truthy (stream_error r)).
  - unfold bind, messagebox_showerror, ret. rewrite emit_eq, logged_logged.
    reflexivity.
  - unfold shows_device.
    destruct (List.filter device_line (tl (splitlines (stream_output r))))
      as [|d ds] eqn:E.
    + apply filter_nil_existsb in E. rewrite E.
      unfold bind, messagebox_showwarning, ret. rewrite emit_eq, logged_logged.
      reflexivity.
    + destruct (existsb device_line (tl (splitlines (stream_output r)))) eqn:E';
        [reflexivity|].
      apply filter_nil_existsb in E'. congruence.
Qed.

End Execution.

(** Symbolic execution of a function of the module in a hypothesis:
    replace each primitive by what it returns and logs, split on the
    tests of the program, and unfold the sequencing one step at a time. *)
Ltac py_in H :=
  repeat first
    [ rewrite check_device_connected_eq in H
    | rewrite adb_cmd_eq in H
    | rewrite emit_eq in H
    | rewrite logged_logged in H
    | progress cbv beta iota zeta in H
    | progress cbn [negb] in H
    | progress (unfold set_status, messagebox_showerror, messagebox_showinfo,
                messagebox_showwarning, time_sleep, time_strftime, ret,
                get_recording, set_recording, set_record_thread in H)
    | match type of H with
      | context [if ?c then _ else _] => destruct c eqn:?
      end
    | progress (unfold bind at 1 in H) ].


Section Handlers.

Variable env : Env.

Implicit Types (s : Sys) (t : thread_id) (evs : trace).

Lemma truthy_false (x : string) : truthy x = false <-> x = "".
Proof.
  unfold truthy. rewrite negb_false_iff. apply String.eqb_eq.
Qed.

Lemma truthy_true (x : string) : truthy x = true <-> x <> "".
Proof.
  unfold truthy. rewrite negb_true_iff. apply String.eqb_neq.
Qed.

Lemma run_clean_no_error r : run_clean r = true -> stream_error r = "".
Proof.
  destruct r as [cp|e]; simpl; [|discriminate].
  rewrite negb_true_iff. apply truthy_false.
Qed.

(** Lines 130-136 in one equation. *)
Lemma stop_recording_eq t s :
  stop_recording t s
  = if recording s
    then (Returned tt, stopping t s)
    else (Returned tt, logged s [(t, not_recording)]).
Proof.
  unfold stop_recording, bind, get_recording, set_recording, set_status,
    messagebox_showinfo.
  destruct (recording s); reflexivity.
Qed.

(** Lines 70-83 in one equation. *)
Lemma start_recording_eq t s :
  let r0 := env_run env (log s) devices_cmd in
  start_recording env t s
  = if recording s then (Returned tt, logged s [(t, already_recording)])
    else if truthy (stream_error r0)
    then (Returned tt,
          logged s [(t, EvRun devices_cmd r0);
                    (t, devices_failed (stream_error r0))])
    else if shows_device (stream_output r0)
    then (Returned tt, started t s [(t, EvRun devices_cmd r0)])
    else (Returned tt,
          logged s [(t, EvRun devices_cmd r0); (t, no_device_warning)]).
Proof.
  cbv zeta. unfold start_recording.
  unfold bind at 1. unfold get_recording at 1.
  destruct (recording s) eqn:Hrec; [reflexivity|].
  unfold bind at 1. rewrite check_device_connected_eq. cbv zeta.
  fold devices_cmd.
  destruct (truthy (stream_error (env_run env (log s) devices_cmd)));
    [reflexivity|].
  destruct (shows_device (stream_output (env_run env (log s) devices_cmd)));
    [|reflexivity].
  cbn [negb]. unfold bind, set_recording, threading_Thread, set_record_thread,
    Thread_start, set_status, set_thread.
  cbn [threads logged log recording record_thread].
  rewrite lookup_app_r by lia. rewrite Nat.sub_diag. cbn [lookup list_lookup].
  unfold emit, logged, started.
  cbn [threads log recording record_thread].
  rewrite insert_app_r_alt by lia. rewrite Nat.sub_diag.
  rewrite <- !app_assoc. reflexivity.
Qed.

(** Lines 142-163: a screenshot request returns, and logs one of the
    five runs of [screenshot_run]. *)
Lemma take_screenshot_run t s :
  let r0 := env_run env (log s) devices_cmd in
  let tm := env_localtime env (log s ++ [(t, EvRun devices_cmd r0)]) in
  exists evs,
    take_screenshot env t s = (Returned tt, logged s evs)
    /\ screenshot_run t r0 tm evs.
Proof.
  cbv zeta.
  destruct (take_screenshot env t s) as [r s'] eqn:H.
  unfold take_screenshot in H. py_in H;
    cbn [app log logged] in H; injection H as <- <-;
    eexists; (split; [reflexivity|]).
  - apply shot_devices_failed; assumption.
  - apply shot_capture_failed; assumption.
  - apply shot_pull_failed; assumption.
  - apply shot_saved; assumption.
  - apply shot_no_device; assumption.
Qed.

End Handlers.

(* ===================================================================== *)
(** * One statement of the worker *)
(* ===================================================================== *)

(** As [py_in], for the statements of [_record_worker]: the calls of
    [Popen] and [terminate] are split on their answer. *)
Ltac worker_in H :=
  repeat first
    [ rewrite adb_cmd_eq in H
    | rewrite emit_eq in H
    | rewrite logged_logged in H
    | progress cbv beta iota zeta in H
    | progress (unfold set_status, time_sleep, time_strftime, ret,
                get_recording, set_recording, try_except,
                subprocess_Popen, proc_terminate in H)
    | match type of H with
      | context [if ?c then _ else _] => destruct c eqn:?
      | context [match ?c with Returned _ => _ | Raised _ => _ end] =>
          destruct c eqn:?
      end
    | progress (unfold bind at 1 in H) ].

Section WorkerStep.

Variable env : Env.

Implicit Types (s : Sys) (t : thread_id) (w : wstate) (E : list event).

Lemma polling_succ proc k :
  polling proc k ++ [EvSleep 200] = polling proc (S k).
Proof.
  unfold polling. rewrite <- app_assoc. f_equal.
  change [EvSleep 200] with (repeat (EvSleep 200) 1).
  rewrite <- repeat_app. f_equal. lia.
Qed.

Lemma logged_relog s evs : logged s evs = relog s (recording s) evs.
Proof. reflexivity. Qed.

Lemma relog_same s b : recording s = b -> (s : Sys) = relog s b [].
Proof.
  intros <-. destruct s. unfold relog. simpl. rewrite app_nil_r. reflexivity.
Qed.

Lemma relog_flag s b :
  {| recording := b; record_thread := record_thread s;
     threads := threads s; log := log s |} = relog s b [].
Proof. unfold relog. rewrite app_nil_r. reflexivity. Qed.

(** The worker logged one event. *)
Ltac step_logs :=
  do 3 eexists; split; [reflexivity|]; split; [repeat constructor|];
  split; [cbn [map snd]; try rewrite <- app_assoc | left; split; reflexivity].

(** The worker logged nothing. *)
Ltac step_silent W B :=
  exists W, B, []; split; [f_equal; first [apply relog_same; assumption
                                          | apply relog_same; reflexivity
                                          | apply relog_flag]|];
  split; [constructor|];
  split; [cbn [map]; rewrite app_nil_r | ].

(** One statement of the worker returns, changes the process state only
    through the flag and the log, logs on its own thread, and moves the
    worker to a program point with the longer history. Only line 102
    writes the flag. *)
Lemma worker_step_effect w t s E :
  worker_history env w E ->
  exists w' b evs,
    _record_worker_step env w t s = (Returned w', relog s b evs)
    /\ Forall (fun p : thread_id * event => p.1 = t) evs
    /\ worker_history env w' (E ++ map snd evs)
    /\ ((b = recording s
         /\ flag_reset_by_worker w' = flag_reset_by_worker w)
        \/ (b = false /\ flag_reset_by_worker w = false
            /\ flag_reset_by_worker w' = true)).
Proof.
  intros H.
  destruct (_record_worker_step env w t s) as [r s'] eqn:Hs.
  destruct H; cbn [_record_worker_step] in Hs; worker_in Hs;
    injection Hs as <- <-; try rewrite logged_relog.
  - (* not started *)
    step_silent WCreated (recording s);
      [constructor | left; split; reflexivity].
  - (* lines 89-94 *)
    step_logs. apply (wh_spawn env (log s)).
  - (* line 96, the process started *)
    step_logs. apply (wh_poll env tr _ 0).
  - (* line 96, Popen raised *)
    step_logs. apply wh_abort_flag.
  - (* line 102 *)
    step_silent (WAbortStatus e) false;
      [constructor | right; repeat split; reflexivity].
  - (* line 103 *)
    step_logs. apply wh_aborted.
  - (* returned *)
    step_silent WAborted (recording s);
      [constructor | left; split; reflexivity].
  - (* line 107, the flag is set *)
    step_silent (WSleep (record_name (env_localtime env tr)) proc) true;
      [constructor | left; split; reflexivity].
  - (* line 107, the flag is off *)
    step_silent (WStop (record_name (env_localtime env tr)) proc) false;
      [constructor | left; split; reflexivity].
  - (* line 108 *)
    step_logs. rewrite polling_succ. constructor.
  - (* line 111 *)
    step_logs. apply (wh_terminate env tr proc k (Returned tt) quiet quiet).
  - (* line 113, terminate returned *)
    step_logs. apply (wh_flush env tr proc k _ rp rrm).
  - (* line 113, terminate raised: line 115 *)
    step_logs. apply (wh_flush env tr proc k _ rp rrm).
  - (* line 116 *)
    step_logs. apply (wh_pull_status env tr proc k rt rp rrm).
  - (* line 119 *)
    step_logs. apply (wh_pull env tr proc k rt rp rrm).
  - (* line 120 *)
    step_logs.
    match goal with
    | |- worker_history _ (WReport _ (stream_error ?R)) _ =>
        apply (wh_report env tr proc k rt R rrm)
    end.
  - (* line 122 *)
    step_logs.
    pose proof (wh_cleanup env tr proc k rt rp rrm) as Hc.
    cbn [take teardown] in Hc. unfold pull_report in Hc.
    match goal with Hb : truthy _ = true |- _ => rewrite Hb in Hc end.
    exact Hc.
  - (* line 124 *)
    step_logs.
    pose proof (wh_cleanup env tr proc k rt rp rrm) as Hc.
    cbn [take teardown] in Hc. unfold pull_report in Hc.
    match goal with Hb : truthy _ = false |- _ => rewrite Hb in Hc end.
    exact Hc.
  - (* line 127 *)
    step_logs.
    match goal with
    | |- worker_history _ _ (_ ++ _ ++ [EvRun _ ?R]) =>
        apply (wh_done env tr proc k rt rp R)
    end.
  - (* finished *)
    step_silent WDone (recording s);
      [constructor | left; split; reflexivity].
Qed.

End WorkerStep.

(* ===================================================================== *)
(** * Interleavings *)
(* ===================================================================== *)

Section Interleaving.

Variable env : Env.

Implicit Types (s : Sys) (t : thread_id) (w : wstate) (n : nat)
  (evs : trace) (acts : list action).

Lemma run_snoc acts a s : run env (acts ++ [a]) s = step env a (run env acts s).
Proof. unfold run. rewrite fold_left_app. reflexivity. Qed.

(** ** The events of a thread *)

Lemma events_of_app t evs evs' :
  events_of t (evs ++ evs') = events_of t evs ++ events_of t evs'.
Proof. unfold events_of. apply omap_app. Qed.

Lemma events_of_own t evs :
  Forall (fun p : thread_id * event => p.1 = t) evs ->
  events_of t evs = map snd evs.
Proof.
  induction 1 as [|[t' ev] evs Ht _ IH]; [reflexivity|].
  simpl in Ht. subst t'. unfold events_of in *. cbn [omap list_omap map].
  rewrite IH. destruct t as [|n]; cbn; [reflexivity|].
  rewrite Nat.eqb_refl. reflexivity.
Qed.

Lemma events_of_other t t' evs :
  t <> t' ->
  Forall (fun p : thread_id * event => p.1 = t') evs ->
  events_of t evs = [].
Proof.
  intros Hne. induction 1 as [|[t0 ev] evs Ht _ IH]; [reflexivity|].
  simpl in Ht. subst t0. unfold events_of in *. cbn [omap list_omap].
  rewrite IH. destruct t' as [|m], t as [|n]; cbn; try reflexivity;
    try congruence.
  destruct (Nat.eqb_spec m n); [congruence | reflexivity].
Qed.

Lemma events_of_worker_main n evs :
  main_only evs -> events_of (WorkerThread n) evs = [].
Proof. apply events_of_other. discriminate. Qed.

Lemma screenshot_run_main r0 tm evs :
  screenshot_run MainThread r0 tm evs -> main_only evs.
Proof. destruct 1; repeat constructor. Qed.

(** ** One statement of worker [n] *)

Lemma sched_idle n s :
  (forall w, threads s !! n = Some w -> is_alive w = false) ->
  sched env n s = s.
Proof.
  unfold sched. destruct (threads s !! n) as [w|]; [|reflexivity].
  intros H. rewrite (H w eq_refl). reflexivity.
Qed.

Lemma sched_alive n s w E :
  threads s !! n = Some w -> is_alive w = true ->
  worker_history env w E ->
  exists w' b evs,
    sched env n s = set_thread n w' (relog s b evs)
    /\ _record_worker_step env w (WorkerThread n) s
       = (Returned w', relog s b evs)
    /\ Forall (fun p : thread_id * event => p.1 = WorkerThread n) evs
    /\ worker_history env w' (E ++ map snd evs)
    /\ ((b = recording s
         /\ flag_reset_by_worker w' = flag_reset_by_worker w)
        \/ (b = false /\ flag_reset_by_worker w = false
            /\ flag_reset_by_worker w' = true)).
Proof.
  intros Hn Hw HE.
  destruct (worker_step_effect env w (WorkerThread n) s E HE)
    as (w' & b & evs & Hstep & Hown & Hhist & Hflag).
  exists w', b, evs. repeat split; try assumption.
  unfold sched. rewrite Hn, Hw, Hstep. reflexivity.
Qed.

(** ** Every thread has the history of its program point *)

Lemma consistent_initial : consistent env initial.
Proof. split; [intros n w H; destruct n; discriminate | reflexivity]. Qed.

Lemma consistent_main s b rt evs :
  consistent env s -> main_only evs ->
  consistent env {| recording := b; record_thread := rt;
                    threads := threads s; log := log s ++ evs |}.
Proof.
  intros [H1 H2] Hm. split; cbn [threads log]; intros n.
  - intros w Hw. rewrite events_of_app, (events_of_worker_main n evs Hm).
    rewrite app_nil_r. auto.
  - intros Hn. rewrite events_of_app, (events_of_worker_main n evs Hm).
    rewrite app_nil_r. auto.
Qed.

Lemma consistent_started s evs :
  consistent env s -> main_only evs ->
  consistent env (started MainThread s evs).
Proof.
  intros [H1 H2] Hm.
  assert (Hev : forall n,
    events_of (WorkerThread n) (log (started MainThread s evs))
    = events_of (WorkerThread n) (log s)).
  { intros n. cbn [started log]. rewrite !events_of_app.
    rewrite (events_of_worker_main n evs Hm).
    rewrite (events_of_worker_main n [_; _]) by (repeat constructor).
    rewrite !app_nil_r. reflexivity. }
  split; intros n; rewrite Hev; cbn [started threads].
  - intros w Hw. destruct (decide (n < length (threads s))) as [Hlt|Hge].
    + rewrite lookup_app_l in Hw by assumption. auto.
    + rewrite lookup_app_r in Hw by lia.
      destruct (n - length (threads s)) as [|[|?]] eqn:En; try discriminate.
      injection Hw as <-. rewrite H2 by lia. constructor.
  - rewrite length_app. cbn [length]. intros Hn. apply H2. lia.
Qed.

Lemma consistent_step a s : consistent env s -> consistent env (step env a s).
Proof.
  intros Hs. destruct a as [| | |n]; cbn [step].
  - rewrite start_recording_eq. cbv zeta.
    repeat match goal with
           | |- context [if ?c then _ else _] => destruct c
           end; cbn [snd];
      first [ apply consistent_started; [assumption | repeat constructor]
            | apply consistent_main; [assumption | repeat constructor] ].
  - rewrite stop_recording_eq.
    destruct (recording s); cbn [snd];
      apply consistent_main; first [assumption | repeat constructor].
  - destruct (take_screenshot_run env MainThread s) as (evs & -> & Hrun).
    cbn [snd]. apply consistent_main; [assumption|].
    eapply screenshot_run_main, Hrun.
  - destruct Hs as [H1 H2].
    destruct (threads s !! n) as [w|] eqn:Hn;
      [|rewrite sched_idle; [split; assumption | congruence]].
    destruct (is_alive w) eqn:Hw;
      [|rewrite sched_idle; [split; assumption | congruence]].
    destruct (sched_alive n s w _ Hn Hw (H1 n w Hn))
      as (w' & b & evs & -> & _ & Hown & Hhist & _).
    assert (Hlt : n < length (threads s)) by (eapply lookup_lt_Some, Hn).
    split; cbn [set_thread relog threads log]; intros m.
    + intros w0 Hm. rewrite events_of_app.
      destruct (decide (m = n)) as [->|Hne].
      * rewrite list_lookup_insert_eq in Hm by assumption.
        injection Hm as <-. rewrite (events_of_own _ evs) by assumption.
        exact Hhist.
      * rewrite list_lookup_insert_ne in Hm by congruence.
        rewrite (events_of_other _ (WorkerThread n) evs), app_nil_r;
          [auto | congruence | assumption].
    + rewrite length_insert. intros Hm. rewrite events_of_app.
      rewrite (events_of_other _ (WorkerThread n) evs), app_nil_r;
        [auto | intros [= ->]; lia | assumption].
Qed.

Lemma consistent_run acts : consistent env (run env acts initial).
Proof.
  induction acts as [|a acts IH] using rev_ind.
  - apply consistent_initial.
  - rewrite run_snoc. apply consistent_step, IH.
Qed.

End Interleaving.

(* ===================================================================== *)
(** * The command executor *)
(* ===================================================================== *)

Section Executor.

Variable env : Env.

(** C9. For every argument list, [adb_cmd] makes one call of the tool and
    returns a pair of texts, never an exception: the output and error
    streams of the tool without the white space around them, or, when the
    call itself raised [e], the empty output and [str(e)]. *)
Theorem adb_cmd_never_raises (args_list : list string) (t : thread_id)
    (s : Sys) :
  let r := env_run env (log s) ([ADB_BIN] ++ args_list) in
  exists out err,
    adb_cmd env args_list t s
    = (Returned (out, err),
       logged s [(t, EvRun ([ADB_BIN] ++ args_list) r)])
    /\ match r with
       | Returned cp =>
           trimmed_of (cp_stdout cp) out /\ out = strip (cp_stdout cp)
           /\ trimmed_of (cp_stderr cp) err /\ err = strip (cp_stderr cp)
       | Raised e => out = "" /\ err = str e
       end.
Proof.
  cbv zeta. rewrite adb_cmd_eq. cbv zeta. cbn [app].
  exists (stream_output (env_run env (log s) (ADB_BIN :: args_list))),
         (stream_error (env_run env (log s) (ADB_BIN :: args_list))).
  split; [reflexivity|].
  destruct (env_run env (log s) (ADB_BIN :: args_list)) as [cp|e];
    cbn [stream_output stream_error]; [|split; reflexivity].
  repeat split; apply strip_spec.
Qed.

End Executor.

(* ===================================================================== *)
(** * The device presence check *)
(* ===================================================================== *)

Section Presence.

Variable env : Env.

Lemma existsb_qualifies (rest : list string) :
  existsb device_line rest = true <-> exists ln, In ln rest /\ qualifies ln.
Proof.
  rewrite existsb_exists. unfold qualifies.
  split; intros (ln & Hin & H); exists ln; (split; [assumption|]);
    apply device_line_spec; assumption.
Qed.

Lemma check_present_iff (t : thread_id) (s : Sys) (cp : CompletedProcess) :
  env_run env (log s) devices_cmd = Returned cp ->
  strip (cp_stderr cp) = "" ->
  fst (check_device_connected env t s)
  = Returned (existsb device_line (tl (splitlines (strip (cp_stdout cp))))).
Proof.
  intros Hrun Herr. rewrite check_device_connected_eq. cbv zeta.
  fold devices_cmd. rewrite Hrun. cbn [stream_error stream_output].
  rewrite Herr. cbn [truthy String.eqb negb]. unfold shows_device.
  destruct (existsb device_line _); reflexivity.
Qed.

(** C2. When [adbb devices] ran and reported no error, the presence check
    looks at the lines after the first line of the listing and at nothing
    else: it reports presence when one of them is not blank and contains
    the token [device], and absence exactly when none is. This holds for
    the lines of the listing as the executor hands it on (trimmed), and for
    the lines of the listing as the tool wrote it whenever its header line
    is not blank. The header line is never counted: the answer is a
    function of the lines after it. *)
Theorem presence_check_lines (t : thread_id) (s : Sys)
    (cp : CompletedProcess) (header : string) (rest : list string) :
  env_run env (log s) devices_cmd = Returned cp ->
  strip (cp_stderr cp) = "" ->
  splitlines (strip (cp_stdout cp)) = header :: rest
  \/ (splitlines (cp_stdout cp) = header :: rest /\ strip header <> "") ->
  exists present : bool,
    fst (check_device_connected env t s) = Returned present
    /\ present = existsb device_line rest
    /\ (present = true <-> exists ln, In ln rest /\ qualifies ln)
    /\ (present = false <-> forall ln, In ln rest -> ~ qualifies ln).
Proof.
  intros Hrun Herr Hlines.
  exists (existsb device_line rest).
  assert (Hcheck : fst (check_device_connected env t s)
                   = Returned (existsb device_line rest)).
  { rewrite (check_present_iff t s cp Hrun Herr). f_equal.
    destruct Hlines as [-> | [Hraw Hh]]; [reflexivity|].
    apply (listing_trimmed _ _ _ Hraw Hh). }
  split; [exact Hcheck|]. split; [reflexivity|].
  split; [apply existsb_qualifies|].
  rewrite <- not_true_iff_false, existsb_qualifies. split.
  - intros Hno ln Hin Hq. apply Hno. eauto.
  - intros Hall (ln & Hin & Hq). exact (Hall ln Hin Hq).
Qed.

(** C3. When the call of [adbb devices] raises, or reports an error on its
    stream, the presence check returns absence and shows a notice; a
    screenshot request and a start request that reach the check return
    after it, having handed the tool that one command line and no other,
    and start no worker. *)
Theorem presence_check_error (t : thread_id) (s : Sys) :
  let r0 := env_run env (log s) devices_cmd in
  (exists e, r0 = Raised e) \/ stream_error r0 <> "" ->
  exists notice,
    (notice = devices_failed (stream_error r0) \/ notice = no_device_warning)
    /\ check_device_connected env t s
       = (Returned false, logged s [(t, EvRun devices_cmd r0); (t, notice)])
    /\ take_screenshot env t s
       = (Returned tt, logged s [(t, EvRun devices_cmd r0); (t, notice)])
    /\ (recording s = false ->
        start_recording env t s
        = (Returned tt, logged s [(t, EvRun devices_cmd r0); (t, notice)]))
    /\ commands [EvRun devices_cmd r0; notice] = [devices_cmd].
Proof.
  cbv zeta. intros Herr.
  set (r0 := env_run env (log s) devices_cmd) in *.
  assert (Hcase : truthy (stream_error r0) = true
                  \/ (truthy (stream_error r0) = false
                      /\ shows_device (stream_output r0) = false)).
  { destruct (truthy (stream_error r0)) eqn:E; [left; reflexivity|].
    right. split; [reflexivity|].
    apply truthy_false in E. destruct Herr as [[e He] | Hne];
      [|contradiction].
    rewrite He. reflexivity. }
  destruct (take_screenshot_run env t s) as (evs & Hshot & Hrun).
  fold r0 in Hrun.
  destruct Hcase as [E | [E D]].
  - exists (devices_failed (stream_error r0)).
    split; [left; reflexivity|]. repeat split.
    + rewrite check_device_connected_eq. cbv zeta. fold devices_cmd r0.
      rewrite E. reflexivity.
    + rewrite Hshot. destruct Hrun; first [congruence | reflexivity].
    + intros Hrec. rewrite start_recording_eq. cbv zeta. fold r0.
      rewrite Hrec, E. reflexivity.
  - exists no_device_warning.
    split; [right; reflexivity|]. repeat split.
    + rewrite check_device_connected_eq. cbv zeta. fold devices_cmd r0.
      rewrite E, D. reflexivity.
    + rewrite Hshot. destruct Hrun; first [congruence | reflexivity].
    + intros Hrec. rewrite start_recording_eq. cbv zeta. fold r0.
      rewrite Hrec, E, D. reflexivity.
Qed.

End Presence.

(* ===================================================================== *)
(** * The screenshot flow *)
(* ===================================================================== *)

Section Screenshot.

Variable env : Env.

Lemma clean_not_truthy r : run_clean r = true -> truthy (stream_error r) = false.
Proof. intros H. apply truthy_false, run_clean_no_error, H. Qed.

Lemma truthy_not_clean r : truthy (stream_error r) = true -> run_clean r = false.
Proof.
  intros H. destruct (run_clean r) eqn:E; [|reflexivity].
  apply clean_not_truthy in E. congruence.
Qed.

(** C4. A screenshot request with a device present, in which every call
    of the tool ran and reported no error, returns after exactly four
    command lines: the listing, the capture to the fixed device path, one
    pull of that path to [screenshot_YYYYMMDD_HHMMSS.png], and one delete
    of that path. The pull leaves exactly one local file, with that
    name. *)
Theorem screenshot_saved (t : thread_id) (s : Sys) :
  (forall tr, valid_time (env_localtime env tr)) ->
  fst (check_device_connected env t s) = Returned true ->
  all_runs_clean (map snd (emitted s (snd (take_screenshot env t s)))) = true ->
  let evs := map snd (emitted s (snd (take_screenshot env t s))) in
  exists out_filename,
    fst (take_screenshot env t s) = Returned tt
    /\ matches "screenshot_YYYYMMDD_HHMMSS.png" out_filename = true
    /\ commands evs
       = [devices_cmd; screencap_cmd;
          pull_cmd screenshot_device_tmp out_filename;
          rm_cmd screenshot_device_tmp]
    /\ local_files evs = [out_filename]
    /\ count_cmd (rm_cmd screenshot_device_tmp) (commands evs) = 1
    /\ In (EvStatus ("Saved screenshot: " +:+ out_filename)) evs.
Proof.
  intros Hclock Hpresent Hclean. cbv zeta.
  rewrite check_device_connected_eq in Hpresent. cbv zeta in Hpresent.
  fold devices_cmd in Hpresent.
  destruct (take_screenshot_run env t s) as (evs & Hshot & Hrun).
  rewrite Hshot in *. cbn [fst snd] in *. rewrite emitted_logged in *.
  set (tm := env_localtime env _) in *.
  exists (screenshot_name tm).
  split; [reflexivity|].
  split; [apply screenshot_name_shape, Hclock|].
  destruct Hrun as [E0 | E0 D0 | r1 E0 D0 E1 | r1 r2 E0 D0 E1 E2
                   | r1 r2 r3 E0 D0 E1 E2].
  - rewrite E0 in Hpresent. discriminate.
  - rewrite E0, D0 in Hpresent. discriminate.
  - cbn in Hclean. rewrite (truthy_not_clean _ E1) in Hclean.
    rewrite !andb_false_r in Hclean. discriminate.
  - cbn in Hclean. rewrite (truthy_not_clean _ E2) in Hclean.
    rewrite !andb_false_r in Hclean. discriminate.
  - cbn [map snd all_runs_clean forallb] in Hclean.
    apply andb_prop in Hclean as [_ Hclean].
    apply andb_prop in Hclean as [_ Hclean].
    apply andb_prop in Hclean as [_ Hclean].
    apply andb_prop in Hclean as [_ Hclean].
    apply andb_prop in Hclean as [H2 _].
    repeat split.
    + cbn [map snd local_files omap list_omap pull_cmd].
      rewrite H2. reflexivity.
    + cbn [map snd In]. do 6 right. left. reflexivity.
Qed.

(** C5. When the capture or the pull of a screenshot request reports an
    error, the request returns after it: the failing call is the last
    command line handed to the tool, it is followed by an error dialog
    that ends with the error text and by nothing else; the delete of the
    device path is not attempted and no local file is left. *)
Theorem screenshot_aborts (t : thread_id) (s : Sys) (argv : list string)
    (res : outcome CompletedProcess) :
  let evs := emitted s (snd (take_screenshot env t s)) in
  In (t, EvRun argv res) evs ->
  argv = screencap_cmd
  \/ (exists dst, argv = pull_cmd screenshot_device_tmp dst) ->
  stream_error res <> "" ->
  fst (take_screenshot env t s) = Returned tt
  /\ (exists before msg,
        evs = before ++ [(t, EvRun argv res);
                         (t, EvShowError "ADBB Error" msg)]
        /\ ends_with (stream_error res) msg)
  /\ count_cmd (rm_cmd screenshot_device_tmp) (commands (map snd evs)) = 0
  /\ local_files (map snd evs) = [].
Proof.
  cbv zeta.
  destruct (take_screenshot_run env t s) as (evs & Hshot & Hrun).
  rewrite Hshot. cbn [fst snd]. rewrite emitted_logged.
  set (tm := env_localtime env _) in *. clearbody tm.
  set (r0 := env_run env (log s) devices_cmd) in *. clearbody r0.
  intros Hin Hargv Herr. apply truthy_true in Herr.
  split; [reflexivity|].
  destruct Hrun as [E0 | E0 D0 | r1 E0 D0 E1 | r1 r2 E0 D0 E1 E2
                   | r1 r2 r3 E0 D0 E1 E2];
    cbn [In] in Hin;
    repeat match goal with
           | H : _ \/ _ |- _ => destruct H as [H|H]
           | H : False |- _ => contradiction H
           | H : (_, _) = (_, _) |- _ => injection H as ? ?; subst
           | H : ex _ |- _ => destruct H as [? H]
           end;
    try discriminate; try congruence.
  - (* the capture failed *)
    split; [|split; reflexivity].
    eexists [_; _], _. split; [reflexivity|].
    exists ("screencap failed:" +:+ nl). reflexivity.
  - (* the pull failed *)
    split; [|split].
    + eexists [_; _; _; _], _. split; [reflexivity|].
      exists ("pull failed:" +:+ nl). reflexivity.
    + reflexivity.
    + cbn [map snd local_files omap list_omap pull_cmd].
      rewrite (truthy_not_clean _ E2). reflexivity.
Qed.

End Screenshot.

(* ===================================================================== *)
(** * Stop and start requests that change nothing *)
(* ===================================================================== *)

Section Requests.

Variable env : Env.

(** C8. A stop request while the flag [recording] is off returns after an
    information dialog: the flag, the remembered thread and the threads
    are as before, no thread is created, no command line is handed to the
    tool and no process is terminated. *)
Theorem stop_while_idle (t : thread_id) (s : Sys) :
  recording s = false ->
  let s' := snd (stop_recording t s) in
  fst (stop_recording t s) = Returned tt
  /\ s' = logged s [(t, not_recording)]
  /\ recording s' = recording s
  /\ record_thread s' = record_thread s
  /\ threads s' = threads s
  /\ commands (map snd (emitted s s')) = []
  /\ List.filter is_terminate (map snd (emitted s s')) = []
  /\ step env ClickStop s = logged s [(MainThread, not_recording)].
Proof.
  intros Hrec. cbv zeta. cbn [step]. rewrite !stop_recording_eq, Hrec.
  cbn [fst snd]. rewrite emitted_logged. repeat split. exact Hrec.
Qed.

End Requests.

(* ===================================================================== *)
(** * The recording worker *)
(* ===================================================================== *)

Section Worker.

Variable env : Env.

Implicit Types (s : Sys) (n k : nat) (w : wstate) (acts : list action).

(** ** What the history of a worker contains *)

Lemma omap_repeat_none {A B} (f : A -> option B) (x : A) k :
  f x = None -> omap f (repeat x k) = [].
Proof.
  intros H. induction k as [|k IH]; [reflexivity|].
  cbn [repeat omap list_omap]. rewrite H. exact IH.
Qed.

Lemma commands_polling proc k : commands (polling proc k) = [screenrecord_cmd].
Proof.
  unfold commands, polling. rewrite omap_app, omap_repeat_none; reflexivity.
Qed.

Lemma local_files_polling proc k : local_files (polling proc k) = [].
Proof.
  unfold local_files, polling. rewrite omap_app, omap_repeat_none; reflexivity.
Qed.

Lemma terminate_polling proc k : List.filter is_terminate (polling proc k) = [].
Proof.
  unfold polling. rewrite List.filter_app. cbn [List.filter is_terminate app].
  induction k as [|k IH]; [reflexivity | exact IH].
Qed.

Lemma local_files_teardown proc rt fn rp rrm :
  local_files (teardown proc rt fn rp rrm) = if run_clean rp then [fn] else [].
Proof.
  unfold local_files, teardown. cbn. destruct (run_clean rp); reflexivity.
Qed.

Lemma worker_history_done E :
  worker_history env WDone E ->
  exists tr proc k rt rp rrm,
    E = polling proc k
        ++ teardown proc rt (record_name (env_localtime env tr)) rp rrm.
Proof.
  intros H. remember WDone as w eqn:Hw.
  destruct H; try discriminate Hw. eauto 10.
Qed.

Lemma worker_history_aborted E :
  worker_history env WAborted E ->
  exists e, E = aborting e ++ [failed_status e].
Proof.
  intros H. remember WAborted as w eqn:Hw.
  destruct H; try discriminate Hw. eauto.
Qed.

(** ** Running to the end once the flag is off *)

Lemma set_thread_lookup n w s :
  n < length (threads s) -> threads (set_thread n w s) !! n = Some w.
Proof. intros H. cbn [set_thread threads]. apply list_lookup_insert_eq, H. Qed.

Lemma flag_off_step n s w :
  recording s = false -> threads s !! n = Some w ->
  recording (sched env n s) = false
  /\ exists w', threads (sched env n s) !! n = Some w'
                /\ steps_left w' <= pred (steps_left w)
                /\ (in_body w = true -> in_body w' = true)
                /\ (on_stop_path w = true -> on_stop_path w' = true).
Proof.
  intros Hrec Hn.
  assert (Hlt : n < length (threads s)) by (eapply lookup_lt_Some, Hn).
  unfold sched. rewrite Hn.
  destruct w; cbn [is_alive];
    try (split; [exact Hrec|]; eexists; split; [exact Hn|];
         repeat split; (lia || auto));
    destruct (_record_worker_step env _ (WorkerThread n) s)
      as [r s'] eqn:Hs;
    cbn [_record_worker_step] in Hs; worker_in Hs;
    injection Hs as <- <-; try congruence;
    (split; [first [assumption | reflexivity]|]);
    eexists; (split; [apply set_thread_lookup; exact Hlt|]);
    repeat split; cbn; first [lia | congruence].
Qed.

Lemma run_cons a acts s : run env (a :: acts) s = run env acts (step env a s).
Proof. reflexivity. Qed.

Lemma flag_off_run n k : forall s w,
  recording s = false -> threads s !! n = Some w ->
  recording (run env (repeat (Sched n) k) s) = false
  /\ exists w', threads (run env (repeat (Sched n) k) s) !! n = Some w'
                /\ steps_left w' <= steps_left w - k
                /\ (in_body w = true -> in_body w' = true)
                /\ (on_stop_path w = true -> on_stop_path w' = true).
Proof.
  induction k as [|k IH]; intros s w Hrec Hn.
  - split; [exact Hrec|]. exists w. repeat split; [exact Hn | lia | auto..].
  - cbn [repeat]. rewrite run_cons. cbn [step].
    destruct (flag_off_step n s w Hrec Hn)
      as (Hrec' & w1 & Hn1 & Hl & Hb & Hp).
    destruct (IH _ w1 Hrec' Hn1) as (Hrec2 & w' & Hn' & Hl' & Hb' & Hp').
    split; [exact Hrec2|].
    exists w'. repeat split; [exact Hn' | lia | auto..].
Qed.

Lemma steps_left_none w :
  in_body w = true -> steps_left w = 0 -> w = WDone \/ w = WAborted.
Proof. destruct w; cbn; intros; try discriminate; auto. Qed.

Lemma stop_path_done w : on_stop_path w = true -> steps_left w = 0 -> w = WDone.
Proof. destruct w; cbn; congruence. Qed.

(** X15. What holds of a recording session in every run of the program:
    an accepted stop request turns the flag off and leaves the threads
    alone; a worker that finds the flag off at its tests finishes within
    ten of its statements, and at its end (line 127) when its capture
    process was started; and a worker that got to its end has logged
    exactly this: the start of the capture process, its sleeps in the
    loop, then one [terminate] of that process, one pull of the fixed
    device path to [record_YYYYMMDD_HHMMSS.mp4], the status and the
    delete. When the pull ran and reported no error, that file is the one
    local file and the status names it; when the pull reported an error,
    there is no local file and the status carries the error text; and
    when the call of the pull raised an exception without text, there is
    no local file although the status says the recording was saved. *)
Theorem recording_session acts n :
  (forall tr, valid_time (env_localtime env tr)) ->
  let s := run env acts initial in
  let E := events_of (WorkerThread n) (log s) in
  (recording s = true ->
   recording (step env ClickStop s) = false
   /\ threads (step env ClickStop s) = threads s)
  /\ (forall w, threads s !! n = Some w -> in_body w = true ->
             recording s = false ->
             let s' := run env (repeat (Sched n) 10) s in
             recording s' = false
             /\ (threads s' !! n = Some WDone \/ threads s' !! n = Some WAborted)
             /\ (on_stop_path w = true -> threads s' !! n = Some WDone))
  /\ (threads s !! n = Some WDone ->
      exists proc k rt out_filename rp rrm,
        E = polling proc k ++ teardown proc rt out_filename rp rrm
        /\ matches "record_YYYYMMDD_HHMMSS.mp4" out_filename = true
        /\ List.filter is_terminate E = [EvTerminate proc rt]
        /\ commands E = [screenrecord_cmd;
                         pull_cmd record_device_tmp out_filename;
                         rm_cmd record_device_tmp]
        /\ (run_clean rp = true ->
            local_files E = [out_filename]
            /\ In (EvStatus ("Saved recording: " +:+ out_filename)) E)
        /\ (stream_error rp <> "" ->
            local_files E = []
            /\ In (EvStatus ("Pull error: " +:+ stream_error rp)) E)
        /\ (forall e, rp = Raised e -> str e = "" ->
            local_files E = []
            /\ In (EvStatus ("Saved recording: " +:+ out_filename)) E)).
Proof.
  intros Hclock. cbv zeta. split; [|split].
  - intros Hrec. cbn [step]. rewrite stop_recording_eq, Hrec.
    split; reflexivity.
  - intros w Hn Hw Hrec.
    destruct (flag_off_run n 10 _ w Hrec Hn)
      as (Hrec' & w' & Hn' & Hl & Hb & Hp).
    assert (H0 : steps_left w' = 0) by (destruct w; cbn in Hl; lia).
    split; [exact Hrec'|]. rewrite Hn'. split.
    + destruct (steps_left_none w' (Hb Hw) H0) as [-> | ->]; auto.
    + intros Hpath. f_equal. apply stop_path_done; auto.
  - intros Hn.
    destruct (consistent_run env acts) as [Hhist _].
    specialize (Hhist n WDone Hn).
    apply worker_history_done in Hhist as (tr & proc & k & rt & rp & rrm & ->).
    exists proc, k, rt, (record_name (env_localtime env tr)), rp, rrm.
    split; [reflexivity|].
    split; [apply record_name_shape, Hclock|].
    split; [rewrite List.filter_app, terminate_polling; reflexivity|].
    split; [unfold commands; rewrite omap_app; fold (commands (polling proc k));
            rewrite commands_polling; reflexivity|].
    assert (Hfiles : forall E', local_files (polling proc k ++ E')
                                = local_files E').
    { intros E'. unfold local_files. rewrite omap_app.
      fold (local_files (polling proc k)). rewrite local_files_polling.
      reflexivity. }
    assert (Hstatus : In (pull_report (record_name (env_localtime env tr)) rp)
                        (polling proc k
                         ++ teardown proc rt
                              (record_name (env_localtime env tr)) rp rrm)).
    { apply in_or_app. right. cbn [teardown In]. do 5 right. left.
      reflexivity. }
    split.
    + intros Hclean. rewrite Hfiles, local_files_teardown, Hclean.
      split; [reflexivity|].
      unfold pull_report in Hstatus.
      rewrite (clean_not_truthy _ Hclean) in Hstatus. exact Hstatus.
    + split.
      * intros Herr%truthy_true.
        rewrite Hfiles, local_files_teardown, (truthy_not_clean _ Herr).
        split; [reflexivity|].
        unfold pull_report in Hstatus. rewrite Herr in Hstatus. exact Hstatus.
      * intros e -> He.
        rewrite Hfiles, local_files_teardown. cbn [run_clean].
        split; [reflexivity|].
        unfold pull_report in Hstatus. cbn [stream_error] in Hstatus.
        rewrite He in Hstatus. exact Hstatus.
Qed.

End Worker.

Section WorkerPaths.

Variable env : Env.

Implicit Types (s : Sys) (n k : nat) (w : wstate) (acts : list action).

Lemma relog_relog s b b' evs evs' :
  relog (relog s b evs) b' evs' = relog s b' (evs ++ evs').
Proof. unfold relog. cbn. rewrite app_assoc. reflexivity. Qed.

Lemma set_thread_relog n w w0 s b evs :
  set_thread n w (relog (set_thread n w0 s) b evs)
  = set_thread n w (relog s b evs).
Proof.
  unfold set_thread, relog. cbn. rewrite list_insert_insert_eq. reflexivity.
Qed.

Lemma emitted_set_thread n w s b evs :
  emitted s (set_thread n w (relog s b evs)) = evs.
Proof. unfold emitted. cbn. apply drop_app_length. Qed.

(** ** The capture process does not start *)

Lemma sched_spawn_raised n s fn e :
  threads s !! n = Some (WSpawn fn) ->
  env_popen env (log s) screenrecord_cmd = Raised e ->
  sched env n s
  = set_thread n (WAbortFlag e)
      (relog s (recording s)
         [(WorkerThread n, EvPopen screenrecord_cmd (Raised e))]).
Proof.
  intros Hn Hp. unfold sched. rewrite Hn.
  cbn [is_alive _record_worker_step].
  unfold try_except, bind, subprocess_Popen. fold screenrecord_cmd.
  rewrite Hp. reflexivity.
Qed.

Lemma sched_abort_flag n s e :
  threads s !! n = Some (WAbortFlag e) ->
  sched env n s = set_thread n (WAbortStatus e) (relog s false []).
Proof.
  intros Hn. unfold sched. rewrite Hn.
  cbn [is_alive _record_worker_step]. unfold bind, set_recording, ret.
  rewrite relog_flag. reflexivity.
Qed.

Lemma sched_abort_status n s e :
  threads s !! n = Some (WAbortStatus e) ->
  sched env n s
  = set_thread n WAborted
      (relog s (recording s) [(WorkerThread n, failed_status e)]).
Proof. intros Hn. unfold sched. rewrite Hn. reflexivity. Qed.

(** C7. In every run of the program, when the start of the capture
    process raises [e], the next two statements of the worker reset the
    flag [recording] and show the error in the status, and the worker
    returns: over these three statements the process state changes in the
    flag and in these two events only. A worker that returned this way
    has never called [terminate], has handed the tool no command line but
    the failed start, and has left no file. *)
Theorem capture_start_failure acts n :
  let s := run env acts initial in
  let E := events_of (WorkerThread n) (log s) in
  (forall out_filename e,
     threads s !! n = Some (WSpawn out_filename) ->
     env_popen env (log s) screenrecord_cmd = Raised e ->
     threads (step env (Sched n) s) !! n = Some (WAbortFlag e)
     /\ recording (run env [Sched n; Sched n] s) = false
     /\ run env [Sched n; Sched n; Sched n] s
        = set_thread n WAborted
            (relog s false
               [(WorkerThread n, EvPopen screenrecord_cmd (Raised e));
                (WorkerThread n,
                 EvStatus ("Failed to start screenrecord: " +:+ str e))]))
  /\ (threads s !! n = Some WAborted ->
      exists e,
        E = [starting_status; EvPopen screenrecord_cmd (Raised e);
             EvStatus ("Failed to start screenrecord: " +:+ str e)]
        /\ List.filter is_terminate E = []
        /\ commands E = [screenrecord_cmd]
        /\ local_files E = []).
Proof.
  cbv zeta. split.
  - intros fn e Hn Hp.
    assert (Hlt : n < length (threads (run env acts initial)))
      by (eapply lookup_lt_Some, Hn).
    set (s := run env acts initial) in *.
    rewrite !run_cons. cbn [run fold_left step].
    rewrite (sched_spawn_raised n s fn e Hn Hp).
    assert (H1 : forall b evs,
              threads (set_thread n (WAbortFlag e) (relog s b evs)) !! n
              = Some (WAbortFlag e))
      by (intros; apply set_thread_lookup; exact Hlt).
    split; [apply H1|].
    rewrite (sched_abort_flag n _ e (H1 _ _)).
    rewrite set_thread_relog, relog_relog.
    split; [reflexivity|].
    rewrite (sched_abort_status n _ e)
      by (apply set_thread_lookup; exact Hlt).
    rewrite set_thread_relog, relog_relog. reflexivity.
  - intros Hn.
    destruct (consistent_run env acts) as [Hhist _].
    specialize (Hhist n WAborted Hn).
    apply worker_history_aborted in Hhist as [e ->].
    exists e. repeat split.
Qed.

(** ** The end of the worker *)

Lemma sched_report n s fn err :
  threads s !! n = Some (WReport fn err) ->
  sched env n s
  = set_thread n WCleanup
      (relog s (recording s)
         [(WorkerThread n,
           EvStatus (if truthy err then "Pull error: " +:+ err
                     else "Saved recording: " +:+ fn))]).
Proof.
  intros Hn. unfold sched. rewrite Hn.
  cbn [is_alive _record_worker_step]. unfold bind.
  destruct (truthy err); reflexivity.
Qed.

Lemma sched_cleanup n s :
  threads s !! n = Some WCleanup ->
  sched env n s
  = set_thread n WDone
      (relog s (recording s)
         [(WorkerThread n,
           EvRun (rm_cmd record_device_tmp)
             (env_run env (log s) (rm_cmd record_device_tmp)))]).
Proof.
  intros Hn. unfold sched. rewrite Hn.
  cbn [is_alive _record_worker_step]. unfold bind at 1.
  rewrite adb_cmd_eq. reflexivity.
Qed.

(** A screenshot request whose pull fails hands the tool no delete. *)
Lemma screenshot_pull_failed t s dst res :
  let evs := emitted s (snd (take_screenshot env t s)) in
  In (t, EvRun (pull_cmd screenshot_device_tmp dst) res) evs ->
  stream_error res <> "" ->
  count_cmd (rm_cmd screenshot_device_tmp) (commands (map snd evs)) = 0.
Proof.
  cbv zeta.
  destruct (take_screenshot_run env t s) as (evs & -> & Hrun).
  cbn [snd]. rewrite emitted_logged. intros Hin Herr%truthy_true.
  destruct Hrun; try reflexivity.
  cbn [In] in Hin.
  repeat match goal with
         | H : _ \/ _ |- _ => destruct H as [H|H]
         | H : False |- _ => contradiction H
         | H : (_, _) = (_, _) |- _ => injection H as ? ?; subst
         end;
    try discriminate; congruence.
Qed.

(** C10. In every run of the program, a worker that has the answer of
    its pull, whatever the answer, shows the status and then hands the
    tool the delete of the device path: the delete does not depend on the
    error text. The history of every worker that got to its end ends
    with the pull, the status and the delete. A screenshot request whose
    pull reports an error hands the tool no delete. *)
Theorem recording_cleanup_unconditional acts n :
  let s := run env acts initial in
  let E := events_of (WorkerThread n) (log s) in
  (forall out_filename stderr,
     threads s !! n = Some (WReport out_filename stderr) ->
     let s' := run env [Sched n; Sched n] s in
     threads s' !! n = Some WDone
     /\ exists rrm,
          emitted s s'
          = [(WorkerThread n,
              EvStatus (if truthy stderr then "Pull error: " +:+ stderr
                        else "Saved recording: " +:+ out_filename));
             (WorkerThread n, EvRun (rm_cmd record_device_tmp) rrm)])
  /\ (threads s !! n = Some WDone ->
      exists before out_filename rp rrm,
        E = before ++ [EvRun (pull_cmd record_device_tmp out_filename) rp;
                       pull_report out_filename rp;
                       EvRun (rm_cmd record_device_tmp) rrm]
        /\ count_cmd (rm_cmd record_device_tmp) (commands E) = 1)
  /\ (forall t s0 dst res,
        let evs := emitted s0 (snd (take_screenshot env t s0)) in
        In (t, EvRun (pull_cmd screenshot_device_tmp dst) res) evs ->
        stream_error res <> "" ->
        count_cmd (rm_cmd screenshot_device_tmp) (commands (map snd evs)) = 0).
Proof.
  cbv zeta. split; [|split].
  - intros fn err Hn.
    assert (Hlt : n < length (threads (run env acts initial)))
      by (eapply lookup_lt_Some, Hn).
    set (s := run env acts initial) in *.
    rewrite !run_cons. cbn [run fold_left step].
    rewrite (sched_report n s fn err Hn).
    rewrite (sched_cleanup n _) by (apply set_thread_lookup; exact Hlt).
    rewrite set_thread_relog, relog_relog.
    split; [apply set_thread_lookup; exact Hlt|].
    eexists. rewrite emitted_set_thread. reflexivity.
  - intros Hn.
    destruct (consistent_run env acts) as [Hhist _].
    specialize (Hhist n WDone Hn).
    apply worker_history_done in Hhist as (tr & proc & k & rt & rp & rrm & ->).
    exists (polling proc k
            ++ take 4 (teardown proc rt (record_name (env_localtime env tr))
                         rp rrm)),
           (record_name (env_localtime env tr)), rp, rrm.
    split; [rewrite <- app_assoc; reflexivity|].
    unfold commands. rewrite omap_app. fold (commands (polling proc k)).
    rewrite commands_polling. reflexivity.
  - intros t s0 dst res. apply screenshot_pull_failed.
Qed.

End WorkerPaths.

(* ===================================================================== *)
(** * How many workers there are *)
(* ===================================================================== *)

Section Workers.

Variable env : Env.

Implicit Types (s : Sys) (n k : nat) (w : wstate) (acts : list action)
  (evs : trace).

Lemma stops_accepted_app evs evs' :
  stops_accepted (evs ++ evs') = stops_accepted evs + stops_accepted evs'.
Proof.
  unfold stops_accepted. rewrite events_of_app, List.filter_app, length_app.
  reflexivity.
Qed.

Lemma stops_accepted_worker n evs :
  Forall (fun p : thread_id * event => p.1 = WorkerThread n) evs ->
  stops_accepted evs = 0.
Proof.
  intros H. unfold stops_accepted.
  rewrite (events_of_other MainThread (WorkerThread n)); [reflexivity| |exact H].
  discriminate.
Qed.

Lemma stops_accepted_screenshot r0 tm evs :
  screenshot_run MainThread r0 tm evs -> stops_accepted evs = 0.
Proof. destruct 1; reflexivity. Qed.

Lemma filter_insert_count {A} (f : A -> bool) (l : list A) n (x y : A) :
  l !! n = Some x ->
  length (List.filter f (<[n := y]> l)) + (if f x then 1 else 0)
  = length (List.filter f l) + (if f y then 1 else 0).
Proof.
  revert n. induction l as [|a l IH]; intros [|n] H; try discriminate.
  - injection H as ->. cbn [insert list_insert List.filter].
    destruct (f x), (f y); cbn [length]; lia.
  - change (<[S n := y]> (a :: l)) with (a :: <[n := y]> l).
    cbn [List.filter]. specialize (IH n H).
    destruct (f a), (f x), (f y); cbn [length] in *; lia.
Qed.

Lemma flag_bound_main s evs :
  flag_bound s -> stops_accepted evs = 0 ->
  flag_bound (logged s evs).
Proof.
  unfold flag_bound, flag_resets. cbn [logged threads recording log].
  intros H H0. rewrite stops_accepted_app, H0. lia.
Qed.

Lemma flag_bound_step a s :
  consistent env s -> flag_bound s -> flag_bound (step env a s).
Proof.
  intros Hc Hb. destruct a as [| | |n]; cbn [step].
  - rewrite start_recording_eq. cbv zeta.
    destruct (recording s) eqn:Hrec;
      [apply flag_bound_main; [exact Hb | reflexivity]|].
    destruct (truthy _);
      [apply flag_bound_main; [exact Hb | reflexivity]|].
    destruct (shows_device _);
      [|apply flag_bound_main; [exact Hb | reflexivity]].
    cbn [snd]. unfold flag_bound, flag_resets in *.
    cbn [started threads recording log]. rewrite Hrec in Hb.
    rewrite length_app, List.filter_app, length_app.
    rewrite !stops_accepted_app.
    change (stops_accepted [(MainThread, EvRun _ _)]) with 0.
    change (stops_accepted [_; _]) with 0.
    cbn [List.filter flag_reset_by_worker length]. lia.
  - rewrite stop_recording_eq.
    destruct (recording s) eqn:Hrec;
      [|apply flag_bound_main; [exact Hb | reflexivity]].
    cbn [snd]. unfold flag_bound, flag_resets in *.
    cbn [stopping threads recording log]. rewrite Hrec in Hb.
    rewrite stops_accepted_app.
    change (stops_accepted [_]) with 1. lia.
  - destruct (take_screenshot_run env MainThread s) as (evs & -> & Hrun).
    cbn [snd]. apply flag_bound_main; [exact Hb|].
    eapply stops_accepted_screenshot, Hrun.
  - destruct Hc as [Hhist _].
    destruct (threads s !! n) as [w|] eqn:Hn;
      [|rewrite sched_idle; [exact Hb | congruence]].
    destruct (is_alive w) eqn:Hw;
      [|rewrite sched_idle; [exact Hb | congruence]].
    destruct (sched_alive env n s w _ Hn Hw (Hhist n w Hn))
      as (w' & b & evs & -> & _ & Hown & _ & Hflag).
    unfold flag_bound, flag_resets in *.
    cbn [set_thread relog threads recording log].
    rewrite length_insert, stops_accepted_app.
    rewrite (stops_accepted_worker n evs Hown).
    pose proof (filter_insert_count flag_reset_by_worker _ n w w' Hn) as Hcount.
    destruct Hflag as [[-> Hsame] | (-> & Hw0 & Hw1)].
    + rewrite Hsame in Hcount. lia.
    + rewrite Hw0, Hw1 in Hcount. destruct (recording s); lia.
Qed.

Lemma flag_bound_run acts : flag_bound (run env acts initial).
Proof.
  induction acts as [|a acts IH] using rev_ind.
  - unfold flag_bound. cbn. lia.
  - rewrite run_snoc. apply flag_bound_step; [apply consistent_run | exact IH].
Qed.

Lemma active_le_threads s : active s <= length (threads s).
Proof. unfold active. apply List.filter_length_le. Qed.

End Workers.

Section StartRequests.

Variable env : Env.

(** X13. A start request while the flag [recording] is on returns after an
    information dialog: the flag, the remembered thread and the threads
    are as before, no thread is created and no command line is handed to
    the tool. Every worker is therefore started while the flag is off, and
    in every run the number of workers ever started, and with it the
    number of running workers, is at most one more than the number of
    times the flag was reset (accepted stop requests and capture processes
    that did not start); as long as the flag was never reset, at most one
    worker runs. *)
Theorem start_while_recording acts :
  let s := run env acts initial in
  (forall t s0,
     recording s0 = true ->
     let s' := snd (start_recording env t s0) in
     fst (start_recording env t s0) = Returned tt
     /\ s' = logged s0 [(t, already_recording)]
     /\ recording s' = recording s0
     /\ record_thread s' = record_thread s0
     /\ threads s' = threads s0
     /\ active s' = active s0
     /\ commands (map snd (emitted s0 s')) = [])
  /\ length (threads s) + (if recording s then 0 else 1) <= 1 + flag_resets s
  /\ active s <= 1 + flag_resets s
  /\ (flag_resets s = 0 -> active s <= 1).
Proof.
  cbv zeta. split.
  - intros t s0 Hrec. rewrite start_recording_eq. cbv zeta. rewrite Hrec.
    cbn [fst snd]. rewrite emitted_logged. repeat split. exact Hrec.
  - pose proof (flag_bound_run env acts) as Hb. unfold flag_bound in Hb.
    pose proof (active_le_threads (run env acts initial)) as Ha.
    repeat split; destruct (recording (run env acts initial)); lia.
Qed.

End StartRequests.

(* ===================================================================== *)
(** * The program on the sample worlds *)
(* ===================================================================== *)

Example strip_ex :
  strip (String LF "  a b " +:+ String CR (String LF "")) = "a b".
Proof. reflexivity. Qed.

Example splitlines_ex :
  splitlines ("h" +:+ String CR (String LF "x") +:+ String LF (String LF "y")
              +:+ String LF "")
  = ["h"; "x"; ""; "y"].
Proof. reflexivity. Qed.

Example splitlines_nl : splitlines (String LF "") = [""].
Proof. reflexivity. Qed.

Example str_in_ex : str_in "device" "emulator-5554 device" = true
                    /\ str_in "device" "emulator-5554 offline" = false.
Proof. split; reflexivity. Qed.

Example strftime_noon : strftime timestamp_format noon = "20240305_120009".
Proof. reflexivity. Qed.

Lemma world_clock devices screencap pull rm popen tr :
  valid_time (env_localtime (world devices screencap pull rm popen) tr).
Proof. unfold valid_time. cbn. lia. Qed.

(** The header of the listing contains the token and is not counted. *)
Example header_not_counted :
  str_in "device" "List of devices attached" = true
  /\ fst (check_device_connected world_no_device MainThread initial)
     = Returned false.
Proof. split; reflexivity. Qed.

(** A whole session in the world where everything works. *)
Example session_ok :
  let s := run world_ok session initial in
  threads s = [WDone] /\ recording s = false
  /\ commands (events_of (WorkerThread 0) (log s))
     = [screenrecord_cmd;
        pull_cmd record_device_tmp "record_20240305_120009.mp4";
        rm_cmd record_device_tmp]
  /\ local_files (events_of (WorkerThread 0) (log s))
     = ["record_20240305_120009.mp4"].
Proof. vm_compute. repeat split. Qed.

(** C1. At most one worker runs at any time: this fails. The guard of
    line 73 looks at the flag [recording] only, and a stop request clears
    the flag at once (line 135), before the worker has finished. After
    start, stop and start again, the worker of the first session is still
    at line 116, waiting for the device to flush the file, when the worker
    of the second session is started, and both run. When the second start
    comes while the first worker sleeps at line 108, that worker never
    sees the flag off: both workers stay in their loops, each with its own
    capture process. *)
Theorem restart_has_two_workers :
  let s := run world_ok restart initial in
  let s' := run world_ok quick_restart initial in
  (threads s = [WFlush "record_20240305_120009.mp4"; WInit]
   /\ active s = 2 /\ ~ active s <= 1)
  /\ (threads s' = [WSleep "record_20240305_120009.mp4" 4711;
                    WPoll "record_20240305_120009.mp4" 4711]
      /\ recording s' = true /\ active s' = 2 /\ ~ active s' <= 1
      /\ commands (map snd (log s'))
         = [devices_cmd; screenrecord_cmd; devices_cmd; screenrecord_cmd]).
Proof. vm_compute. repeat split; lia. Qed.

Lemma start_while_recording_witness :
  let s0 := run world_ok [ClickStart] initial in
  recording s0 = true
  /\ snd (start_recording world_ok MainThread s0)
     = logged s0 [(MainThread, already_recording)]
  /\ active (run world_ok [ClickStart; ClickStart] initial) <= 1.
Proof.
  cbv zeta.
  assert (Hrec : recording (run world_ok [ClickStart] initial) = true)
    by reflexivity.
  destruct (start_while_recording world_ok [ClickStart; ClickStart])
    as (Hnoop & _ & _ & Hone).
  split; [exact Hrec|]. split.
  - exact (proj1 (proj2 (Hnoop MainThread _ Hrec))).
  - apply Hone. reflexivity.
Defined.

Lemma presence_check_lines_witness :
  env_run world_ok (log initial) devices_cmd = completed listing_one_device ""
  /\ strip "" = ""
  /\ splitlines (strip listing_one_device)
     = ["List of devices attached";
        "emulator-5554" +:+ String (ascii_of_nat 9) "device"]
  /\ fst (check_device_connected world_ok MainThread initial) = Returned true.
Proof.
  assert (H1 : env_run world_ok (log initial) devices_cmd
               = completed listing_one_device "") by reflexivity.
  assert (H2 : strip "" = "") by reflexivity.
  assert (H3 : splitlines (strip listing_one_device)
               = ["List of devices attached";
                  "emulator-5554" +:+ String (ascii_of_nat 9) "device"])
    by reflexivity.
  destruct (presence_check_lines world_ok MainThread initial _ _ _
              H1 H2 (or_introl H3)) as (present & Hc & Hp & _).
  split; [exact H1|]. split; [exact H2|]. split; [exact H3|].
  rewrite Hc, Hp. reflexivity.
Defined.

Lemma presence_check_error_witness :
  (exists e, env_run world_no_tool (log initial) devices_cmd = Raised e)
  /\ fst (check_device_connected world_no_tool MainThread initial)
     = Returned false
  /\ fst (take_screenshot world_no_tool MainThread initial) = Returned tt.
Proof.
  assert (H : exists e,
             env_run world_no_tool (log initial) devices_cmd = Raised e)
    by (eexists; reflexivity).
  split; [exact H|].
  destruct (presence_check_error world_no_tool MainThread initial
              (or_introl H)) as (notice & _ & Hcheck & Hshot & _).
  rewrite Hcheck, Hshot. split; reflexivity.
Defined.

Lemma screenshot_saved_witness :
  (forall tr, valid_time (env_localtime world_ok tr))
  /\ fst (check_device_connected world_ok MainThread initial) = Returned true
  /\ all_runs_clean
       (map snd (emitted initial
                   (snd (take_screenshot world_ok MainThread initial)))) = true
  /\ exists out_filename,
       matches "screenshot_YYYYMMDD_HHMMSS.png" out_filename = true
       /\ local_files
            (map snd (emitted initial
                        (snd (take_screenshot world_ok MainThread initial))))
          = [out_filename].
Proof.
  assert (H1 : forall tr, valid_time (env_localtime world_ok tr))
    by (intros tr; apply world_clock).
  assert (H2 : fst (check_device_connected world_ok MainThread initial)
               = Returned true) by reflexivity.
  assert (H3 : all_runs_clean
                 (map snd (emitted initial
                    (snd (take_screenshot world_ok MainThread initial))))
               = true) by reflexivity.
  split; [exact H1|]. split; [exact H2|]. split; [exact H3|].
  destruct (screenshot_saved world_ok MainThread initial H1 H2 H3)
    as (fn & _ & Hshape & _ & Hfiles & _).
  exists fn. split; assumption.
Defined.

Lemma screenshot_aborts_witness :
  let evs := emitted initial
               (snd (take_screenshot world_pull_fails MainThread initial)) in
  let argv := pull_cmd screenshot_device_tmp "screenshot_20240305_120009.png" in
  In (MainThread, EvRun argv (completed "" remote_missing)) evs
  /\ stream_error (completed "" remote_missing) <> ""
  /\ count_cmd (rm_cmd screenshot_device_tmp) (commands (map snd evs)) = 0.
Proof.
  cbv zeta.
  assert (H1 : In (MainThread,
                   EvRun (pull_cmd screenshot_device_tmp
                            "screenshot_20240305_120009.png")
                     (completed "" remote_missing))
                 (emitted initial
                    (snd (take_screenshot world_pull_fails MainThread
                            initial))))
    by (vm_compute; do 4 right; left; reflexivity).
  assert (H2 : stream_error (completed "" remote_missing) <> "")
    by (vm_compute; discriminate).
  split; [exact H1|]. split; [exact H2|].
  exact (proj1 (proj2 (proj2
           (screenshot_aborts world_pull_fails MainThread initial _ _ H1
              (or_intror (ex_intro _ _ eq_refl)) H2)))).
Defined.

Lemma recording_session_witness :
  let s := run world_ok [ClickStart; Sched 0; Sched 0; ClickStop] initial in
  (forall tr, valid_time (env_localtime world_ok tr))
  /\ threads s !! 0 = Some (WPoll "record_20240305_120009.mp4" 4711)
  /\ recording s = false
  /\ threads (run world_ok (repeat (Sched 0) 10) s) !! 0 = Some WDone.
Proof.
  cbv zeta.
  assert (H1 : forall tr, valid_time (env_localtime world_ok tr))
    by (intros tr; apply world_clock).
  assert (H2 : threads (run world_ok [ClickStart; Sched 0; Sched 0; ClickStop]
                          initial) !! 0
               = Some (WPoll "record_20240305_120009.mp4" 4711))
    by reflexivity.
  assert (H3 : recording (run world_ok
                            [ClickStart; Sched 0; Sched 0; ClickStop] initial)
               = false) by reflexivity.
  split; [exact H1|]. split; [exact H2|]. split; [exact H3|].
  exact (proj2 (proj2
           (proj1 (proj2 (recording_session world_ok
                            [ClickStart; Sched 0; Sched 0; ClickStop] 0 H1))
              _ H2 eq_refl H3)) eq_refl).
Defined.

Lemma capture_start_failure_witness :
  let s := run world_no_capture [ClickStart; Sched 0] initial in
  threads s !! 0 = Some (WSpawn "record_20240305_120009.mp4")
  /\ env_popen world_no_capture (log s) screenrecord_cmd
     = Raised FileNotFoundError
  /\ recording (run world_no_capture [Sched 0; Sched 0] s) = false.
Proof.
  cbv zeta.
  assert (H1 : threads (run world_no_capture [ClickStart; Sched 0] initial)
               !! 0 = Some (WSpawn "record_20240305_120009.mp4"))
    by reflexivity.
  assert (H2 : env_popen world_no_capture
                 (log (run world_no_capture [ClickStart; Sched 0] initial))
                 screenrecord_cmd = Raised FileNotFoundError)
    by reflexivity.
  split; [exact H1|]. split; [exact H2|].
  exact (proj1 (proj2
           (proj1 (capture_start_failure world_no_capture
                     [ClickStart; Sched 0] 0) _ _ H1 H2))).
Defined.

Lemma stop_while_idle_witness :
  recording initial = false
  /\ snd (stop_recording MainThread initial)
     = logged initial [(MainThread, not_recording)].
Proof.
  assert (H : recording initial = false) by reflexivity.
  split; [exact H|].
  exact (proj1 (proj2 (stop_while_idle world_ok MainThread initial H))).
Defined.

Lemma recording_cleanup_unconditional_witness :
  let s := run world_pull_fails
             ([ClickStart; Sched 0; Sched 0; ClickStop]
              ++ repeat (Sched 0) 6) initial in
  threads s !! 0 = Some (WReport "record_20240305_120009.mp4" remote_missing)
  /\ threads (run world_pull_fails [Sched 0; Sched 0] s) !! 0 = Some WDone.
Proof.
  cbv zeta.
  assert (H : threads (run world_pull_fails
                         ([ClickStart; Sched 0; Sched 0; ClickStop]
                          ++ repeat (Sched 0) 6) initial) !! 0
              = Some (WReport "record_20240305_120009.mp4" remote_missing))
    by reflexivity.
  split; [exact H|].
  exact (proj1 (proj1 (recording_cleanup_unconditional world_pull_fails
                         ([ClickStart; Sched 0; Sched 0; ClickStop]
                          ++ repeat (Sched 0) 6) 0) _ _ H)).
Defined.

(* ===================================================================== *)
(** * The whole program: what a statement of a worker can change *)
(* ===================================================================== *)

Section Frames.

Variable env : Env.

Implicit Types (s : Sys) (t : thread_id) (w : wstate) (n k : nat)
  (evs : trace) (acts : list action).

(** What one statement of the worker does, at every program point and in
    every state. *)
Lemma worker_step_frame w t s :
  exists w' b evs,
    _record_worker_step env w t s = (Returned w', relog s b evs)
    /\ Forall (fun p : thread_id * event => p.1 = t) evs
    /\ (in_body w = true -> in_body w' = true)
    /\ ((b = recording s
         /\ flag_reset_by_worker w' = flag_reset_by_worker w)
        \/ (b = false /\ flag_reset_by_worker w = false
            /\ flag_reset_by_worker w' = true))
    /\ (past_loop w' = true -> past_loop w = true \/ recording s = false)
    /\ (before_teardown w = true -> recording s = true -> b = true ->
        before_teardown w' = true).
Proof.
  destruct (_record_worker_step env w t s) as [r s'] eqn:Hs.
  destruct w; cbn [_record_worker_step] in Hs; worker_in Hs;
    injection Hs as <- <-; try rewrite logged_relog;
    first
      [ do 3 eexists; split; [reflexivity|]
      | eexists _, _, []; split;
        [ apply f_equal2;
          [ reflexivity
          | first [ apply relog_same; first [assumption | reflexivity]
                  | apply relog_flag ] ] |] ];
    (split; [repeat constructor|]);
    (split; [cbn; auto|]);
    (split; [first [ left; split;
                     [first [reflexivity | assumption] | reflexivity]
                   | right; repeat split; reflexivity ]|]);
    (split;
     [ cbn; intros H;
       first [ discriminate H | left; reflexivity | right; reflexivity ]
     | cbn; intros H1 H2 H3;
       first [ reflexivity | congruence ] ]).
Qed.

(** A step of worker [n] either changes nothing (the thread does not
    exist or does not run), or runs one statement of that thread. *)
Lemma sched_frame n s :
  sched env n s = s
  \/ exists w w' b evs,
       threads s !! n = Some w /\ is_alive w = true
       /\ sched env n s = set_thread n w' (relog s b evs)
       /\ Forall (fun p : thread_id * event => p.1 = WorkerThread n) evs
       /\ (in_body w = true -> in_body w' = true)
       /\ ((b = recording s
            /\ flag_reset_by_worker w' = flag_reset_by_worker w)
           \/ (b = false /\ flag_reset_by_worker w = false
               /\ flag_reset_by_worker w' = true))
       /\ (past_loop w' = true -> past_loop w = true \/ recording s = false)
       /\ (before_teardown w = true -> recording s = true -> b = true ->
           before_teardown w' = true).
Proof.
  destruct (threads s !! n) as [w|] eqn:Hn;
    [|left; apply sched_idle; congruence].
  destruct (is_alive w) eqn:Hw;
    [|left; apply sched_idle; congruence].
  right.
  destruct (worker_step_frame w (WorkerThread n) s)
    as (w' & b & evs & Hstep & Hrest).
  exists w, w', b, evs. split; [reflexivity|]. split; [exact Hw|].
  split; [|exact Hrest].
  unfold sched. rewrite Hn, Hw, Hstep. reflexivity.
Qed.

End Frames.

(* ===================================================================== *)
(** * The whole program: what every run keeps *)
(* ===================================================================== *)

Section Invariants.

Variable env : Env.

Implicit Types (s : Sys) (t : thread_id) (w : wstate) (n k : nat)
  (evs : trace) (acts : list action).

Lemma flag_resets_logged s evs :
  stops_accepted evs = 0 -> flag_resets (logged s evs) = flag_resets s.
Proof.
  intros H. unfold flag_resets. cbn [logged log threads].
  rewrite stops_accepted_app, H. lia.
Qed.

Lemma run_invariant_logged s evs :
  run_invariant s -> stops_accepted evs = 0 -> run_invariant (logged s evs).
Proof.
  intros (H1 & H2 & H3 & H4) H0. unfold run_invariant.
  rewrite (flag_resets_logged s evs H0). cbn [logged threads recording
    record_thread]. auto.
Qed.

Lemma run_invariant_initial : run_invariant initial.
Proof.
  unfold run_invariant. cbn. repeat split; try discriminate;
    intros n w H; destruct n; discriminate H.
Qed.

Lemma last_handle_app (ths : list wstate) w :
  last_handle (ths ++ [w]) = Some (length ths).
Proof.
  unfold last_handle. rewrite length_app. cbn [length].
  rewrite Nat.add_1_r. reflexivity.
Qed.

Lemma run_invariant_started s evs :
  run_invariant s -> recording s = false -> stops_accepted evs = 0 ->
  run_invariant (started MainThread s evs).
Proof.
  intros (H1 & H2 & H3 & H4) Hrec H0.
  assert (Hres : flag_resets (started MainThread s evs) = flag_resets s).
  { unfold flag_resets. cbn [started log threads].
    rewrite !stops_accepted_app, H0, List.filter_app, length_app.
    change (stops_accepted [_; _]) with 0. cbn. lia. }
  unfold run_invariant. rewrite Hres. cbn [started threads recording
    record_thread].
  split; [symmetry; apply last_handle_app|].
  split.
  { intros n w Hn. destruct (decide (n < length (threads s))) as [Hlt|Hge].
    - rewrite lookup_app_l in Hn by assumption. eauto.
    - rewrite lookup_app_r in Hn by lia.
      destruct (n - length (threads s)) as [|[|?]]; try discriminate.
      injection Hn as <-. reflexivity. }
  split.
  { intros _. exists (length (threads s)), WInit.
    rewrite length_app. cbn [length]. split; [lia|].
    split; [|reflexivity].
    rewrite lookup_app_r by lia. rewrite Nat.sub_diag. reflexivity. }
  intros Hz. destruct (H4 Hz) as [_ Hnil]. rewrite (Hnil Hrec).
  split; [|discriminate].
  intros [|[|n]] w Hn; try discriminate. injection Hn as <-. reflexivity.
Qed.

Lemma run_invariant_step a s :
  run_invariant s -> run_invariant (step env a s).
Proof.
  intros Hinv. destruct a as [| | |n]; cbn [step].
  - rewrite start_recording_eq. cbv zeta.
    destruct (recording s) eqn:Hrec;
      [apply run_invariant_logged; [exact Hinv | reflexivity]|].
    destruct (truthy _);
      [apply run_invariant_logged; [exact Hinv | reflexivity]|].
    destruct (shows_device _);
      [|apply run_invariant_logged; [exact Hinv | reflexivity]].
    cbn [snd]. apply run_invariant_started; [exact Hinv | exact Hrec|].
    reflexivity.
  - rewrite stop_recording_eq.
    destruct (recording s) eqn:Hrec;
      [|apply run_invariant_logged; [exact Hinv | reflexivity]].
    cbn [snd]. destruct Hinv as (H1 & H2 & H3 & H4).
    unfold run_invariant, flag_resets.
    cbn [stopping threads recording record_thread log].
    rewrite stops_accepted_app. change (stops_accepted [_]) with 1.
    repeat split; try assumption; try discriminate; intros; lia.
  - destruct (take_screenshot_run env MainThread s) as (evs & -> & Hrun).
    cbn [snd]. apply run_invariant_logged; [exact Hinv|].
    eapply stops_accepted_screenshot, Hrun.
  - destruct (sched_frame env n s)
      as [-> | (w & w' & b & evs & Hn & Hw & -> & Hown & Hbody & Hflag
                & _ & Hbefore)]; [exact Hinv|].
    destruct Hinv as (H1 & H2 & H3 & H4).
    assert (Hlt : n < length (threads s)) by (eapply lookup_lt_Some, Hn).
    pose proof (filter_insert_count flag_reset_by_worker _ n w w' Hn)
      as Hcount.
    assert (Hlook : forall m w0,
              threads (set_thread n w' (relog s b evs)) !! m = Some w0 ->
              (m = n /\ w0 = w') \/ (m <> n /\ threads s !! m = Some w0)).
    { intros m w0 Hm. cbn [set_thread relog threads] in Hm.
      destruct (decide (m = n)) as [->|Hne].
      - rewrite list_lookup_insert_eq in Hm by assumption.
        injection Hm as <-. left. split; reflexivity.
      - rewrite list_lookup_insert_ne in Hm by congruence.
        right. split; assumption. }
    unfold run_invariant, flag_resets.
    cbn [set_thread relog recording record_thread log threads].
    rewrite stops_accepted_app, (stops_accepted_worker n evs Hown).
    split.
    { unfold last_handle in *. rewrite length_insert.
      exact H1. }
    split.
    { intros m w0 Hm. destruct (Hlook m w0 Hm) as [[-> ->] | [_ Hm']];
        eauto. }
    split.
    { intros Hb. subst b.
      destruct Hflag as [[Hsame _] | [Hfalse _]]; [|discriminate Hfalse].
      symmetry in Hsame. destruct (H3 Hsame) as (k & wk & Hlen & Hk & Hbt).
      rewrite length_insert.
      destruct (decide (k = n)) as [->|Hne].
      - exists n, w'. split; [exact Hlen|].
        split; [apply list_lookup_insert_eq; exact Hlt|].
        rewrite Hn in Hk. injection Hk as <-.
        apply Hbefore; auto.
      - exists k, wk. split; [exact Hlen|]. split; [|exact Hbt].
        rewrite list_lookup_insert_ne by congruence. exact Hk. }
    intros Hz.
    unfold flag_resets in H4.
    destruct Hflag as [[-> Hsame] | (-> & Hw0 & Hw1)];
      [|rewrite Hw0, Hw1 in Hcount; lia].
    rewrite Hsame in Hcount.
    assert (Hz' : stops_accepted (log s)
                  + length (List.filter flag_reset_by_worker (threads s)) = 0)
      by lia.
    destruct (H4 Hz') as [Hall Hnil].
    assert (Hrec : recording s = true).
    { destruct (recording s) eqn:E; [reflexivity|].
      rewrite (Hnil eq_refl) in Hn. discriminate Hn. }
    split.
    + intros m w0 Hm. destruct (Hlook m w0 Hm) as [[-> ->] | [_ Hm']];
        [|eauto].
      apply Hbefore; eauto.
    + rewrite Hrec. discriminate.
Qed.

Lemma run_invariant_run acts : run_invariant (run env acts initial).
Proof.
  induction acts as [|a acts IH] using rev_ind.
  - apply run_invariant_initial.
  - rewrite run_snoc. apply run_invariant_step, IH.
Qed.

End Invariants.

(* ===================================================================== *)
(** * The whole program: properties of every run *)
(* ===================================================================== *)

Section EveryRun.

Variable env : Env.

Implicit Types (s : Sys) (t : thread_id) (w : wstate) (n k : nat)
  (evs : trace) (acts : list action).

(** X1. No exception ever leaves [_record_worker]: in every run, every
    thread of the pool was started and was not ended by an exception, and
    at every program point the next statement of a worker returns. The
    [except] clauses of lines 101 and 114 and the executor catch whatever
    [Popen], [terminate] and [subprocess.run] raise. *)
Theorem worker_never_crashes acts n w :
  threads (run env acts initial) !! n = Some w ->
  w <> WCreated
  /\ (forall e, w <> WCrashed e)
  /\ (forall t s, exists w' s',
        _record_worker_step env w t s = (Returned w', s')).
Proof.
  intros Hn.
  destruct (run_invariant_run env acts) as (_ & Hbody & _).
  specialize (Hbody n w Hn).
  split; [intros ->; discriminate Hbody|].
  split; [intros e ->; discriminate Hbody|].
  intros t s.
  destruct (worker_step_frame env w t s) as (w' & b & evs & Hstep & _).
  eauto.
Qed.

(** X2. In every run the global [record_thread] names the thread created
    last: it is [None] exactly as long as no thread was created, and
    threads are numbered in the order of their creation. *)
Theorem record_thread_is_last acts :
  let s := run env acts initial in
  record_thread s = last_handle (threads s)
  /\ (record_thread s = None <-> threads s = [])
  /\ (forall k, record_thread s = Some k <-> length (threads s) = S k).
Proof.
  cbv zeta. destruct (run_invariant_run env acts) as (H1 & _).
  rewrite H1. unfold last_handle. split; [reflexivity|].
  destruct (threads (run env acts initial)) as [|w ths]; cbn [length].
  - repeat split; try discriminate; auto.
  - split; [split; discriminate|].
    intros k. split; intros H; congruence.
Qed.

(** X4. In every run, a worker leaves its loop only after the flag was
    reset: when a worker is at line 111 or after it, a stop request was
    accepted or the capture process of a worker did not start. Until
    then every thread is between line 89 and line 108, there is at most
    one, and the flag is on as soon as there is one. *)
Theorem teardown_needs_reset acts :
  let s := run env acts initial in
  (forall n w, threads s !! n = Some w -> past_loop w = true ->
               1 <= flag_resets s)
  /\ (flag_resets s = 0 ->
      (forall n w, threads s !! n = Some w -> before_teardown w = true)
      /\ length (threads s) <= 1
      /\ (threads s <> [] -> recording s = true)).
Proof.
  cbv zeta. destruct (run_invariant_run env acts) as (_ & _ & _ & H4).
  pose proof (flag_bound_run env acts) as Hb. unfold flag_bound in Hb.
  split.
  - intros n w Hn Hp.
    destruct (flag_resets (run env acts initial)) as [|r] eqn:E; [|lia].
    destruct (H4 eq_refl) as [Hall _]. specialize (Hall n w Hn).
    destruct w; cbn in *; congruence.
  - intros Hz. destruct (H4 Hz) as [Hall Hnil].
    split; [exact Hall|]. split.
    + destruct (recording (run env acts initial)); lia.
    + intros Hne. destruct (recording (run env acts initial)); [reflexivity|].
      contradiction Hne. auto.
Qed.

(** X5. One statement of a worker, in any state: it leaves the
    remembered thread, the number of threads and every other thread as
    they are, it never sets the flag [recording] (the only write of the
    worker, line 102, stores [False]), and it logs on its own thread
    only. *)
Theorem worker_statement_frame n s :
  let s' := sched env n s in
  record_thread s' = record_thread s
  /\ length (threads s') = length (threads s)
  /\ (forall m, m <> n -> threads s' !! m = threads s !! m)
  /\ (recording s' = true -> recording s = true)
  /\ exists evs,
       log s' = log s ++ evs
       /\ Forall (fun p : thread_id * event => p.1 = WorkerThread n) evs.
Proof.
  cbv zeta.
  destruct (sched_frame env n s)
    as [-> | (w & w' & b & evs & Hn & Hw & -> & Hown & _ & Hflag & _)].
  - repeat split; auto. exists []. rewrite app_nil_r. split; constructor.
  - cbn [set_thread relog recording record_thread threads log].
    split; [reflexivity|]. split; [apply length_insert|].
    split; [intros m Hm; apply list_lookup_insert_ne; congruence|].
    split; [|exists evs; split; [reflexivity | exact Hown]].
    intros Hb. destruct Hflag as [[Hsame _] | [Hfalse _]]; congruence.
Qed.

End EveryRun.

(* ===================================================================== *)
(** * The whole program: the command lines it hands to the tool *)
(* ===================================================================== *)

Section CommandLines.

Variable env : Env.

Implicit Types (s : Sys) (t : thread_id) (w : wstate) (n k : nat)
  (evs : trace) (acts : list action).

Lemma commands_app (E E' : list event) :
  commands (E ++ E') = commands E ++ commands E'.
Proof. unfold commands. apply omap_app. Qed.

Lemma commands_log_app evs evs' :
  commands (map snd (evs ++ evs'))
  = commands (map snd evs) ++ commands (map snd evs').
Proof. rewrite map_app. apply commands_app. Qed.

Lemma allowed_devices : allowed_cmd env devices_cmd.
Proof. left. reflexivity. Qed.

Lemma allowed_screenrecord : allowed_cmd env screenrecord_cmd.
Proof. right. right. left. reflexivity. Qed.

Lemma allowed_record_rm : allowed_cmd env (rm_cmd record_device_tmp).
Proof. do 3 right. left. reflexivity. Qed.

Lemma allowed_record_pull tr :
  allowed_cmd env
    (pull_cmd record_device_tmp (record_name (env_localtime env tr))).
Proof. do 5 right. left. exists tr. reflexivity. Qed.

(** The command lines in the history of a worker. *)
Lemma history_allowed w (E : list event) :
  worker_history env w E -> Forall (allowed_cmd env) (commands E).
Proof.
  destruct 1; try subst fn;
    repeat rewrite commands_app; try rewrite commands_polling;
    cbn [take teardown commands omap list_omap pull_report app aborting
         starting_status failed_status];
    repeat first [ apply List.Forall_nil
                 | apply List.Forall_cons
                 | apply allowed_screenrecord
                 | apply allowed_record_rm
                 | apply allowed_record_pull ].
Qed.

Lemma screenshot_run_allowed t s evs :
  screenshot_run t (env_run env (log s) devices_cmd)
    (env_localtime env
       (log s ++ [(t, EvRun devices_cmd (env_run env (log s) devices_cmd))]))
    evs ->
  Forall (allowed_cmd env) (commands (map snd evs)).
Proof.
  set (tr := log s ++ _).
  assert (Hpull : allowed_cmd env
            (pull_cmd screenshot_device_tmp
               (screenshot_name (env_localtime env tr))))
    by (do 6 right; exists tr; reflexivity).
  assert (Hcap : allowed_cmd env screencap_cmd) by (right; left; reflexivity).
  assert (Hrm : allowed_cmd env (rm_cmd screenshot_device_tmp))
    by (do 4 right; left; reflexivity).
  destruct 1; cbn [map snd commands omap list_omap devices_failed
                   no_device_warning];
    repeat first [ apply List.Forall_nil
                 | apply List.Forall_cons
                 | apply allowed_devices
                 | assumption ].
Qed.

Lemma step_allowed a s :
  consistent env s ->
  exists evs,
    log (step env a s) = log s ++ evs
    /\ Forall (allowed_cmd env) (commands (map snd evs)).
Proof.
  intros [Hhist _]. destruct a as [| | |n]; cbn [step].
  - rewrite start_recording_eq. cbv zeta.
    repeat match goal with
           | |- context [if ?c then _ else _] => destruct c
           end; cbn [snd logged started log];
      eexists; (split; [reflexivity|]);
      cbn [map snd commands omap list_omap app devices_failed
           no_device_warning already_recording];
      repeat first [ apply List.Forall_nil
                   | apply List.Forall_cons
                   | apply allowed_devices ].
  - rewrite stop_recording_eq.
    destruct (recording s); cbn [snd logged stopping log];
      eexists; (split; [reflexivity|]); apply List.Forall_nil.
  - destruct (take_screenshot_run env MainThread s) as (evs & -> & Hrun).
    cbn [snd logged log]. exists evs. split; [reflexivity|].
    eapply screenshot_run_allowed, Hrun.
  - destruct (threads s !! n) as [w|] eqn:Hn;
      [|rewrite sched_idle by congruence; exists [];
        rewrite app_nil_r; split; [reflexivity | apply List.Forall_nil]].
    destruct (is_alive w) eqn:Hw;
      [|rewrite sched_idle by congruence; exists [];
        rewrite app_nil_r; split; [reflexivity | apply List.Forall_nil]].
    destruct (sched_alive env n s w _ Hn Hw (Hhist n w Hn))
      as (w' & b & evs & -> & _ & _ & Hh & _).
    exists evs. split; [reflexivity|].
    apply history_allowed in Hh. rewrite commands_app in Hh.
    apply Forall_app in Hh. apply Hh.
Qed.

(** X6. In every run, every command line handed to the tool, by
    [subprocess.run] or by [Popen], is one of these: the listing; the
    capture of a still or of a video to its fixed device path; the pull
    of the video path to a name [record_<time>.mp4], or of the still path
    to a name [screenshot_<time>.png], for a reading of the clock; the
    delete of one of the two fixed device paths. Nothing else is ever
    deleted, and nothing is ever written to the device but by a
    capture. *)
Theorem commands_are_allowed acts :
  Forall (allowed_cmd env)
    (commands (map snd (log (run env acts initial)))).
Proof.
  induction acts as [|a acts IH] using rev_ind; [apply List.Forall_nil|].
  rewrite run_snoc.
  destruct (step_allowed a _ (consistent_run env acts)) as (evs & -> & Hev).
  rewrite commands_log_app. apply Forall_app. split; assumption.
Qed.

(** X7. A screenshot request, in any state and whatever the tool
    answers, returns; it leaves the flag [recording], the remembered
    thread and the threads as they are; and the command lines it hands
    to the tool are the first one, two, three or all four of: the
    listing, the capture to the still path, the pull of that path, its
    delete. The device path of the recording is never touched. *)
Theorem take_screenshot_frame t s :
  let s' := snd (take_screenshot env t s) in
  fst (take_screenshot env t s) = Returned tt
  /\ recording s' = recording s
  /\ record_thread s' = record_thread s
  /\ threads s' = threads s
  /\ log s' = log s ++ emitted s s'
  /\ exists out_filename rest,
       screenshot_cmds out_filename
       = commands (map snd (emitted s s')) ++ rest
       /\ commands (map snd (emitted s s')) <> [].
Proof.
  cbv zeta.
  destruct (take_screenshot_run env t s) as (evs & -> & Hrun).
  cbn [fst snd]. rewrite emitted_logged.
  do 5 (split; [reflexivity|]).
  set (tm := env_localtime env _) in *. clearbody tm.
  exists (screenshot_name tm).
  destruct Hrun; cbn [map snd commands omap list_omap devices_failed
                      no_device_warning]; unfold screenshot_cmds.
  - eexists [_; _; _]. split; [reflexivity | discriminate].
  - eexists [_; _; _]. split; [reflexivity | discriminate].
  - eexists [_; _]. split; [reflexivity | discriminate].
  - eexists [_]. split; [reflexivity | discriminate].
  - exists []. split; [reflexivity | discriminate].
Qed.

End CommandLines.

(* ===================================================================== *)
(** * The presence check: what decides the answer *)
(* ===================================================================== *)

Section PresenceEdges.

Variable env : Env.

Implicit Types (s : Sys) (t : thread_id).

(** X8. The answer of the presence check in full. When [adbb devices]
    ran, presence is reported exactly when its error stream is blank
    (empty, or white space only) and a line after the first line of the
    trimmed listing counts; any other text on the error stream gives
    absence, whatever the listing shows. When the call raised, the answer
    is absence, also when the exception has no text. The check always
    returns. *)
Theorem error_stream_decides t s :
  let r0 := env_run env (log s) devices_cmd in
  (forall cp, r0 = Returned cp ->
     fst (check_device_connected env t s)
     = Returned (all_space (cp_stderr cp)
                 && shows_device (strip (cp_stdout cp))))
  /\ (forall e, r0 = Raised e ->
        fst (check_device_connected env t s) = Returned false).
Proof.
  cbv zeta. split.
  - intros cp Hrun. rewrite check_device_connected_eq. cbv zeta.
    fold devices_cmd. rewrite Hrun. cbn [stream_error stream_output].
    rewrite truthy_strip.
    destruct (all_space (cp_stderr cp)); cbn [negb andb]; [|reflexivity].
    destruct (shows_device _); reflexivity.
  - intros e Hrun. rewrite check_device_connected_eq. cbv zeta.
    fold devices_cmd. rewrite Hrun. cbn [stream_error stream_output].
    destruct (truthy (str e)); reflexivity.
Qed.

(** X9. In the condition of line 57 the test [ln.strip()] decides
    nothing: a line counts as a device exactly when the token [device]
    occurs in it, wherever it occurs. *)
Theorem device_line_is_token_test (ln : string) :
  device_line ln = str_in "device" ln.
Proof.
  unfold device_line. destruct (str_in "device" ln) eqn:E.
  - rewrite truthy_strip, (str_in_not_blank ln E). reflexivity.
  - apply andb_false_r.
Qed.

End PresenceEdges.

(* ===================================================================== *)
(** * The worker in its loop *)
(* ===================================================================== *)

Section Polling.

Variable env : Env.

Implicit Types (s : Sys) (n k : nat).

Lemma set_thread_same n s w :
  threads s !! n = Some w -> set_thread n w s = s.
Proof.
  intros H. destruct s as [r rt ths l]. unfold set_thread.
  cbn [threads recording record_thread log] in *.
  rewrite list_insert_id by exact H. reflexivity.
Qed.

(** Lines 107-108 once: the test with the flag on, and the sleep. *)
Lemma poll_once n s fn proc :
  recording s = true -> threads s !! n = Some (WPoll fn proc) ->
  run env [Sched n; Sched n] s = logged s [(WorkerThread n, EvSleep 200)].
Proof.
  intros Hrec Hn.
  assert (Hlt : n < length (threads s)) by (eapply lookup_lt_Some, Hn).
  rewrite !run_cons. cbn [run fold_left step].
  assert (H1 : sched env n s = set_thread n (WSleep fn proc) s).
  { unfold sched. rewrite Hn. cbn [is_alive _record_worker_step].
    unfold bind, get_recording, ret. rewrite Hrec. reflexivity. }
  rewrite H1.
  assert (H2 : threads (set_thread n (WSleep fn proc) s) !! n
               = Some (WSleep fn proc))
    by (apply set_thread_lookup; exact Hlt).
  unfold sched at 1. rewrite H2. cbn [is_alive _record_worker_step].
  unfold bind, time_sleep, ret. rewrite emit_eq.
  unfold set_thread, logged. cbn [threads recording record_thread log].
  rewrite list_insert_insert_eq, list_insert_id by exact Hn. reflexivity.
Qed.

(** X10. As long as the flag [recording] stays on, a worker in its loop
    does nothing but sleep: after any even number [2 * k] of its
    statements it is at the loop test again, [k] sleeps of 0.2 s were
    logged, and the flag, the threads and everything else are as before.
    The worker never leaves the loop by itself and hands the tool no
    command line while it waits. *)
Theorem polling_only_sleeps n k s fn proc :
  recording s = true -> threads s !! n = Some (WPoll fn proc) ->
  run env (repeat (Sched n) (2 * k)) s
  = logged s (repeat (WorkerThread n, EvSleep 200) k).
Proof.
  revert s. induction k as [|k IH]; intros s Hrec Hn.
  - cbn [Nat.mul repeat run fold_left]. unfold logged.
    destruct s. cbn. rewrite app_nil_r. reflexivity.
  - replace (2 * S k) with (S (S (2 * k))) by lia.
    change (repeat (Sched n) (S (S (2 * k))))
      with ([Sched n; Sched n] ++ repeat (Sched n) (2 * k)).
    unfold run at 1. rewrite fold_left_app.
    fold (run env [Sched n; Sched n] s).
    fold (run env (repeat (Sched n) (2 * k))
            (run env [Sched n; Sched n] s)).
    rewrite (poll_once n s fn proc Hrec Hn).
    rewrite IH by assumption.
    rewrite logged_logged. reflexivity.
Qed.

End Polling.

(* ===================================================================== *)
(** * A stop request that the worker never sees *)
(* ===================================================================== *)

Section MissedStop.

Lemma sleeps_own n k :
  Forall (fun p : thread_id * event => p.1 = WorkerThread n)
    (repeat (WorkerThread n, EvSleep 200) k).
Proof.
  induction k as [|k IH]; [apply List.Forall_nil|].
  apply List.Forall_cons; [reflexivity | exact IH].
Qed.

Lemma run_app env acts acts' s :
  run env (acts ++ acts') s = run env acts' (run env acts s).
Proof. unfold run. apply fold_left_app. Qed.

(** C6. Every session ends with one [terminate] and one pull: this
    fails. The worker learns of a stop request only by reading the flag
    [recording] at line 107, and a start request looks at the flag only
    (line 73). In the quick restart the stop request is accepted (line
    135) and the next start request sets the flag again (line 80) while
    the worker of the first session sleeps at line 108. However many
    statements that worker runs afterwards, it finds the flag on at every
    test: after [1 + 2 * k] more of its statements it is at the loop test
    again, it has logged the start of its capture process and [2 + k]
    sleeps and nothing else, no [terminate], no pull and no local file.
    The session that was started and stopped is never torn down. *)
Theorem restart_hides_stop k :
  let s := run world_ok (quick_restart ++ repeat (Sched 0) (1 + 2 * k))
             initial in
  let E := events_of (WorkerThread 0) (log s) in
  stops_accepted (log s) = 1
  /\ recording s = true
  /\ threads s = [WPoll "record_20240305_120009.mp4" 4711;
                  WPoll "record_20240305_120009.mp4" 4711]
  /\ E = polling 4711 (2 + k)
  /\ List.filter is_terminate E = []
  /\ commands E = [screenrecord_cmd]
  /\ local_files E = [].
Proof.
  cbv zeta.
  set (s1 := run world_ok (quick_restart ++ [Sched 0]) initial).
  assert (H1 : recording s1 = true) by (vm_compute; reflexivity).
  assert (H2 : threads s1 = [WPoll "record_20240305_120009.mp4" 4711;
                             WPoll "record_20240305_120009.mp4" 4711])
    by (vm_compute; reflexivity).
  assert (H3 : events_of (WorkerThread 0) (log s1) = polling 4711 2)
    by (vm_compute; reflexivity).
  assert (H4 : stops_accepted (log s1) = 1) by (vm_compute; reflexivity).
  assert (Hpoll : forall j s,
            recording s = true ->
            threads s !! 0 = Some (WPoll "record_20240305_120009.mp4" 4711) ->
            run world_ok (repeat (Sched 0) (2 * j)) s
            = logged s (repeat (WorkerThread 0, EvSleep 200) j)).
  { induction j as [|j IH]; intros s Hrec Hn.
    - cbn [Nat.mul repeat run fold_left]. unfold logged.
      destruct s. cbn [log recording record_thread threads].
      rewrite app_nil_r. reflexivity.
    - replace (2 * S j) with (S (S (2 * j))) by lia.
      cbn [repeat]. rewrite !run_cons.
      change (step world_ok (Sched 0) (step world_ok (Sched 0) s))
        with (run world_ok [Sched 0; Sched 0] s).
      rewrite (poll_once world_ok 0 s _ _ Hrec Hn).
      rewrite IH by assumption.
      rewrite logged_logged. reflexivity. }
  assert (Hrun : run world_ok (quick_restart ++ repeat (Sched 0) (1 + 2 * k))
                   initial
                 = logged s1 (repeat (WorkerThread 0, EvSleep 200) k)).
  { change (repeat (Sched 0) (1 + 2 * k))
      with ([Sched 0] ++ repeat (Sched 0) (2 * k)).
    rewrite app_assoc, run_app.
    apply (Hpoll k s1 H1). rewrite H2. reflexivity. }
  rewrite Hrun. clear Hrun Hpoll. clearbody s1.
  unfold logged. cbn [log recording threads].
  assert (HE : events_of (WorkerThread 0)
                 (log s1 ++ repeat (WorkerThread 0, EvSleep 200) k)
               = polling 4711 (2 + k)).
  { rewrite events_of_app, (events_of_own _ _ (sleeps_own 0 k)), map_repeat.
    rewrite H3. unfold polling. rewrite <- app_assoc, <- repeat_app.
    reflexivity. }
  rewrite HE.
  split; [rewrite stops_accepted_app,
            (stops_accepted_worker 0 _ (sleeps_own 0 k)), H4; reflexivity|].
  split; [exact H1|]. split; [exact H2|]. split; [reflexivity|].
  split; [apply terminate_polling|].
  split; [apply commands_polling | apply local_files_polling].
Qed.

End MissedStop.

(* ===================================================================== *)
(** * File names and the clock *)
(* ===================================================================== *)

Section FileNames.

Lemma matches_length pat s :
  matches pat s = true -> String.length s = String.length pat.
Proof.
  revert s. induction pat as [|p pat IH]; intros [|c s]; cbn;
    try discriminate; [reflexivity|].
  intros [_ H]%andb_prop. f_equal. apply IH, H.
Qed.

Lemma parse_dec_year y : 1000 <= y < 100 * 100 -> parse_dec (dec y) = y.
Proof.
  intros H. apply Nat.eqb_eq.
  apply (forallb_seq (fun y => parse_dec (dec y) =? y) 1000 (9 * 1000));
    [|lia].
  vm_compute. reflexivity.
Qed.

Lemma parse_dec_pad2 n : n < 100 -> parse_dec (pad2 n) = n.
Proof.
  intros H. apply Nat.eqb_eq.
  apply (forallb_seq (fun n => parse_dec (pad2 n) =? n) 0 100); [|lia].
  vm_compute. reflexivity.
Qed.

(** Strings of a known length, character by character. *)
Ltac spell A :=
  let H := fresh in
  match goal with
  | Hlen : String.length A = _ |- _ => rename Hlen into H
  end;
  repeat (destruct A as [|? A]; cbn [String.length] in H;
          try discriminate H; try (injection H as H));
  clear H.

Lemma parse_fields (A B C D E F before after : string) :
  String.length A = 4 -> String.length B = 2 -> String.length C = 2 ->
  String.length D = 2 -> String.length E = 2 -> String.length F = 2 ->
  parse_timestamp
    (substring (String.length before) 15
       (before +:+ (A +:+ B +:+ C +:+ "_" +:+ D +:+ E +:+ F +:+ "")
        +:+ after))
  = {| tm_year := parse_dec A; tm_mon := parse_dec B; tm_mday := parse_dec C;
       tm_hour := parse_dec D; tm_min := parse_dec E; tm_sec := parse_dec F |}.
Proof.
  intros HA HB HC HD HE HF.
  assert (Hsub : forall body,
            substring (String.length before) 15 (before +:+ body)
            = substring 0 15 body).
  { intros body. induction before as [|c before IH]; [reflexivity|].
    cbn [String.length String.append substring]. exact IH. }
  assert (Hnone : forall body, substring 0 0 body = "")
    by (intros [|c body]; reflexivity).
  rewrite Hsub.
  spell A. spell B. spell C. spell D. spell E. spell F.
  unfold parse_timestamp. cbn [substring String.append].
  rewrite !Hnone. reflexivity.
Qed.

Lemma stamp_fields t :
  valid_time t ->
  String.length (dec (tm_year t)) = 4
  /\ String.length (pad2 (tm_mon t)) = 2
  /\ String.length (pad2 (tm_mday t)) = 2
  /\ String.length (pad2 (tm_hour t)) = 2
  /\ String.length (pad2 (tm_min t)) = 2
  /\ String.length (pad2 (tm_sec t)) = 2.
Proof.
  intros (Hy & Hm & Hd & HH & HM & HS).
  repeat split;
    first [ apply (matches_length "YYYY"), dec_year; lia
          | apply (matches_length "DD"), pad2_shape; [reflexivity | lia] ].
Qed.

Lemma stamp_parsed t before after :
  valid_time t ->
  parse_timestamp
    (substring (String.length before) 15
       (before +:+ strftime timestamp_format t +:+ after))
  = t.
Proof.
  intros Hv. destruct (stamp_fields t Hv) as (HA & HB & HC & HD & HE & HF).
  destruct Hv as (Hy & Hm & Hd & HH & HM & HS).
  change (strftime timestamp_format t)
    with (dec (tm_year t) +:+ pad2 (tm_mon t) +:+ pad2 (tm_mday t)
          +:+ "_" +:+ pad2 (tm_hour t) +:+ pad2 (tm_min t)
          +:+ pad2 (tm_sec t) +:+ "").
  rewrite parse_fields by assumption.
  rewrite parse_dec_year by lia.
  rewrite !parse_dec_pad2 by lia.
  destruct t. reflexivity.
Qed.

(** X11. The time can be read back from a file name: for every reading
    of the clock with a four-digit year, the six fields of the time stamp
    in [record_<stamp>.mp4] and in [screenshot_<stamp>.png] give the
    reading back. Hence two recordings, or two screenshots, get the same
    local file name exactly when the clock reads the same second for
    both. *)
Theorem file_name_of_time (t t' : struct_time) :
  valid_time t -> valid_time t' ->
  time_of_record_name (record_name t) = t
  /\ time_of_screenshot_name (screenshot_name t) = t
  /\ (record_name t = record_name t' <-> t = t')
  /\ (screenshot_name t = screenshot_name t' <-> t = t').
Proof.
  intros Hv Hv'.
  assert (Hr : forall u, valid_time u -> time_of_record_name (record_name u) = u)
    by (intros u Hu; apply (stamp_parsed u "record_" ".mp4" Hu)).
  assert (Hs : forall u, valid_time u ->
                         time_of_screenshot_name (screenshot_name u) = u)
    by (intros u Hu; apply (stamp_parsed u "screenshot_" ".png" Hu)).
  split; [apply Hr, Hv|]. split; [apply Hs, Hv|].
  split; (split; [intros H | intros ->; reflexivity]).
  - rewrite <- (Hr t Hv), <- (Hr t' Hv'), H. reflexivity.
  - rewrite <- (Hs t Hv), <- (Hs t' Hv'), H. reflexivity.
Qed.

End FileNames.

(* ===================================================================== *)
(** * A session from any state *)
(* ===================================================================== *)

Section Sessions.

Variable env : Env.

Implicit Types (s : Sys) (n k : nat) (w : wstate).

(** Statements of one worker only: the remembered thread, the number of
    threads and the other threads stay, and the worker stays in the body
    of [_record_worker]. *)
Lemma solo_step_frame n s :
  record_thread (sched env n s) = record_thread s
  /\ length (threads (sched env n s)) = length (threads s)
  /\ (forall m, m <> n -> threads (sched env n s) !! m = threads s !! m)
  /\ (forall w, threads s !! n = Some w -> in_body w = true ->
        exists w', threads (sched env n s) !! n = Some w'
                   /\ in_body w' = true).
Proof.
  destruct (sched_frame env n s)
    as [-> | (w0 & w1 & b & evs & Hn & _ & -> & _ & Hb & _)].
  - repeat split; eauto.
  - cbn [set_thread relog recording record_thread threads log].
    split; [reflexivity|]. split; [apply length_insert|].
    split; [intros m Hm; apply list_lookup_insert_ne; congruence|].
    intros w Hw Hbody. exists w1. split.
    + apply list_lookup_insert_eq. eapply lookup_lt_Some, Hn.
    + apply Hb. congruence.
Qed.

Lemma solo_run_frame n k : forall s,
  record_thread (run env (repeat (Sched n) k) s) = record_thread s
  /\ length (threads (run env (repeat (Sched n) k) s)) = length (threads s)
  /\ (forall m, m <> n ->
        threads (run env (repeat (Sched n) k) s) !! m = threads s !! m)
  /\ (forall w, threads s !! n = Some w -> in_body w = true ->
        exists w', threads (run env (repeat (Sched n) k) s) !! n = Some w'
                   /\ in_body w' = true).
Proof.
  induction k as [|k IH]; intros s.
  - cbn [repeat run fold_left]. repeat split; eauto.
  - cbn [repeat]. rewrite run_cons. cbn [step].
    destruct (IH (sched env n s)) as (H1 & H2 & H3 & H4).
    destruct (solo_step_frame n s) as (G1 & G2 & G3 & G4).
    split; [congruence|]. split; [congruence|].
    split; [intros m Hm; rewrite H3, G3 by exact Hm; reflexivity|].
    intros w Hw Hbody. destruct (G4 w Hw Hbody) as (w1 & Hw1 & Hb1).
    apply (H4 w1 Hw1 Hb1).
Qed.

(** X12. A whole session, from any state in which the flag [recording]
    is off and the presence check finds a device: after a start request,
    any number [k] of statements of the new worker, a stop request and
    ten more statements of that worker, the flag is off again, the new
    worker has ended (at line 127, or at line 105 when its capture
    process did not start), it is the remembered thread, and every other
    thread is as it was: the thread list is the one before with the ended
    worker appended. *)
Theorem session_round_trip s k :
  recording s = false ->
  fst (check_device_connected env MainThread s) = Returned true ->
  let n := length (threads s) in
  let s1 := step env ClickStart s in
  let s2 := run env (repeat (Sched n) k) s1 in
  let s3 := step env ClickStop s2 in
  let s4 := run env (repeat (Sched n) 10) s3 in
  recording s1 = true
  /\ recording s4 = false
  /\ record_thread s4 = Some n
  /\ (threads s4 = threads s ++ [WDone]
      \/ threads s4 = threads s ++ [WAborted]).
Proof.
  intros Hrec Hdev. cbv zeta.
  set (n := length (threads s)).
  assert (Hs1 : exists evs, step env ClickStart s = started MainThread s evs).
  { cbn [step]. rewrite start_recording_eq. cbv zeta. rewrite Hrec.
    rewrite check_device_connected_eq in Hdev. cbv zeta in Hdev.
    fold devices_cmd in Hdev.
    destruct (truthy (stream_error (env_run env (log s) devices_cmd)));
      [discriminate Hdev|].
    destruct (shows_device (stream_output (env_run env (log s) devices_cmd)));
      [|discriminate Hdev].
    eexists. reflexivity. }
  destruct Hs1 as (evs & Hs1). rewrite Hs1.
  set (s1 := started MainThread s evs).
  assert (Hn1 : threads s1 !! n = Some WInit).
  { unfold s1, started, n. cbn [threads].
    rewrite lookup_app_r by lia. rewrite Nat.sub_diag. reflexivity. }
  destruct (solo_run_frame n k s1) as (A1 & A2 & A3 & A4).
  destruct (A4 WInit Hn1 eq_refl) as (w2 & Hn2 & Hb2).
  set (s2 := run env (repeat (Sched n) k) s1) in *.
  assert (Hs3 : recording (step env ClickStop s2) = false
                /\ record_thread (step env ClickStop s2) = record_thread s2
                /\ threads (step env ClickStop s2) = threads s2).
  { cbn [step]. rewrite stop_recording_eq.
    destruct (recording s2) eqn:E;
      cbn [snd logged stopping recording record_thread threads];
      repeat split; first [reflexivity | exact E]. }
  destruct Hs3 as (B1 & B2 & B3).
  set (s3 := step env ClickStop s2) in *.
  assert (Hn3 : threads s3 !! n = Some w2) by (rewrite B3; exact Hn2).
  destruct (flag_off_run env n 10 s3 w2 B1 Hn3)
    as (C1 & w4 & Hn4 & Hl & Hb4 & _).
  destruct (solo_run_frame n 10 s3) as (D1 & D2 & D3 & _).
  set (s4 := run env (repeat (Sched n) 10) s3) in *.
  assert (H0 : steps_left w4 = 0) by (destruct w2; cbn in Hl; lia).
  split; [reflexivity|]. split; [exact C1|].
  split; [rewrite D1, B2, A1; reflexivity|].
  assert (Hths : threads s4 = threads s ++ [w4]).
  { apply list_eq. intros m.
    destruct (decide (m = n)) as [-> | Hm].
    - rewrite Hn4. rewrite lookup_app_r by (unfold n; lia).
      unfold n. rewrite Nat.sub_diag. reflexivity.
    - rewrite D3, B3, A3 by exact Hm. unfold s1, started. cbn [threads].
      destruct (decide (m < n)) as [Hlt | Hge].
      + rewrite !lookup_app_l by exact Hlt. reflexivity.
      + rewrite !lookup_app_r by (unfold n in *; lia).
        destruct (m - length (threads s)) as [|d] eqn:Ed;
          [unfold n in *; lia | reflexivity]. }
  rewrite Hths.
  destruct (steps_left_none w4 (Hb4 Hb2) H0) as [-> | ->]; auto.
Qed.

End Sessions.

(* ===================================================================== *)
(** * Which thread does what *)
(* ===================================================================== *)

Section Threads.

Variable env : Env.

Implicit Types (s : Sys) (t : thread_id) (w : wstate) (n : nat)
  (evs : trace) (acts : list action).

Lemma worker_step_events w t s :
  exists w' b evs,
    _record_worker_step env w t s = (Returned w', relog s b evs)
    /\ Forall (fun p : thread_id * event =>
                 fst p = t /\ worker_event (snd p) = true) evs.
Proof.
  destruct (_record_worker_step env w t s) as [r s'] eqn:Hs.
  destruct w; cbn [_record_worker_step] in Hs; worker_in Hs;
    injection Hs as <- <-; try rewrite logged_relog;
    first
      [ do 3 eexists; split; [reflexivity|]
      | eexists _, _, []; split;
        [ apply f_equal2;
          [ reflexivity
          | first [ apply relog_same; first [assumption | reflexivity]
                  | apply relog_flag ] ] |] ];
    repeat first [ apply List.Forall_nil
                 | apply List.Forall_cons; [split; reflexivity|] ].
Qed.

Lemma thread_discipline_mono k k' p :
  k <= k' -> thread_discipline k p -> thread_discipline k' p.
Proof.
  unfold thread_discipline. destruct (fst p); [auto|]. intros ? [? ?].
  split; [lia | assumption].
Qed.

Lemma main_discipline k evs :
  Forall (fun p : thread_id * event =>
            fst p = MainThread /\ main_event (snd p) = true) evs ->
  Forall (thread_discipline k) evs.
Proof.
  apply List.Forall_impl. intros [t ev] [Ht Hev]. cbn [fst snd] in *.
  subst t. exact Hev.
Qed.

Lemma step_discipline a s :
  exists evs,
    log (step env a s) = log s ++ evs
    /\ length (threads s) <= length (threads (step env a s))
    /\ Forall (thread_discipline (length (threads (step env a s)))) evs.
Proof.
  destruct a as [| | |n]; cbn [step].
  - rewrite start_recording_eq. cbv zeta.
    repeat match goal with
           | |- context [if ?c then _ else _] => destruct c
           end; cbn [snd logged started log threads];
      eexists; (split; [reflexivity|]);
      (split; [try rewrite length_app; cbn [length]; lia|]);
      apply main_discipline;
      cbn [app devices_failed no_device_warning already_recording];
      repeat first [ apply List.Forall_nil
                   | apply List.Forall_cons; [split; reflexivity|] ].
  - rewrite stop_recording_eq.
    destruct (recording s); cbn [snd logged stopping log threads];
      eexists; (split; [reflexivity|]); (split; [lia|]);
      apply main_discipline;
      repeat first [ apply List.Forall_nil
                   | apply List.Forall_cons; [split; reflexivity|] ].
  - destruct (take_screenshot_run env MainThread s) as (evs & -> & Hrun).
    cbn [snd logged log threads]. exists evs. split; [reflexivity|].
    split; [lia|]. apply main_discipline.
    destruct Hrun; cbn [devices_failed no_device_warning];
      repeat first [ apply List.Forall_nil
                   | apply List.Forall_cons; [split; reflexivity|] ].
  - unfold sched. destruct (threads s !! n) as [w|] eqn:Hn;
      [|exists []; rewrite app_nil_r; split; [reflexivity|];
        split; [lia | apply List.Forall_nil]].
    destruct (is_alive w);
      [|exists []; rewrite app_nil_r; split; [reflexivity|];
        split; [lia | apply List.Forall_nil]].
    destruct (worker_step_events w (WorkerThread n) s)
      as (w' & b & evs & -> & Hev).
    cbn [set_thread relog log threads]. rewrite length_insert.
    exists evs. split; [reflexivity|]. split; [lia|].
    revert Hev. apply List.Forall_impl. intros [t ev] [Ht Hev].
    cbn [fst snd] in *. subst t. unfold thread_discipline. cbn [fst snd].
    split; [eapply lookup_lt_Some, Hn | exact Hev].
Qed.

(** X14. Which thread does what, in every run. Dialogs are opened and
    threads are started by the main thread only; capture processes are
    started and ended, and [time.sleep] is called, by workers only, so
    the main thread (the event loop of the window) never sleeps; and
    every worker that did something is one of the threads created by a
    start request. *)
Theorem threads_keep_to_their_work acts :
  let s := run env acts initial in
  Forall (thread_discipline (length (threads s))) (log s)
  /\ (forall t title msg,
        In (t, EvShowError title msg) (log s)
        \/ In (t, EvShowWarning title msg) (log s)
        \/ In (t, EvShowInfo title msg) (log s) -> t = MainThread)
  /\ (forall t k, In (t, EvThreadStart k) (log s) -> t = MainThread)
  /\ (forall t ev,
        In (t, ev) (log s) ->
        (exists ms, ev = EvSleep ms) \/ (exists argv r, ev = EvPopen argv r)
        \/ (exists proc r, ev = EvTerminate proc r) ->
        exists n, t = WorkerThread n /\ n < length (threads s)).
Proof.
  cbv zeta.
  assert (H : Forall (thread_discipline (length (threads (run env acts initial))))
                (log (run env acts initial))).
  { induction acts as [|a acts IH] using rev_ind; [apply List.Forall_nil|].
    rewrite run_snoc.
    destruct (step_discipline a (run env acts initial))
      as (evs & -> & Hle & Hev).
    apply Forall_app. split; [|exact Hev].
    revert IH. apply List.Forall_impl. intros p.
    apply thread_discipline_mono, Hle. }
  split; [exact H|].
  rewrite List.Forall_forall in H. unfold thread_discipline in H.
  split; [|split].
  - intros t title msg [Hin | [Hin | Hin]]; apply H in Hin;
      cbn [fst snd] in Hin; destruct t as [|n];
      first [reflexivity | destruct Hin; discriminate].
  - intros t k Hin. apply H in Hin. cbn [fst snd] in Hin.
    destruct t as [|n]; [reflexivity | destruct Hin; discriminate].
  - intros t ev Hin Hev. apply H in Hin. cbn [fst snd] in Hin.
    destruct t as [|n]; [|exists n; split; [reflexivity | apply Hin]].
    destruct Hev as [(ms & ->) | [(argv & r & ->) | (proc & r & ->)]];
      discriminate Hin.
Qed.

End Threads.

(* ===================================================================== *)
(** * The program by statements of the handlers *)
(* ===================================================================== *)

Section ByStatement.

Variable env : Env.

Implicit Types (s : Sys) (m : mstate) (a : App) (u : turn)
  (us : list turn) (n k : nat).

Lemma turns_snoc us u a :
  turns env (us ++ [u]) a = turn_step env u (turns env us a).
Proof. unfold turns. rewrite fold_left_app. reflexivity. Qed.

Lemma logged_nil s : logged s [] = s.
Proof. destruct s. unfold logged. cbn. rewrite app_nil_r. reflexivity. Qed.

(** A statement of a handler other than lines 80, 81, 82 and 135 returns
    and leaves the flag, the remembered thread and the threads alone. *)
Lemma handler_step_frame m s :
  m <> MStart80 -> m <> MStart81 -> m <> MStart82 -> m <> MStop135 ->
  exists m' evs,
    handler_step env m MainThread s = (Returned m', logged s evs)
    /\ starting_thread m' = false.
Proof.
  intros H80 H81 H82 H135.
  destruct (handler_step env m MainThread s) as [r s'] eqn:Hs.
  destruct m; try congruence; cbn [handler_step] in Hs; py_in Hs;
    injection Hs as <- <-;
    first [ eexists _, _; split; reflexivity
          | eexists _, []; rewrite logged_nil; split; reflexivity ].
Qed.

(** Line 82, when the remembered thread was created and not started. *)
Lemma handler_step_start s k :
  record_thread s = Some k -> threads s !! k = Some WCreated ->
  handler_step env MStart82 MainThread s
  = (Returned MStart83,
     logged (set_thread k WInit s) [(MainThread, EvThreadStart k)]).
Proof.
  intros Hrt Hk. cbn [handler_step]. unfold bind, get_record_thread.
  cbv beta iota. rewrite Hrt. unfold Thread_start. rewrite Hk, emit_eq.
  reflexivity.
Qed.

Lemma starting_thread_cases m :
  m = MStart80 \/ m = MStart81 \/ m = MStart82 \/ m = MStop135
  \/ (m <> MStart80 /\ m <> MStart81 /\ m <> MStart82 /\ m <> MStop135
      /\ starting_thread m = false).
Proof.
  destruct m; auto 10; do 4 right; repeat split; discriminate.
Qed.

Lemma app_invariant_launched : app_invariant launched.
Proof.
  split; [reflexivity|]. split; [discriminate|]. discriminate.
Qed.

Lemma app_invariant_step u a :
  app_invariant a -> app_invariant (turn_step env u a).
Proof.
  destruct a as [m s]. unfold app_invariant. cbn [main_pc sys].
  intros (H1 & H2 & H3).
  destruct u as [h| |n]; cbn [turn_step main_pc sys].
  - destruct m; cbn [main_pc sys]; try (split; [|split]; assumption).
    split; [exact H1|]. split; [destruct h; discriminate|].
    intros Hrec _. apply H3; [exact Hrec | reflexivity].
  - destruct (starting_thread_cases m)
      as [-> | [-> | [-> | [-> | (A & B & C & D & Hm)]]]].
    + cbn. split; [exact H1|]. split; discriminate.
    + cbn. split; [symmetry; apply last_handle_app|].
      split; [|discriminate].
      intros _. exists (length (threads s)).
      rewrite length_app, Nat.add_1_r. split; [reflexivity|].
      rewrite lookup_app_r by lia. rewrite Nat.sub_diag. reflexivity.
    + destruct (H2 eq_refl) as (k & Hlen & Hk).
      assert (Hrt : record_thread s = Some k)
        by (rewrite H1; unfold last_handle; rewrite Hlen; reflexivity).
      rewrite (handler_step_start s k Hrt Hk).
      cbn [main_pc sys logged set_thread recording record_thread threads log].
      unfold last_handle in *. rewrite length_insert.
      split; [exact H1|]. split; [discriminate|].
      intros _ _. exists k, WInit. split; [exact Hlen|].
      split; [|reflexivity].
      apply list_lookup_insert_eq. lia.
    + cbn. split; [exact H1|]. split; discriminate.
    + destruct (handler_step_frame m s A B C D) as (m' & evs & -> & Hm').
      cbn [main_pc sys logged recording record_thread threads].
      split; [exact H1|].
      split; [intros ->; discriminate Hm'|].
      intros Hrec _. apply H3; assumption.
  - destruct (sched_frame env n s)
      as [-> | (w & w' & b & evs & Hn & Hw & -> & _ & _ & Hflag
                & _ & Hbefore)];
      [split; [|split]; assumption|].
    assert (Hlt : n < length (threads s)) by (eapply lookup_lt_Some, Hn).
    cbn [set_thread relog recording record_thread log threads].
    unfold last_handle in *. rewrite length_insert.
    split; [exact H1|]. split.
    + intros Hm. destruct (H2 Hm) as (k & Hlen & Hk).
      exists k. split; [exact Hlen|].
      destruct (decide (k = n)) as [->|Hne].
      * rewrite Hn in Hk. injection Hk as ->. discriminate Hw.
      * rewrite list_lookup_insert_ne by congruence. exact Hk.
    + intros Hb Hm. subst b.
      destruct Hflag as [[Hsame _] | [Hfalse _]]; [|discriminate Hfalse].
      symmetry in Hsame.
      destruct (H3 Hsame Hm) as (k & wk & Hlen & Hk & Hbt).
      destruct (decide (k = n)) as [->|Hne].
      * exists n, w'. split; [exact Hlen|].
        split; [apply list_lookup_insert_eq; exact Hlt|].
        rewrite Hn in Hk. injection Hk as <-.
        apply Hbefore; auto.
      * exists k, wk. split; [exact Hlen|]. split; [|exact Hbt].
        rewrite list_lookup_insert_ne by congruence. exact Hk.
Qed.

Lemma app_invariant_turns us : app_invariant (turns env us launched).
Proof.
  induction us as [|u us IH] using rev_ind; [apply app_invariant_launched|].
  rewrite turns_snoc. apply app_invariant_step, IH.
Qed.

Lemma turns_cons u us a :
  turns env (u :: us) a = turns env us (turn_step env u a).
Proof. reflexivity. Qed.

Lemma turns_app us us' a :
  turns env (us ++ us') a = turns env us' (turns env us a).
Proof. unfold turns. apply fold_left_app. Qed.

Lemma main_turn m s :
  turn_step env TMain {| main_pc := m; sys := s |}
  = match handler_step env m MainThread s with
    | (Returned m', s') => {| main_pc := m'; sys := s' |}
    | (Raised _, s') => {| main_pc := MIdle; sys := s' |}
    end.
Proof. reflexivity. Qed.

(** Both sides of an equation between a run by statements and a handler
    call, one statement after the other. *)
Ltac handlers_both :=
  repeat first
    [ rewrite turns_cons, main_turn
    | progress cbn [handler_step]
    | rewrite check_device_connected_eq; fold devices_cmd
    | rewrite adb_cmd_eq
    | rewrite emit_eq
    | rewrite logged_logged
    | progress cbv beta iota zeta
    | progress cbn [negb recording record_thread threads log logged app
                    fst snd]
    | rewrite <- app_assoc
    | progress (unfold set_status, messagebox_showerror, messagebox_showinfo,
                messagebox_showwarning, time_strftime, ret,
                get_recording, set_recording, set_record_thread,
                get_record_thread, threading_Thread)
    | progress (unfold bind at 1)
    | match goal with
      | |- context [if ?c then _ else _] => destruct c eqn:?
      end ].

(** A handler that no worker statement interrupts does what [step] says
    of its click, and the interactive thread is idle again. *)
Lemma uninterrupted_handler h s :
  turns env (uninterrupted h) {| main_pc := MIdle; sys := s |}
  = {| main_pc := MIdle; sys := step env (button h) s |}.
Proof.
  unfold uninterrupted. cbn [repeat]. rewrite turns_cons.
  cbn [turn_step main_pc sys].
  destruct h; cbn [entry button step].
  - unfold start_recording. handlers_both; try reflexivity.
    unfold Thread_start. cbn [threads set_thread].
    rewrite lookup_app_r by lia. rewrite Nat.sub_diag.
    cbn [lookup list_lookup]. handlers_both. reflexivity.
  - unfold stop_recording. handlers_both; reflexivity.
  - unfold take_screenshot. handlers_both; reflexivity.
Qed.



End ByStatement.

(* ===================================================================== *)
(** * The properties of the whole program on the sample worlds *)
(* ===================================================================== *)

Lemma worker_never_crashes_witness :
  let s := run world_no_capture [ClickStart; Sched 0] initial in
  threads s !! 0 = Some (WSpawn "record_20240305_120009.mp4")
  /\ exists w' s',
       _record_worker_step world_no_capture
         (WSpawn "record_20240305_120009.mp4") (WorkerThread 0) s
       = (Returned w', s').
Proof.
  cbv zeta.
  assert (H : threads (run world_no_capture [ClickStart; Sched 0] initial)
              !! 0 = Some (WSpawn "record_20240305_120009.mp4"))
    by reflexivity.
  split; [exact H|].
  exact (proj2 (proj2 (worker_never_crashes world_no_capture
                         [ClickStart; Sched 0] 0 _ H))
           (WorkerThread 0) _).
Defined.

Lemma teardown_needs_reset_witness :
  let s := run world_ok session initial in
  threads s !! 0 = Some WDone /\ past_loop WDone = true
  /\ 1 <= flag_resets s.
Proof.
  cbv zeta.
  assert (H1 : threads (run world_ok session initial) !! 0 = Some WDone)
    by reflexivity.
  assert (H2 : past_loop WDone = true) by reflexivity.
  split; [exact H1|]. split; [exact H2|].
  exact (proj1 (teardown_needs_reset world_ok session) 0 WDone H1 H2).
Defined.

Lemma worker_statement_frame_witness :
  let s := run world_ok restart initial in
  1 <> 0
  /\ threads (sched world_ok 0 s) !! 1 = threads s !! 1
  /\ recording (sched world_ok 0 s) = true
  /\ recording s = true.
Proof.
  cbv zeta.
  assert (H1 : 1 <> 0) by discriminate.
  assert (H2 : recording (sched world_ok 0 (run world_ok restart initial))
               = true) by reflexivity.
  destruct (worker_statement_frame world_ok 0 (run world_ok restart initial))
    as (_ & _ & Hothers & Hflag & _).
  split; [exact H1|]. split; [exact (Hothers 1 H1)|].
  split; [exact H2 | exact (Hflag H2)].
Defined.

Lemma error_stream_decides_witness :
  env_run world_daemon_starts (log initial) devices_cmd
  = completed listing_one_device daemon_notice
  /\ shows_device (strip listing_one_device) = true
  /\ fst (check_device_connected world_daemon_starts MainThread initial)
     = Returned false.
Proof.
  assert (H1 : env_run world_daemon_starts (log initial) devices_cmd
               = completed listing_one_device daemon_notice)
    by reflexivity.
  assert (H2 : shows_device (strip listing_one_device) = true)
    by reflexivity.
  split; [exact H1|]. split; [exact H2|].
  rewrite (proj1 (error_stream_decides world_daemon_starts MainThread initial)
             _ H1).
  reflexivity.
Defined.

Lemma polling_only_sleeps_witness :
  let s := run world_ok [ClickStart; Sched 0; Sched 0] initial in
  recording s = true
  /\ threads s !! 0 = Some (WPoll "record_20240305_120009.mp4" 4711)
  /\ run world_ok (repeat (Sched 0) 6) s
     = logged s (repeat (WorkerThread 0, EvSleep 200) 3).
Proof.
  cbv zeta.
  assert (H1 : recording (run world_ok [ClickStart; Sched 0; Sched 0] initial)
               = true) by reflexivity.
  assert (H2 : threads (run world_ok [ClickStart; Sched 0; Sched 0] initial)
               !! 0 = Some (WPoll "record_20240305_120009.mp4" 4711))
    by reflexivity.
  split; [exact H1|]. split; [exact H2|].
  exact (polling_only_sleeps world_ok 0 3 _ _ _ H1 H2).
Defined.

Lemma file_name_of_time_witness :
  valid_time noon /\ valid_time christmas
  /\ time_of_record_name (record_name christmas) = christmas
  /\ time_of_screenshot_name (screenshot_name christmas) = christmas
  /\ record_name noon <> record_name christmas.
Proof.
  assert (H1 : valid_time noon)
    by (unfold valid_time, noon; cbn [tm_year tm_mon tm_mday tm_hour tm_min
                                      tm_sec]; lia).
  assert (H2 : valid_time christmas)
    by (unfold valid_time, christmas;
        cbn [tm_year tm_mon tm_mday tm_hour tm_min tm_sec]; lia).
  destruct (file_name_of_time christmas noon H2 H1) as (Hr & Hs & Hinj & _).
  split; [exact H1|]. split; [exact H2|]. split; [exact Hr|].
  split; [exact Hs|].
  intros H. symmetry in H. apply Hinj in H. discriminate H.
Defined.

Lemma session_round_trip_witness :
  let s := run world_ok session initial in
  let s4 := run world_ok (repeat (Sched 1) 10)
              (step world_ok ClickStop
                 (run world_ok (repeat (Sched 1) 3)
                    (step world_ok ClickStart s))) in
  recording s = false
  /\ fst (check_device_connected world_ok MainThread s) = Returned true
  /\ threads s = [WDone]
  /\ recording s4 = false
  /\ record_thread s4 = Some 1
  /\ (threads s4 = [WDone; WDone] \/ threads s4 = [WDone; WAborted]).
Proof.
  cbv zeta.
  assert (H1 : recording (run world_ok session initial) = false)
    by reflexivity.
  assert (H2 : fst (check_device_connected world_ok MainThread
                      (run world_ok session initial)) = Returned true)
    by reflexivity.
  assert (H3 : threads (run world_ok session initial) = [WDone])
    by reflexivity.
  destruct (session_round_trip world_ok (run world_ok session initial) 3
              H1 H2) as (_ & G1 & G2 & G3).
  rewrite H3 in G2, G3.
  split; [exact H1|]. split; [exact H2|]. split; [exact H3|].
  split; [exact G1|]. split; [exact G2 | exact G3].
Defined.

Lemma threads_keep_to_their_work_witness :
  let s := run world_ok session initial in
  In (WorkerThread 0, EvSleep 1000) (log s)
  /\ exists n, WorkerThread 0 = WorkerThread n /\ n < length (threads s).
Proof.
  cbv zeta.
  assert (H : In (WorkerThread 0, EvSleep 1000)
                (log (run world_ok session initial)))
    by (vm_compute; repeat first [left; reflexivity | right]).
  split; [exact H|].
  exact (proj2 (proj2 (proj2 (threads_keep_to_their_work world_ok session)))
           _ _ H (or_introl (ex_intro _ 1000 eq_refl))).
Defined.

